(** * vispy.oogl: buffers and textures

    A shallow embedding of [vispy/oogl/buffer.py] and
    [vispy/oogl/texture.py].  Python objects become records, methods become
    functions that return either the updated object or the exception that
    the method raises, and the OpenGL calls issued by the [_update] methods
    are collected in a trace.

    - A method of buffer.py that raises on an existing object does so
      before it assigns any attribute (a view only refreshes the copies of
      its base's properties before), so the object of a failed call is the
      object before the call; a constructor that raises returns no object.
    - Arguments have the types the methods are written for: arrays are
      arrays, offsets, counts and levels are integers.
    - The values of an array are exact rationals; the rounding of float16
      and float32 arithmetic is not modelled.
    - The base class [GLObject] and the module [gl] are not part of the two
      files; what is used of them is stated where it is used. *)

From Stdlib Require Import ZArith QArith String Ascii.
From stdpp Require Import gmap strings list pretty.

#[local] Set Warnings "-register-all".
Local Close Scope Q_scope.
Local Open Scope Z_scope.

(** ** Python exceptions and fallible calls *)

Inductive exn : Type :=
| ValueError (msg : string)
| TypeError (msg : string)
| RuntimeError (msg : string)
| KeyError (msg : string)
| AttributeError (msg : string)
| AssertionError
| RecursionError
| ZeroDivisionError
| TextureError (msg : string).

Inductive result (A : Type) : Type :=
| Ok (a : A)
| Raise (e : exn).

Arguments Ok {A} a.
Arguments Raise {A} e.

#[global] Instance result_ret : MRet result := fun A a => Ok a.
#[global] Instance result_bind : MBind result := fun A B k r =>
  match r with
  | Ok a => k a
  | Raise e => Raise e
  end.

(** [assert c] *)
Definition assert (c : bool) : result unit :=
  if c then Ok tt else Raise AssertionError.

Definition fails {A : Type} (r : result A) : Prop :=
  exists e, r = Raise e.

(** ** numpy: dtypes and arrays *)

Module Np.

(** A dtype is a scalar type ([np.float32]), a sub-array type
    ([('<f4', (3,))]) or a structured type whose fields are listed in the
    order of [dtype.names] with their byte offsets. *)
Inductive dtype : Type :=
| Scalar (name : string) (itemsize : Z)
| SubArray (base : dtype) (shape : list Z)
| Struct (fields : list (string * (dtype * Z))) (itemsize : Z).

Definition prod (l : list Z) : Z := fold_right Z.mul 1 l.
Definition sum (l : list Z) : Z := fold_right Z.add 0 l.

(** [dtype.fields], as Python's truth value sees it: a non-empty mapping. *)
Definition fields (d : dtype) : list (string * (dtype * Z)) :=
  match d with
  | Struct fs _ => fs
  | _ => []
  end.

Definition has_fields (d : dtype) : bool :=
  match fields d with [] => false | _ :: _ => true end.

(** [dtype.base] *)
Definition base (d : dtype) : dtype :=
  match d with
  | SubArray b _ => b
  | _ => d
  end.

(** [dtype.shape] *)
Definition shape (d : dtype) : list Z :=
  match d with
  | SubArray _ s => s
  | _ => []
  end.

(** [dtype.itemsize] *)
Fixpoint itemsize (d : dtype) : Z :=
  match d with
  | Scalar _ n => n
  | SubArray b s => itemsize b * prod s
  | Struct _ n => n
  end.

(** [dtype.name]: structured and sub-array types are of kind void. *)
Definition name (d : dtype) : string :=
  match d with
  | Scalar n _ => n
  | _ => "void" ++ pretty (8 * itemsize d)
  end.

Fixpoint assoc {A : Type} (k : string) (l : list (string * A)) : option A :=
  match l with
  | [] => None
  | (k', v) :: l' => if String.eqb k k' then Some v else assoc k l'
  end.

(** [dtype[key]] *)
Definition getitem (d : dtype) (key : string) : result dtype :=
  match assoc key (fields d) with
  | Some (fd, _) => Ok fd
  | None => Raise (KeyError key)
  end.

(** [dtype.fields[key][1]] *)
Definition field_offset (d : dtype) (key : string) : result Z :=
  match assoc key (fields d) with
  | Some (_, off) => Ok off
  | None => Raise (KeyError key)
  end.

(** [==] on dtypes *)
Fixpoint eqb (d1 d2 : dtype) : bool :=
  match d1, d2 with
  | Scalar n1 s1, Scalar n2 s2 => String.eqb n1 n2 && Z.eqb s1 s2
  | SubArray b1 s1, SubArray b2 s2 =>
      eqb b1 b2 && bool_decide (s1 = s2)
  | Struct fs1 s1, Struct fs2 s2 =>
      (fix eqb_fields (l1 l2 : list (string * (dtype * Z))) : bool :=
         match l1, l2 with
         | [], [] => true
         | (n1, (f1, o1)) :: t1, (n2, (f2, o2)) :: t2 =>
             String.eqb n1 n2 && eqb f1 f2 && Z.eqb o1 o2 && eqb_fields t1 t2
         | _, _ => false
         end) fs1 fs2 && Z.eqb s1 s2
  | _, _ => false
  end.

(** An array object.  [arr_id] is the identity of the Python object,
    [arr_base] the identity of the object that owns the memory ([None] when
    the array owns it), [arr_data] the values in row-major order. *)
Record ndarray : Type := mk_ndarray {
  arr_id : nat;
  arr_dtype : dtype;
  arr_shape : list Z;
  arr_base : option nat;
  arr_data : list Q
}.

Definition ndim (a : ndarray) : Z := Z.of_nat (length (arr_shape a)).
Definition size (a : ndarray) : Z := prod (arr_shape a).
Definition nbytes (a : ndarray) : Z := size a * itemsize (arr_dtype a).

(** [data.base is not data] *)
Definition base_is_not_self (a : ndarray) : bool :=
  match arr_base a with
  | None => true
  | Some b => negb (Nat.eqb b (arr_id a))
  end.

(** The object that owns the memory of [a]. *)
Definition owner (a : ndarray) : nat :=
  match arr_base a with
  | None => arr_id a
  | Some b => b
  end.

(** The view [a[name]] on a field of type [fd]: a new object on the memory
    of [a]; the shape of a sub-array field is appended to the array's.  The
    values are left as they are: no method of a buffer looks at them. *)
Definition field_view (a : ndarray) (fd : dtype) : ndarray :=
  {| arr_id := S (Nat.max (arr_id a) (owner a));
     arr_dtype := base fd;
     arr_shape := arr_shape a ++ shape fd;
     arr_base := Some (owner a);
     arr_data := arr_data a |}.

(** [data.astype(dtype)]: always a copy. *)
Definition astype (a : ndarray) (d : dtype) : ndarray :=
  {| arr_id := S (arr_id a);
     arr_dtype := d;
     arr_shape := arr_shape a;
     arr_base := None;
     arr_data := arr_data a |}.

(** [data.copy()] *)
Definition copy (a : ndarray) : ndarray := astype a (arr_dtype a).

Definition uint8 : dtype := Scalar "uint8" 1.
Definition float16 : dtype := Scalar "float16" 2.
Definition float32 : dtype := Scalar "float32" 4.

(** A value cast to [uint8]: the fraction is dropped and the integer
    wraps around. *)
Definition to_uint8 (x : Q) : Q :=
  inject_Z (Z.quot (Qnum x) (Zpos (Qden x)) mod 256).

(** [data.astype(np.uint8)] *)
Definition astype_uint8 (a : ndarray) : ndarray :=
  {| arr_id := S (arr_id a);
     arr_dtype := uint8;
     arr_shape := arr_shape a;
     arr_base := None;
     arr_data := map to_uint8 (arr_data a) |}.

(** In-place arithmetic on every value: the object stays the same. *)
Definition map_inplace (f : Q -> Q) (a : ndarray) : ndarray :=
  {| arr_id := arr_id a;
     arr_dtype := arr_dtype a;
     arr_shape := arr_shape a;
     arr_base := arr_base a;
     arr_data := map f (arr_data a) |}.

(** numpy never makes an array its own base. *)
Definition wf (a : ndarray) : Prop := arr_base a <> Some (arr_id a).

End Np.

(** ** OpenGL: targets and the calls that reach the device *)

Inductive gl_enum : Type :=
| GL_ARRAY_BUFFER
| GL_ELEMENT_ARRAY_BUFFER
| GL_TEXTURE_2D
| GL_TEXTURE_3D
| GL_DYNAMIC_DRAW
| GL_LUMINANCE
| GL_LUMINANCE_ALPHA
| GL_ALPHA
| GL_RGB
| GL_RGBA
| GL_BYTE
| GL_UNSIGNED_BYTE
| GL_SHORT
| GL_UNSIGNED_SHORT
| GL_UNSIGNED_INT
| GL_HALF_FLOAT
| GL_FLOAT
| GL_TEXTURE_MAG_FILTER
| GL_TEXTURE_MIN_FILTER
| GL_TEXTURE_WRAP_S
| GL_TEXTURE_WRAP_T
| GL_TEXTURE_WRAP_R
| GL_NEAREST
| GL_LINEAR
| GL_NEAREST_MIPMAP_NEAREST
| GL_NEAREST_MIPMAP_LINEAR
| GL_LINEAR_MIPMAP_NEAREST
| GL_LINEAR_MIPMAP_LINEAR
| GL_REPEAT
| GL_CLAMP_TO_EDGE
| GL_MIRRORED_REPEAT
| GL_UNPACK_ALIGNMENT
| GL_OTHER (code : Z).

#[global] Instance gl_enum_eq_dec : EqDecision gl_enum.
Proof. solve_decision. Defined.

Inductive gl_call : Type :=
| glBindBuffer (target : gl_enum) (handle : Z)
| glBufferData (target : gl_enum) (nbytes : Z) (usage : gl_enum)
| glBufferSubData (target : gl_enum) (offset nbytes : Z) (data : Np.ndarray)
| glGenTextures
| glDeleteTextures (handle : Z)
| glBindTexture (target : gl_enum) (handle : Z)
| glTexImage (target : gl_enum) (level : Z) (format : gl_enum)
    (size : list Z) (gltype : gl_enum) (data : option Np.ndarray)
| glTexSubImage (target : gl_enum) (level : Z) (offset size : list Z)
    (format : gl_enum) (gltype : gl_enum) (data : Np.ndarray)
| glTexParameter (target : gl_enum) (param value : gl_enum)
| glPixelStorei (pname : gl_enum) (param : Z).

(** ** GLObject *)

Module GLObject.

(** Modelled from the spec: [GLObject.__init__], which
    vispy/oogl/__init__.py defines and the two files only call.  "handle
    (opaque GPU identifier; 0/absent = uncreated), valid (handle currently
    refers to a live GPU object), needs_update (dirty flag)"; a resource is
    "created uncreated".  The values are [(_handle, _valid, _need_update)]. *)
Definition __init__ : Z * bool * bool := (0, false, false).

End GLObject.

(** ** buffer.py *)

(** The classes of buffer.py that can be instantiated. *)
Inductive klass : Type :=
| ElementBuffer
| VertexBuffer
| VertexBufferView
| ClientVertexBuffer
| ClientElementBuffer.

#[global] Instance klass_eq_dec : EqDecision klass.
Proof. solve_decision. Defined.

(** [self.__class__.__name__] *)
Definition class_name (k : klass) : string :=
  match k with
  | ElementBuffer => "ElementBuffer"
  | VertexBuffer => "VertexBuffer"
  | VertexBufferView => "VertexBufferView"
  | ClientVertexBuffer => "ClientVertexBuffer"
  | ClientElementBuffer => "ClientElementBuffer"
  end.

(** [ElementBuffer] and its subclass parse arrays as indices, every other
    class inherits the methods of [VertexBuffer]. *)
Definition is_element (k : klass) : bool :=
  match k with
  | ElementBuffer | ClientElementBuffer => true
  | _ => false
  end.

(** An entry of [_pending_data]: [(data, nbytes, offset)]. *)
Definition pending : Type := Np.ndarray * Z * Z.

(** The attributes of a buffer object.  [_handle] and [_need_update] are
    those of the base class [GLObject]; [_base] is [Some] reference only in
    a [VertexBufferView], once its constructor has stored it. *)
Record obj : Type := mk_obj {
  __class__ : klass;
  _handle : Z;
  _need_update : bool;
  _target : gl_enum;
  _nbytes : Z;
  _need_resize : bool;
  _usage : gl_enum;
  _pending_data : list pending;
  _offset : Z;
  _dtype : Np.dtype;
  _vsize : Z;
  _stride : Z;
  _count : Z;
  _base : option nat
}.

Definition set__handle (o : obj) (v : Z) : obj :=
  mk_obj (__class__ o) v (_need_update o) (_target o) (_nbytes o)
    (_need_resize o) (_usage o) (_pending_data o) (_offset o) (_dtype o)
    (_vsize o) (_stride o) (_count o) (_base o).
Definition set__need_update (o : obj) (v : bool) : obj :=
  mk_obj (__class__ o) (_handle o) v (_target o) (_nbytes o)
    (_need_resize o) (_usage o) (_pending_data o) (_offset o) (_dtype o)
    (_vsize o) (_stride o) (_count o) (_base o).
Definition set__nbytes (o : obj) (v : Z) : obj :=
  mk_obj (__class__ o) (_handle o) (_need_update o) (_target o) v
    (_need_resize o) (_usage o) (_pending_data o) (_offset o) (_dtype o)
    (_vsize o) (_stride o) (_count o) (_base o).
Definition set__need_resize (o : obj) (v : bool) : obj :=
  mk_obj (__class__ o) (_handle o) (_need_update o) (_target o) (_nbytes o)
    v (_usage o) (_pending_data o) (_offset o) (_dtype o)
    (_vsize o) (_stride o) (_count o) (_base o).
Definition set__pending_data (o : obj) (v : list pending) : obj :=
  mk_obj (__class__ o) (_handle o) (_need_update o) (_target o) (_nbytes o)
    (_need_resize o) (_usage o) v (_offset o) (_dtype o)
    (_vsize o) (_stride o) (_count o) (_base o).
Definition set__offset (o : obj) (v : Z) : obj :=
  mk_obj (__class__ o) (_handle o) (_need_update o) (_target o) (_nbytes o)
    (_need_resize o) (_usage o) (_pending_data o) v (_dtype o)
    (_vsize o) (_stride o) (_count o) (_base o).
Definition set__stride (o : obj) (v : Z) : obj :=
  mk_obj (__class__ o) (_handle o) (_need_update o) (_target o) (_nbytes o)
    (_need_resize o) (_usage o) (_pending_data o) (_offset o) (_dtype o)
    (_vsize o) v (_count o) (_base o).
Definition set__count (o : obj) (v : Z) : obj :=
  mk_obj (__class__ o) (_handle o) (_need_update o) (_target o) (_nbytes o)
    (_need_resize o) (_usage o) (_pending_data o) (_offset o) (_dtype o)
    (_vsize o) (_stride o) v (_base o).
Definition set__base (o : obj) (v : option nat) : obj :=
  mk_obj (__class__ o) (_handle o) (_need_update o) (_target o) (_nbytes o)
    (_need_resize o) (_usage o) (_pending_data o) (_offset o) (_dtype o)
    (_vsize o) (_stride o) (_count o) v.

(** The objects a reference can point to. *)
Abbreviation heap := (gmap nat obj).

Module Buffer.

(** [Buffer.set_nbytes] *)
Definition set_nbytes (self : obj) (nbytes : Z) : obj :=
  let self :=
    if negb (Z.eqb (_nbytes self) nbytes)
    then set__need_resize (set__nbytes self nbytes) true
    else self in
  set__pending_data self [].

(** [Buffer.set_data] *)
Definition set_data (self : obj) (data : Np.ndarray) : obj :=
  let self := set_nbytes self (Np.nbytes data) in
  let nbytes := Np.nbytes data in
  let self := set__pending_data self (_pending_data self ++ [(data, nbytes, 0)]) in
  set__need_update self true.

(** [Buffer.set_subdata] *)
Definition set_subdata (self : obj) (offset : Z) (data : Np.ndarray)
  : result obj :=
  if Z.eqb (_nbytes self) 0 then
    Raise (ValueError "Cannot set subdata if there is no space allocated.")
  else
    let nbytes := Np.nbytes data in
    if Z.ltb (_nbytes self) (offset + nbytes) then
      Raise (ValueError "Offseted data is too big for buffer.")
    else
      let self :=
        set__pending_data self (_pending_data self ++ [(data, nbytes, offset)]) in
      Ok (set__need_update self true).

(** The loop of [Buffer._update]: entries are popped from the front and
    uploaded until the list is empty. *)
Fixpoint upload (target : gl_enum) (q : list pending) : list gl_call :=
  match q with
  | [] => []
  | (data, nbytes, offset) :: q' =>
      glBufferSubData target offset nbytes data :: upload target q'
  end.

(** [Buffer._update]: the object afterwards and the calls issued. *)
Definition _update (self : obj) : obj * list gl_call :=
  let bind := [glBindBuffer (_target self) (_handle self)] in
  let '(self, alloc) :=
    if _need_resize self
    then (set__need_resize self false,
          [glBufferData (_target self) (_nbytes self) (_usage self)])
    else (self, []) in
  (set__pending_data self [],
   bind ++ alloc ++ upload (_target self) (_pending_data self)).

End Buffer.

(** *** ElementBuffer *)

Module ElementBuffer.

Definition DTYPE2GTYPE : list (string * gl_enum) :=
  [("uint8", GL_UNSIGNED_BYTE);
   ("uint16", GL_UNSIGNED_SHORT);
   ("uint32", GL_UNSIGNED_INT)].

(** [ElementBuffer._parse_dtype] *)
Definition _parse_dtype (dtype : Np.dtype) : result (Np.dtype * Z * Z) :=
  if Np.has_fields dtype then
    Raise (ValueError "ElementBuffer does not support structured dtype.")
  else
    let dtype_ := Np.base dtype in
    let vsize := 1 in
    let stride := Np.itemsize dtype in
    Ok (dtype_, vsize, stride).

(** [ElementBuffer._parse_array] *)
Definition _parse_array (data : Np.ndarray)
  : result (Np.dtype * Z * Z * Z) :=
  if Np.has_fields (Np.arr_dtype data) then
    Raise (ValueError "ElementBuffer does not support structured arrays.")
  else
    '(dtype, vsize, stride) ← _parse_dtype (Np.arr_dtype data);
    let count := Np.size data in
    Ok (dtype, vsize, stride, count).

End ElementBuffer.

(** *** VertexBuffer *)

Module VertexBuffer.

Definition DTYPE2GTYPE : list (string * gl_enum) :=
  [("int8", GL_BYTE);
   ("uint8", GL_UNSIGNED_BYTE);
   ("uint16", GL_UNSIGNED_SHORT);
   ("int16", GL_SHORT);
   ("float32", GL_FLOAT);
   ("float16", GL_HALF_FLOAT)].

(** [while dtype.fields and len(dtype.fields) == 1:
       dtype = dtype[dtype.names[0]]] *)
Fixpoint unwrap_dtype (dtype : Np.dtype) : Np.dtype :=
  match dtype with
  | Np.Struct [(_, (fd, _))] _ => unwrap_dtype fd
  | _ => dtype
  end.

(** [while data.dtype.fields and len(data.dtype.fields) == 1:
       data = data[data.dtype.names[0]]], by recursion on [data.dtype]. *)
Fixpoint unwrap_fields (dtype : Np.dtype) (data : Np.ndarray) : Np.ndarray :=
  match dtype with
  | Np.Struct [(_, (fd, _))] _ =>
      match fd with
      | Np.SubArray b _ => unwrap_fields b (Np.field_view data fd)
      | _ => unwrap_fields fd (Np.field_view data fd)
      end
  | _ => data
  end.

Definition unwrap_array (data : Np.ndarray) : Np.ndarray :=
  unwrap_fields (Np.arr_dtype data) data.

(** [VertexBuffer._parse_dtype] *)
Definition _parse_dtype (dtype : Np.dtype) : result (Np.dtype * Z * Z) :=
  let dtype := unwrap_dtype dtype in
  let dtype_ := Np.base dtype in
  let stride := Np.itemsize dtype in
  let vsize :=
    if Np.has_fields dtype then
      let shapes := map (fun f => Np.shape (fst (snd f))) (Np.fields dtype) in
      let sizes := map Np.prod shapes in
      Np.sum sizes
    else if negb (bool_decide (Np.shape dtype = [])) then
      Np.prod (Np.shape dtype)
    else 1 in
  Ok (dtype_, vsize, stride).

(** [VertexBuffer._parse_array] *)
Definition _parse_array (data : Np.ndarray)
  : result (Np.dtype * Z * Z * Z) :=
  let data := unwrap_array data in
  '(dtype, vsize, stride) ← _parse_dtype (Np.arr_dtype data);
  let '(vsize, count) :=
    if Np.has_fields dtype then (vsize, Np.size data)
    else if Z.leb (Np.ndim data) 1 then (1, Np.size data)
    else (List.last (Np.arr_shape data) 0,
          Np.prod (removelast (Np.arr_shape data))) in
  let stride :=
    if Np.base_is_not_self data then Np.itemsize dtype * vsize else stride in
  Ok (dtype, vsize, stride, count).

End VertexBuffer.

(** *** DataBuffer *)

(** What a constructor is called with: an array, or a dtype (strings and
    tuples are turned into a dtype by [np.dtype] first). *)
Inductive init_arg : Type :=
| InitArray (data : Np.ndarray)
| InitDtype (dtype : Np.dtype)
| InitOther.

(** The keys of [buffer[key]]. *)
Inductive pykey : Type :=
| KeyStr (s : string)
| KeySlice (start stop step : option Z)
| KeyEllipsis
| KeyInt (i : Z).

(** [x or default] on an optional integer *)
Definition or_default (x : option Z) (default : Z) : Z :=
  match x with
  | None => default
  | Some v => if Z.eqb v 0 then default else v
  end.

(** Depth at which Python gives up on nested calls. *)
Definition recursion_limit : nat := 1000.

Module DataBuffer.

(** Class attribute [DTYPE2GTYPE], looked up through the class. *)
Definition DTYPE2GTYPE (k : klass) : list (string * gl_enum) :=
  if is_element k then ElementBuffer.DTYPE2GTYPE else VertexBuffer.DTYPE2GTYPE.

(** [name in self.DTYPE2GTYPE] *)
Definition allowed (k : klass) (name : string) : bool :=
  bool_decide (is_Some (Np.assoc name (DTYPE2GTYPE k))).

(** [self._parse_array(data)] and [self._parse_dtype(dtype)] *)
Definition _parse_array (self : klass) (data : Np.ndarray)
  : result (Np.dtype * Z * Z * Z) :=
  if is_element self then ElementBuffer._parse_array data
  else VertexBuffer._parse_array data.

Definition _parse_dtype (self : klass) (dtype : Np.dtype)
  : result (Np.dtype * Z * Z) :=
  if is_element self then ElementBuffer._parse_dtype dtype
  else VertexBuffer._parse_dtype dtype.

(** Property [stride].  A view asks its base, through the same property,
    and stores the answer in its own attribute before returning it (the
    copies that views in between would store are not kept: no property
    reads them). *)
Fixpoint get_stride (depth : nat) (h : heap) (self : obj) : result Z :=
  match __class__ self with
  | VertexBufferView =>
      match depth with
      | O => Raise RecursionError
      | S depth' =>
          match _base self with
          | None => Raise (AttributeError "_base")
          | Some b =>
              match h !! b with
              | None => Raise (AttributeError "_base")
              | Some base => get_stride depth' h base
              end
          end
      end
  | _ => Ok (_stride self)
  end.

Definition stride (h : heap) (self : obj) : result (Z * obj) :=
  v ← get_stride recursion_limit h self;
  match __class__ self with
  | VertexBufferView => Ok (v, set__stride self v)
  | _ => Ok (v, self)
  end.

(** Property [count]. *)
Fixpoint get_count (depth : nat) (h : heap) (self : obj) : result Z :=
  match __class__ self with
  | VertexBufferView =>
      match depth with
      | O => Raise RecursionError
      | S depth' =>
          match _base self with
          | None => Raise (AttributeError "_base")
          | Some b =>
              match h !! b with
              | None => Raise (AttributeError "_base")
              | Some base => get_count depth' h base
              end
          end
      end
  | _ => Ok (_count self)
  end.

Definition count (h : heap) (self : obj) : result (Z * obj) :=
  v ← get_count recursion_limit h self;
  match __class__ self with
  | VertexBufferView => Ok (v, set__count self v)
  | _ => Ok (v, self)
  end.

(** [DataBuffer.set_count] *)
Definition set_count (self : obj) (count : Z) : obj :=
  let self := set__count self count in
  let nbytes := _count self * _stride self in
  Buffer.set_nbytes self nbytes.

(** The call [self.set_count(...)] with positional arguments [args].
    [VertexBufferView.set_count(self)] takes no argument and raises. *)
Definition call_set_count (self : obj) (args : list Z) : result obj :=
  match __class__ self with
  | VertexBufferView =>
      match args with
      | [] => Raise (RuntimeError
                       ("Cannot set count on a " ++ class_name (__class__ self) ++ "."))
      | _ => Raise (TypeError "set_count() takes 1 positional argument")
      end
  | _ =>
      match args with
      | [count] => Ok (set_count self count)
      | _ => Raise (TypeError "set_count() takes exactly 2 arguments")
      end
  end.

(** The comparison of the parsed properties of [data] with the buffer's,
    common to [set_data] and [set_subdata]. *)
Definition check_match (h : heap) (self : obj) (dtype : Np.dtype)
    (vsize stride : Z) : result obj :=
  if negb (Np.eqb dtype (_dtype self)) then
    Raise (ValueError "Given data must match dtype of the buffer.")
  else if negb (Z.eqb vsize (_vsize self)) then
    Raise (ValueError "Given data must match vsize of the buffer.")
  else
    '(s, self) ← DataBuffer.stride h self;
    if negb (Z.eqb stride s) then
      Raise (ValueError "Given data must match stride of the buffer.")
    else Ok self.

(** [DataBuffer.set_data] *)
Definition set_data (h : heap) (self : obj) (data : Np.ndarray) : result obj :=
  let data := VertexBuffer.unwrap_array data in
  '(dtype, vsize, stride, count) ← _parse_array (__class__ self) data;
  self ← check_match h self dtype vsize stride;
  self ← call_set_count self [count];
  Ok (Buffer.set_data self data).

(** [DataBuffer.set_subdata] *)
Definition set_subdata (h : heap) (self : obj) (offset : Z)
    (data : Np.ndarray) : result obj :=
  let data := VertexBuffer.unwrap_array data in
  '(dtype, vsize, stride, count) ← _parse_array (__class__ self) data;
  self ← check_match h self dtype vsize stride;
  if Z.ltb offset 0 then
    Raise (ValueError "Offset in set_subdata should be >= 0.")
  else
    '(c, self) ← DataBuffer.count h self;
    if Z.ltb c (offset + count) then
      Raise (ValueError "Offset + data does not fit in this buffer.")
    else
      let byte_offset := offset * _stride self in
      Buffer.set_subdata self byte_offset data.

(** The type check that ends [DataBuffer.__init__]. *)
Fixpoint check_fields (k : klass) (fs : list (string * (Np.dtype * Z)))
  : result unit :=
  match fs with
  | [] => Ok tt
  | (_, (fd, _)) :: fs' =>
      let dtype := Np.base fd in
      if negb (allowed k (Np.name dtype)) then
        Raise (TypeError ("Data type not allowed for " ++ class_name k
                          ++ ": " ++ Np.name dtype))
      else check_fields k fs'
  end.

Definition check_dtype (k : klass) (dtype : Np.dtype) : result unit :=
  if Np.has_fields dtype then check_fields k (Np.fields dtype)
  else if negb (allowed k (Np.name dtype)) then
    Raise (TypeError ("Data type not allowed for " ++ class_name k
                      ++ ": " ++ Np.name dtype))
  else Ok tt.

(** The object as [Buffer.__init__] and the first assignments of
    [DataBuffer.__init__] leave it, with the parsed properties. *)
Definition fresh (k : klass) (target : gl_enum) (dtype : Np.dtype)
    (vsize stride count : Z) : obj :=
  let '(handle, _, need_update) := GLObject.__init__ in
  {| __class__ := k; _handle := handle; _need_update := need_update;
     _target := target; _nbytes := 0; _need_resize := false;
     _usage := GL_DYNAMIC_DRAW; _pending_data := [];
     _offset := 0; _dtype := dtype; _vsize := vsize; _stride := stride;
     _count := count; _base := None |}.

(** [DataBuffer.__init__], reached from the constructor of class [k]. *)
Definition __init__ (k : klass) (data : init_arg) (target : gl_enum)
  : result obj :=
  if negb (bool_decide (target = GL_ARRAY_BUFFER)
           || bool_decide (target = GL_ELEMENT_ARRAY_BUFFER)) then
    Raise (ValueError "Invalid target for buffer object.")
  else
    self ←
      match data with
      | InitArray data =>
          '(dtype, vsize, stride, count) ← _parse_array k data;
          set_data ∅ (fresh k target dtype vsize stride count) data
      | InitDtype data =>
          '(dtype, vsize, stride) ← _parse_dtype k data;
          Ok (fresh k target dtype vsize stride 0)
      | InitOther =>
          Raise (ValueError "DataBuffer needs array of dtype to initialize.")
      end;
    _ ← check_dtype k (_dtype self);
    Ok self.

(** [DataBuffer.__setitem__] *)
Definition __setitem__ (h : heap) (self : obj) (key : pykey)
    (data : Np.ndarray) : result obj :=
  '(start, nbytes) ←
    match key with
    | KeySlice kstart kstop kstep =>
        let start := or_default kstart 0 in
        let start := if Z.ltb start 0 then _stride self + start else start in
        let step := or_default kstep 1 in
        _ ← assert (Z.ltb 0 step);
        let stop := or_default kstop (_stride self) in
        let stop := if Z.ltb stop 0 then _stride self + stop else stop in
        if Z.ltb 1 step then
          Raise (ValueError "Can only set contiguous block of data.")
        else Ok (start, (stop - start) * _stride self)
    | KeyEllipsis => Ok (0, Np.nbytes data)
    | _ => Raise (ValueError "Can only set contiguous block of data.")
    end;
  if Z.ltb (Np.nbytes data) nbytes then Raise (ValueError "Not enough data.")
  else if Z.ltb nbytes (Np.nbytes data) then Raise (ValueError "Too much data.")
  else
    let data :=
      if negb (Np.eqb (Np.arr_dtype data) (_dtype self))
      then Np.astype data (_dtype self) else data in
    set_subdata h self start data.

End DataBuffer.

(** *** The constructors *)

Module VertexBufferView.

(** [VertexBufferView.__init__(dtype, base, offset)]; [base] is a reference
    to an object of the heap. *)
Definition __init__ (h : heap) (dtype : Np.dtype) (base : nat) (offset : Z)
  : result obj :=
  self ← DataBuffer.__init__ VertexBufferView (InitDtype dtype) GL_ARRAY_BUFFER;
  let self := set__base self (Some base) in
  let self := set__offset self offset in
  match h !! base with
  | None => Raise (AttributeError "stride")
  | Some b =>
      '(s, _) ← DataBuffer.stride h b;
      Ok (set__stride self s)
  end.

(** Property [handle] of a view: the attribute [_handle] of its base,
    stored in the view before it is returned. *)
Definition handle (h : heap) (self : obj) : result (Z * obj) :=
  match _base self with
  | None => Raise (AttributeError "_base")
  | Some b =>
      match h !! b with
      | None => Raise (AttributeError "_base")
      | Some base => Ok (_handle base, set__handle self (_handle base))
      end
  end.

End VertexBufferView.

(** [ElementBuffer(data)], [VertexBuffer(data)] and the client classes,
    which insist on an array. *)
Definition new (k : klass) (data : init_arg) : result obj :=
  match k with
  | ElementBuffer => DataBuffer.__init__ k data GL_ELEMENT_ARRAY_BUFFER
  | VertexBuffer => DataBuffer.__init__ k data GL_ARRAY_BUFFER
  | ClientVertexBuffer =>
      match data with
      | InitArray _ => DataBuffer.__init__ k data GL_ARRAY_BUFFER
      | _ => Raise (ValueError "ClientVertexBuffer needs a numpy array.")
      end
  | ClientElementBuffer =>
      match data with
      | InitArray _ => DataBuffer.__init__ k data GL_ELEMENT_ARRAY_BUFFER
      | _ => Raise (ValueError "ClientElementBuffer needs a numpy array.")
      end
  | VertexBufferView => Raise (TypeError "__init__() missing arguments")
  end.

(** [self[key] = data]: the client classes override [__setitem__] with a
    method that does nothing. *)
Definition setitem (h : heap) (self : obj) (key : pykey)
    (data : Np.ndarray) : result obj :=
  match __class__ self with
  | ClientVertexBuffer | ClientElementBuffer => Ok self
  | _ => DataBuffer.__setitem__ h self key data
  end.

(** [self[key]] on the object at reference [l]: [DataBuffer.__getitem__],
    which the client classes override with a method that returns [None]. *)
Definition getitem (h : heap) (l : nat) (key : pykey)
  : result (option obj) :=
  match h !! l with
  | None => Raise (AttributeError "no such object")
  | Some self =>
      match __class__ self with
      | ClientVertexBuffer | ClientElementBuffer => Ok None
      | _ =>
          match key with
          | KeyStr key =>
              dtype ← Np.getitem (_dtype self) key;
              offset ← Np.field_offset (_dtype self) key;
              view ← VertexBufferView.__init__ h dtype l offset;
              Ok (Some view)
          | _ => Raise (ValueError "Can only get access to a named field")
          end
      end
  end.

(** ** texture.py *)

(** *** Strings of dtype names *)

Fixpoint drop_chars (n : nat) (s : string) : string :=
  match n, s with
  | S n', String _ s' => drop_chars n' s'
  | _, _ => s
  end.

(** [name.startswith(p)] *)
Definition startswith (p name : string) : bool := String.prefix p name.

(** [p in name] *)
Definition contains (p name : string) : bool :=
  bool_decide (is_Some (String.index 0 p name)).

Definition digit_of (c : ascii) : option Z :=
  let n := Z.of_nat (nat_of_ascii c) in
  if Z.leb 48 n && Z.leb n 57 then Some (n - 48) else None.

Fixpoint parse_digits (acc : Z) (s : string) : option Z :=
  match s with
  | EmptyString => Some acc
  | String c s' =>
      match digit_of c with
      | Some d => parse_digits (10 * acc + d) s'
      | None => None
      end
  end.

(** [int(s)] on a string of decimal digits *)
Definition int_of_string (s : string) : result Z :=
  match s with
  | EmptyString => Raise (ValueError "invalid literal for int()")
  | _ =>
      match parse_digits 0 s with
      | Some n => Ok n
      | None => Raise (ValueError "invalid literal for int()")
      end
  end.

(** Contrast limits [(min, max)]. *)
Definition clim_t : Type := Q * Q.

Section convert.

(** The capability oracle of the context. *)
Variable ext_available : string -> bool.

(** The first part of [convert_data]: "Determine clim if not given, copy or
    make float32 if necessary."  Returns [data] and [clim] as they stand
    before the limits are applied. *)
Definition convert_prepare (data : Np.ndarray) (clim : option clim_t)
  : result (Np.ndarray * option clim_t) :=
  let FLOAT32_SUPPORT := ext_available "texture_float" in
  let FLOAT16_SUPPORT := ext_available "texture_half_float" in
  let name := Np.name (Np.arr_dtype data) in
  if String.eqb name "bool" then
    Ok (Np.astype_uint8 data, None)
  else if String.eqb name "uint8" then
    match clim with
    | Some _ => Ok (Np.astype data Np.float32, clim)
    | None => Ok (data, clim)
    end
  else if String.eqb name "float16" then
    match clim with
    | Some _ => Ok (Np.copy data, clim)
    | None => if negb FLOAT16_SUPPORT then Ok (Np.copy data, clim)
              else Ok (data, clim)
    end
  else if String.eqb name "float32" then
    match clim with
    | Some _ => Ok (Np.copy data, clim)
    | None => if negb FLOAT32_SUPPORT then Ok (Np.copy data, clim)
              else Ok (data, clim)
    end
  else if contains "float" name then
    Ok (Np.astype data Np.float32, clim)
  else if startswith "int" name then
    clim ←
      match clim with
      | None =>
          bits ← int_of_string (drop_chars 3 name);
          let max := 2 ^ bits in
          Ok (Some (inject_Z ((- max) / 2), inject_Z (max / 2 - 1)))
      | Some _ => Ok clim
      end;
    Ok (Np.astype data Np.float32, clim)
  else if startswith "uint" name then
    clim ←
      match clim with
      | None =>
          bits ← int_of_string (drop_chars 4 name);
          let max := 2 ^ bits in
          Ok (Some (inject_Z 0, inject_Z (max / 2)))
      | Some _ => Ok clim
      end;
    Ok (Np.astype data Np.float32, clim)
  else
    Raise (TextureError ("Could not convert data type " ++ name ++ ".")).

(** "Apply limits if necessary" *)
Definition apply_limits (data : Np.ndarray) (clim : option clim_t)
  : result Np.ndarray :=
  match clim with
  | None => Ok data
  | Some (lo, hi) =>
      let data :=
        if negb (Qeq_bool lo 0) then Np.map_inplace (fun x => Qminus x lo) data
        else data in
      if negb (Qeq_bool (Qminus hi lo) 1) then
        if Qeq_bool (Qminus hi lo) 0 then Raise ZeroDivisionError
        else Ok (Np.map_inplace (fun x => Qmult x (Qdiv 1 (Qminus hi lo))) data)
      else Ok data
  end.

(** [data[data<0.0] = 0.0; data[data>256.0] = 256.0] *)
Definition clip (x : Q) : Q :=
  let x := if Qle_bool 0 x then x else 0%Q in
  if Qle_bool x 256 then x else 256%Q.

(** "Convert if necessary" *)
Definition convert_finish (data : Np.ndarray) : result Np.ndarray :=
  let FLOAT32_SUPPORT := ext_available "texture_float" in
  let FLOAT16_SUPPORT := ext_available "texture_half_float" in
  let dtype := Np.arr_dtype data in
  if Np.eqb dtype Np.uint8 then Ok data
  else if Np.eqb dtype Np.float16 && FLOAT16_SUPPORT then Ok data
  else if Np.eqb dtype Np.float32 && FLOAT32_SUPPORT then Ok data
  else if Np.eqb dtype Np.float16 || Np.eqb dtype Np.float32 then
    let data := Np.map_inplace (fun x => Qmult x 256) data in
    let data := Np.map_inplace clip data in
    Ok (Np.astype_uint8 data)
  else
    Raise (TextureError "Error converting data type. This should not happen.").

(** [convert_data(data, clim=None)] *)
Definition convert_data (data : Np.ndarray) (clim : option clim_t)
  : result Np.ndarray :=
  '(data, clim) ← convert_prepare data clim;
  data ← apply_limits data clim;
  convert_finish data.

End convert.

(** [get_format(shape, target)] *)
Definition get_format (shape : list Z) (target : gl_enum) : result gl_enum :=
  let bad := Raise (TextureError "Cannot determine format: data of invalid shape.") in
  match target with
  | GL_TEXTURE_2D =>
      match shape with
      | [_; _] => Ok GL_LUMINANCE
      | [_; _; c] =>
          if Z.eqb c 1 then Ok GL_LUMINANCE
          else if Z.eqb c 2 then Ok GL_LUMINANCE_ALPHA
          else if Z.eqb c 3 then Ok GL_RGB
          else if Z.eqb c 4 then Ok GL_RGBA
          else bad
      | _ => bad
      end
  | GL_TEXTURE_3D =>
      match shape with
      | [_; _; _] => Ok GL_LUMINANCE
      | [_; _; _; c] =>
          if Z.eqb c 1 then Ok GL_LUMINANCE
          else if Z.eqb c 2 then Ok GL_LUMINANCE_ALPHA
          else if Z.eqb c 3 then Ok GL_RGB
          else if Z.eqb c 4 then Ok GL_RGBA
          else bad
      | _ => bad
      end
  | _ => Raise (TextureError "Cannot determine format with these dimensions.")
  end.

(** *** Texture *)

Module Texture.

(** What a pending entry carries: an array ([set_data], [set_subdata]) or
    the shape tuple of [set_storage]. *)
Inductive payload : Type :=
| Data (data : Np.ndarray)
| Shape (shape : list Z).

(** A pending entry [(data, offset, level, format, clim)]. *)
Record entry : Type := mk_entry {
  e_data : payload;
  e_offset : option (list Z);
  e_level : Z;
  e_format : option gl_enum;
  e_clim : option clim_t
}.

(** The attributes of a texture; [_handle], [_valid] and [_need_update]
    are those of the base class [GLObject].  The two parameter dicts keep
    their keys in insertion order. *)
Record t : Type := mk {
  _handle : Z;
  _valid : bool;
  _need_update : bool;
  _target : gl_enum;
  _pending_data : option entry;
  _texture_shape : option (list Z);
  _pending_subdata : list entry;
  _texture_params : list (gl_enum * gl_enum);
  _pending_params : list (gl_enum * gl_enum)
}.

Definition set__handle (o : t) (v : Z) : t :=
  mk v (_valid o) (_need_update o) (_target o) (_pending_data o)
    (_texture_shape o) (_pending_subdata o) (_texture_params o)
    (_pending_params o).
Definition set__valid (o : t) (v : bool) : t :=
  mk (_handle o) v (_need_update o) (_target o) (_pending_data o)
    (_texture_shape o) (_pending_subdata o) (_texture_params o)
    (_pending_params o).
Definition set__need_update (o : t) (v : bool) : t :=
  mk (_handle o) (_valid o) v (_target o) (_pending_data o)
    (_texture_shape o) (_pending_subdata o) (_texture_params o)
    (_pending_params o).
Definition set__pending_data (o : t) (v : option entry) : t :=
  mk (_handle o) (_valid o) (_need_update o) (_target o) v
    (_texture_shape o) (_pending_subdata o) (_texture_params o)
    (_pending_params o).
Definition set__texture_shape (o : t) (v : option (list Z)) : t :=
  mk (_handle o) (_valid o) (_need_update o) (_target o) (_pending_data o)
    v (_pending_subdata o) (_texture_params o) (_pending_params o).
Definition set__pending_subdata (o : t) (v : list entry) : t :=
  mk (_handle o) (_valid o) (_need_update o) (_target o) (_pending_data o)
    (_texture_shape o) v (_texture_params o) (_pending_params o).
Definition set__texture_params (o : t) (v : list (gl_enum * gl_enum)) : t :=
  mk (_handle o) (_valid o) (_need_update o) (_target o) (_pending_data o)
    (_texture_shape o) (_pending_subdata o) v (_pending_params o).
Definition set__pending_params (o : t) (v : list (gl_enum * gl_enum)) : t :=
  mk (_handle o) (_valid o) (_need_update o) (_target o) (_pending_data o)
    (_texture_shape o) (_pending_subdata o) (_texture_params o) v.

(** [d[k] = v] on a dict *)
Fixpoint dict_set (k v : gl_enum) (d : list (gl_enum * gl_enum))
  : list (gl_enum * gl_enum) :=
  match d with
  | [] => [(k, v)]
  | (k', v') :: d' =>
      if bool_decide (k = k') then (k, v) :: d' else (k', v') :: dict_set k v d'
  end.

Definition DTYPE2GTYPE : list (string * gl_enum) :=
  [("uint8", GL_UNSIGNED_BYTE);
   ("float16", GL_HALF_FLOAT);
   ("float32", GL_FLOAT)].

(** [MAP.get(self._target, 0)] *)
Definition ndim_of (target : gl_enum) : Z :=
  match target with
  | GL_TEXTURE_2D => 2
  | GL_TEXTURE_3D => 3
  | _ => 0
  end.

Definition in_enums (x : option gl_enum) (allowed : list gl_enum) : bool :=
  match x with
  | None => true
  | Some v => bool_decide (v ∈ allowed)
  end.

(** [format in (None, GL_RGB, GL_RGBA, GL_LUMINANCE, GL_LUMINANCE_ALPHA,
    GL_ALPHA)] *)
Definition format_ok (format : option gl_enum) : bool :=
  in_enums format [GL_RGB; GL_RGBA; GL_LUMINANCE; GL_LUMINANCE_ALPHA; GL_ALPHA].

(** [len(shape) in (ndim, ndim+1)] *)
Definition rank_ok (shape : list Z) (ndim : Z) : bool :=
  let n := Z.of_nat (length shape) in
  Z.eqb n ndim || Z.eqb n (ndim + 1).

(** [Texture.set_filter] *)
Definition set_filter (self : t) (mag_filter min_filter : option gl_enum)
  : result t :=
  _ ← assert (in_enums mag_filter [GL_NEAREST; GL_LINEAR]);
  _ ← assert (in_enums min_filter
                [GL_NEAREST; GL_LINEAR; GL_NEAREST_MIPMAP_NEAREST;
                 GL_NEAREST_MIPMAP_LINEAR; GL_LINEAR_MIPMAP_NEAREST;
                 GL_LINEAR_MIPMAP_LINEAR]);
  let put (k : gl_enum) (v : option gl_enum) (self : t) : t :=
    match v with
    | Some v =>
        set__texture_params
          (set__pending_params self (dict_set k v (_pending_params self)))
          (dict_set k v (_texture_params self))
    | None => self
    end in
  let self := put GL_TEXTURE_MAG_FILTER mag_filter self in
  let self := put GL_TEXTURE_MIN_FILTER min_filter self in
  Ok (set__need_update self true).

(** [Texture.set_wrapping] *)
Definition set_wrapping (self : t) (wrapx wrapy wrapz : option gl_enum)
  : result t :=
  let modes := [GL_REPEAT; GL_CLAMP_TO_EDGE; GL_MIRRORED_REPEAT] in
  _ ← assert (in_enums wrapx modes);
  _ ← assert (in_enums wrapy modes);
  _ ← assert (in_enums wrapz modes);
  let put (k : gl_enum) (v : option gl_enum) (self : t) : t :=
    match v with
    | Some v =>
        set__texture_params
          (set__pending_params self (dict_set k v (_pending_params self)))
          (dict_set k v (_texture_params self))
    | None => self
    end in
  let self := put GL_TEXTURE_WRAP_S wrapx self in
  let self := put GL_TEXTURE_WRAP_T wrapy self in
  let self := put GL_TEXTURE_WRAP_R wrapz self in
  Ok (set__need_update self true).

(** [Texture.set_subdata] *)
Definition set_subdata (self : t) (offset : list Z) (data : Np.ndarray)
    (level : Z) (format : option gl_enum) (clim : option clim_t) : result t :=
  match _texture_shape self with
  | None =>
      Raise (RuntimeError
               "Cannot set subdata if there is not data or storage yet.")
  | Some _ =>
      let ndim := ndim_of (_target self) in
      let shape := Np.arr_shape data in
      _ ← assert (rank_ok shape ndim);
      _ ← assert (Z.eqb (Z.of_nat (length offset)) ndim);
      _ ← assert (Z.leb 0 level);
      _ ← assert (format_ok format);
      let self :=
        set__pending_subdata self
          (_pending_subdata self
             ++ [mk_entry (Data data) (Some offset) level format clim]) in
      Ok (set__need_update self true)
  end.

(** [Texture.set_data] *)
Definition set_data (self : t) (data : Np.ndarray) (level : Z)
    (format : option gl_enum) (clim : option clim_t) : result t :=
  let ndim := ndim_of (_target self) in
  let shape := Np.arr_shape data in
  _ ← assert (rank_ok shape ndim);
  _ ← assert (Z.leb 0 level);
  _ ← assert (format_ok format);
  let self := set__pending_subdata self [] in
  let self :=
    set__pending_data self (Some (mk_entry (Data data) None level format clim)) in
  let self := set__texture_shape self (Some (Np.arr_shape data)) in
  Ok (set__need_update self true).

(** [Texture.set_storage] *)
Definition set_storage (self : t) (shape : list Z) (level : Z)
    (format : option gl_enum) : result t :=
  let ndim := ndim_of (_target self) in
  let same :=
    match format, _texture_shape self with
    | None, Some cur =>
        Z.eqb level 0
        && bool_decide (take (Z.to_nat ndim) cur = take (Z.to_nat ndim) shape)
    | _, _ => false
    end in
  if same then Ok self
  else
    _ ← assert (rank_ok shape ndim);
    _ ← assert (forallb (fun i => Z.ltb 0 i) shape);
    _ ← assert (Z.leb 0 level);
    _ ← assert (format_ok format);
    let self :=
      set__pending_data self (Some (mk_entry (Shape shape) None level format None)) in
    let self := set__texture_shape self (Some shape) in
    Ok (set__need_update self true).

(** [Texture.__init__]; [GLObject.__init__] leaves the handle absent. *)
Definition __init__ (target : gl_enum) (data : option payload)
    (format : option gl_enum) (clim : option clim_t) : result t :=
  if negb (bool_decide (target ∈ [GL_TEXTURE_2D; GL_TEXTURE_3D])) then
    Raise (ValueError "Unsupported target")
  else
    let '(handle, valid, need_update) := GLObject.__init__ in
    let self := mk handle valid need_update target None None [] [] [] in
    self ← set_filter self (Some GL_LINEAR) (Some GL_LINEAR);
    self ←
      (if bool_decide (target = GL_TEXTURE_3D)
       then set_wrapping self (Some GL_CLAMP_TO_EDGE) (Some GL_CLAMP_TO_EDGE)
              (Some GL_CLAMP_TO_EDGE)
       else set_wrapping self (Some GL_CLAMP_TO_EDGE) (Some GL_CLAMP_TO_EDGE)
              None);
    match data with
    | None => Ok self
    | Some (Data data) => set_data self data 0 format clim
    | Some (Shape shape) => set_storage self shape 0 format
    end.

(** [Texture2D(...)] and [Texture3D(...)] *)
Definition Texture2D := __init__ GL_TEXTURE_2D.
Definition Texture3D := __init__ GL_TEXTURE_3D.

(** **** The flush *)

Section Device.

(** The context: the capability oracle and the graphics device, an opaque
    state machine.  [gl_apply] is the effect of a call on the device,
    [gl_new_texture] the name that [glGenTextures] hands out and
    [gl_is_texture] the answer of [glIsTexture]. *)
Variable ext_available : string -> bool.
Variable device : Type.
Variable gl_apply : gl_call -> device -> device.
Variable gl_new_texture : device -> Z.
Variable gl_is_texture : device -> Z -> bool.

(** A computation that talks to the device: it runs on the device state
    and the calls issued so far, and both survive an exception. *)
Definition M (A : Type) : Type :=
  device * list gl_call -> result A * (device * list gl_call).

Definition ret {A : Type} (a : A) : M A := fun s => (Ok a, s).
Definition raise {A : Type} (e : exn) : M A := fun s => (Raise e, s).
Definition lift {A : Type} (r : result A) : M A := fun s => (r, s).

#[local] Instance M_bind : MBind M := fun A B k m s =>
  match m s with
  | (Ok a, s') => k a s'
  | (Raise e, s') => (Raise e, s')
  end.

(** A call that returns nothing. *)
Definition gl (c : gl_call) : M unit :=
  fun '(d, trace) => (Ok tt, (gl_apply c d, trace ++ [c])).

Definition gl_GenTextures : M Z :=
  fun '(d, trace) =>
    (Ok (gl_new_texture d), (gl_apply glGenTextures d, trace ++ [glGenTextures])).

Definition gl_IsTexture (handle : Z) : M bool :=
  fun '(d, trace) => (Ok (gl_is_texture d handle), (d, trace)).

(** [Texture._create], [_delete], [_activate] *)
Definition _create (self : t) : M t :=
  h ← gl_GenTextures;
  ret (set__handle self h).

Definition _delete (self : t) : M t :=
  _ ← gl (glDeleteTextures (_handle self));
  ret self.

Definition _activate (self : t) : M t :=
  _ ← gl (glBindTexture (_target self) (_handle self));
  ret self.

(** Modelled from the spec: [GLObject.delete], which vispy/oogl/__init__.py
    defines.  "delete releases handle and GPU-side storage; handle may be
    recreated after delete": the class's [_delete] is called, and the handle
    is absent and not valid afterwards. *)
Definition delete (self : t) : M t :=
  self ← _delete self;
  ret (set__valid (set__handle self 0) false).

(** [D[self._target]] of the upload methods: the number of dimensions. *)
Definition upload_ndim (target : gl_enum) : M Z :=
  match target with
  | GL_TEXTURE_2D => ret 2
  | GL_TEXTURE_3D => ret 3
  | _ => raise (KeyError "target")
  end.

(** [Texture._get_size_and_type] *)
Definition _get_size_and_type (data : Np.ndarray) (ndim : Z)
  : M (list Z * gl_enum) :=
  let size := rev (take (Z.to_nat ndim) (Np.arr_shape data)) in
  let thetype := Np.name (Np.arr_dtype data) in
  match Np.assoc thetype DTYPE2GTYPE with
  | None => raise (TextureError ("Cannot translate datatype " ++ thetype ++ " to GL."))
  | Some gltype => ret (size, gltype)
  end.

(** [Texture._get_alignment] *)
Definition _get_alignment (width : Z) : Z :=
  if Z.eqb (width mod 4) 0 then 4
  else if Z.eqb (width mod 8) 0 then 8
  else if Z.eqb (width mod 2) 0 then 2
  else 1.

(** [Texture._allocate_storage] *)
Definition _allocate_storage (self : t) (shape : list Z) (format : gl_enum)
    (level : Z) : M unit :=
  ndim ← upload_ndim (_target self);
  let gltype := GL_UNSIGNED_BYTE in
  let size := rev (take (Z.to_nat ndim) shape) in
  gl (glTexImage (_target self) level format size gltype None).

(** [Texture._upload_data] *)
Definition _upload_data (self : t) (data : Np.ndarray) (format : gl_enum)
    (level : Z) : M unit :=
  ndim ← upload_ndim (_target self);
  let thetype := Np.name (Np.arr_dtype data) in
  match Np.assoc thetype DTYPE2GTYPE with
  | None => raise (TextureError ("Cannot translate datatype " ++ thetype ++ " to GL."))
  | Some _ =>
      '(size, gltype) ← _get_size_and_type data ndim;
      let alignment := _get_alignment (List.last (Np.arr_shape data) 0) in
      _ ← (if negb (Z.eqb alignment 4)
           then gl (glPixelStorei GL_UNPACK_ALIGNMENT alignment) else ret tt);
      _ ← gl (glTexImage (_target self) level format size gltype (Some data));
      if negb (Z.eqb alignment 4)
      then gl (glPixelStorei GL_UNPACK_ALIGNMENT 4) else ret tt
  end.

(** [Texture._upload_subdata] *)
Definition _upload_subdata (self : t) (data : Np.ndarray) (offset : list Z)
    (format : gl_enum) (level : Z) : M unit :=
  ndim ← upload_ndim (_target self);
  '(size, gltype) ← _get_size_and_type data ndim;
  let offset := rev offset in
  _ ← lift (assert (bool_decide (length offset = length size)));
  gl (glTexSubImage (_target self) level offset size format gltype data).

(** [for param, value in self._texture_params.items():
       gl.glTexParameter(self._target, param, value)] *)
Fixpoint apply_params (target : gl_enum) (d : list (gl_enum * gl_enum))
  : M unit :=
  match d with
  | [] => ret tt
  | (param, value) :: d' =>
      _ ← gl (glTexParameter target param value);
      apply_params target d'
  end.

(** A list as a truth value *)
Definition truthy (offset : option (list Z)) : option (list Z) :=
  match offset with
  | Some (x :: l) => Some (x :: l)
  | _ => None
  end.

(** [Texture._process_pending_data] *)
Definition _process_pending_data (self : t) (e : entry) : M t :=
  let level := e_level e in
  '(data, shape, offset) ←
    match e_data e with
    | Data data =>
        data ← lift (convert_data ext_available data (e_clim e));
        let shape := Np.arr_shape data in
        let offset :=
          match truthy (e_offset e) with
          | None =>
              let ndim := ndim_of (_target self) in
              match _texture_shape self with
              | Some texture_shape =>
                  if bool_decide (Np.arr_shape data = texture_shape)
                     && _valid self
                  then Some (map (fun _ => 0)
                               (take (Z.to_nat ndim) texture_shape))
                  else e_offset e
              | None => e_offset e
              end
          | Some o => Some o
          end in
        ret (Data data, shape, offset)
    | Shape shape => ret (Shape shape, shape, e_offset e)
    end;
  format ←
    match e_format e with
    | None => lift (get_format shape (_target self))
    | Some f => ret f
    end;
  match truthy offset with
  | Some offset =>
      _ ← gl (glBindTexture (_target self) (_handle self));
      ok ← gl_IsTexture (_handle self);
      if Z.leb (_handle self) 0 || negb ok then
        raise (TextureError "Cannot update texture if there is no texture.")
      else
        match data with
        | Data data =>
            _ ← _upload_subdata self data offset format level;
            ret self
        | Shape _ => raise (AttributeError "shape")
        end
  | None =>
      self ← (if _valid self
              then (self ← delete self; _create self)
              else ret self);
      self ← _activate self;
      _ ← match data with
          | Shape _ => _allocate_storage self shape format level
          | Data data => _upload_data self data format level
          end;
      _ ← apply_params (_target self) (_texture_params self);
      ret (set__pending_params self [])
  end.

(** [while self._pending_subdata: ... pop(0) ...] of [_update] *)
Fixpoint drain_subdata (self : t) (q : list entry) : M t :=
  match q with
  | [] => ret (set__pending_subdata self [])
  | e :: q' =>
      self ← _process_pending_data (set__pending_subdata self q') e;
      drain_subdata self q'
  end.

(** [while self._pending_params: ... popitem() ...] of [_update]: the last
    item first. *)
Definition drain_params (self : t) : M t :=
  _ ← apply_params (_target self) (rev (_pending_params self));
  ret (set__pending_params self []).

(** [Texture._update] *)
Definition _update (self : t) : M t :=
  if bool_decide (_target self = GL_TEXTURE_3D)
     && negb (ext_available "GL_texture_3D") then
    raise (TextureError "3D Texture not available.")
  else
    '(self, returned) ←
      match _pending_data self with
      | Some pendingData =>
          self ← _process_pending_data (set__pending_data self None) pendingData;
          ok ← gl_IsTexture (_handle self);
          if negb ok then ret (set__handle self 0, true)
          else ret (self, false)
      | None => ret (self, false)
      end;
    if returned : bool then ret self
    else
      self ← drain_subdata self (_pending_subdata self);
      ok ← gl_IsTexture (_handle self);
      if negb ok then
        raise (TextureError "This should not happen (texture is invalid)")
      else
        self ← _activate self;
        drain_params self.

End Device.

End Texture.

(** A view of the buffer at reference [l], as [buffer[key]] returns it and
    as reading its properties leaves it: an object of class
    [VertexBufferView] whose base is [l] and that has no bytes of its
    own. *)
Definition is_view_of (l : nat) (view : obj) : Prop :=
  __class__ view = VertexBufferView /\ _base view = Some l /\ _nbytes view = 0.

(** What [DataBuffer.__init__] gets from [self.set_data(data)] once the
    array is parsed. *)
Definition set_data_result (k : klass) (target : gl_enum) (data : Np.ndarray)
    (dtype : Np.dtype) (vsize stride count : Z) : result obj :=
  DataBuffer.set_data ∅ (DataBuffer.fresh k target dtype vsize stride count) data.

(** The exception of the type check in [DataBuffer.__init__]. *)
Definition not_allowed (k : klass) (name : string) : exn :=
  TypeError ("Data type not allowed for " ++ class_name k ++ ": " ++ name).


(** ** The calls that move data *)

Definition is_upload (c : gl_call) : bool :=
  match c with
  | glBufferSubData _ _ _ _ => true
  | glTexImage _ _ _ _ _ _ => true
  | glTexSubImage _ _ _ _ _ _ _ => true
  | _ => false
  end.

Definition uploads (trace : list gl_call) : list gl_call :=
  List.filter is_upload trace.

(** ** Concrete inputs *)

Module Ex.

(** [np.dtype([('position', 'f4', 3), ('color', 'f4', 4)])] *)
Definition position_color : Np.dtype :=
  Np.Struct [("position", (Np.SubArray Np.float32 [3], 0));
             ("color", (Np.SubArray Np.float32 [4], 12))] 28.

(** [np.zeros(n, position_color)], as object number [id] *)
Definition vertices (id : nat) (n : nat) : Np.ndarray :=
  {| Np.arr_id := id;
     Np.arr_dtype := position_color;
     Np.arr_shape := [Z.of_nat n];
     Np.arr_base := None;
     Np.arr_data := repeat 0%Q (7 * n) |}.

Definition P : Np.ndarray := vertices 1 100.

(** The buffer that [VertexBuffer(P)] returns. *)
Definition V : obj :=
  {| __class__ := VertexBuffer; _handle := 0; _need_update := true;
     _target := GL_ARRAY_BUFFER; _nbytes := 2800; _need_resize := true;
     _usage := GL_DYNAMIC_DRAW; _pending_data := [(P, 2800, 0)];
     _offset := 0; _dtype := position_color; _vsize := 7; _stride := 196;
     _count := 100; _base := None |}.

(** The demonstration at the end of buffer.py: an array of 100 elements
    with position:f32x3, texcoord:f32x2 and color:f32x4, and its slice
    [data[10:20]], a view on it. *)
Definition demo_dtype : Np.dtype :=
  Np.Struct [("position", (Np.SubArray Np.float32 [3], 0));
             ("texcoord", (Np.SubArray Np.float32 [2], 12));
             ("color", (Np.SubArray Np.float32 [4], 20))] 36.

Definition demo_data : Np.ndarray :=
  {| Np.arr_id := 1; Np.arr_dtype := demo_dtype; Np.arr_shape := [100];
     Np.arr_base := None; Np.arr_data := repeat 0%Q 900 |}.

Definition demo_slice : Np.ndarray :=
  {| Np.arr_id := 2; Np.arr_dtype := demo_dtype; Np.arr_shape := [10];
     Np.arr_base := Some 1%nat; Np.arr_data := repeat 0%Q 90 |}.

(** [np.zeros(n, dtype)] for a scalar dtype *)
Definition zeros (id : nat) (n : nat) (dtype : Np.dtype) : Np.ndarray :=
  {| Np.arr_id := id;
     Np.arr_dtype := dtype;
     Np.arr_shape := [Z.of_nat n];
     Np.arr_base := None;
     Np.arr_data := repeat 0%Q n |}.

Definition uint16 : Np.dtype := Np.Scalar "uint16" 2.
Definition int32 : Np.dtype := Np.Scalar "int32" 4.
Definition int8 : Np.dtype := Np.Scalar "int8" 1.

(** [ElementBuffer(np.zeros(50, np.uint16))] *)
Definition I : obj :=
  {| __class__ := ElementBuffer; _handle := 0; _need_update := true;
     _target := GL_ELEMENT_ARRAY_BUFFER; _nbytes := 100; _need_resize := true;
     _usage := GL_DYNAMIC_DRAW; _pending_data := [(zeros 1 50 uint16, 100, 0)];
     _offset := 0; _dtype := uint16; _vsize := 1; _stride := 2;
     _count := 50; _base := None |}.

(** [np.zeros(shape, np.uint8)] *)
Definition image (id : nat) (shape : list Z) : Np.ndarray :=
  {| Np.arr_id := id;
     Np.arr_dtype := Np.uint8;
     Np.arr_shape := shape;
     Np.arr_base := None;
     Np.arr_data := repeat 0%Q (Z.to_nat (Np.prod shape)) |}.

(** [Texture2D()] *)
Definition T0 : Texture.t :=
  let params :=
    [(GL_TEXTURE_MAG_FILTER, GL_LINEAR); (GL_TEXTURE_MIN_FILTER, GL_LINEAR);
     (GL_TEXTURE_WRAP_S, GL_CLAMP_TO_EDGE); (GL_TEXTURE_WRAP_T, GL_CLAMP_TO_EDGE)] in
  Texture.mk 0 false true GL_TEXTURE_2D None None [] params params.

(** [T0] after [set_data(full)] and then [set_subdata(offset, part)] *)
Definition T1 (full : Np.ndarray) : Texture.t :=
  Texture.set__texture_shape
    (Texture.set__pending_data T0
       (Some (Texture.mk_entry (Texture.Data full) None 0 None None)))
    (Some (Np.arr_shape full)).

Definition T2 (full : Np.ndarray) (offset : list Z) (part : Np.ndarray)
  : Texture.t :=
  Texture.set__pending_subdata (T1 full)
    [Texture.mk_entry (Texture.Data part) (Some offset) 0 None None].

End Ex.

(** A small device: texture names are handed out in order, and a name is
    a texture from its first binding until it is deleted. *)
Module Dev.

Record device : Type := mk {
  next : Z;
  textures : list Z
}.

Definition init : device := {| next := 1; textures := [] |}.

Definition gl_apply (c : gl_call) (d : device) : device :=
  match c with
  | glGenTextures => {| next := next d + 1; textures := textures d |}
  | glBindTexture _ handle =>
      if Z.eqb handle 0 then d
      else {| next := next d; textures := handle :: textures d |}
  | glDeleteTextures handle =>
      {| next := next d;
         textures := List.filter (fun h => negb (Z.eqb h handle)) (textures d) |}
  | _ => d
  end.

Definition gl_new_texture (d : device) : Z := next d.

Definition gl_is_texture (d : device) (handle : Z) : bool :=
  bool_decide (handle ∈ textures d).

(** A context with every extension, and one with none. *)
Definition all_extensions (name : string) : bool := true.
Definition no_extensions (name : string) : bool := false.

(** [_create] followed by [_update] on a fresh device: the calls issued. *)
Definition flush (ext_available : string -> bool) (self : Texture.t)
  : result Texture.t * list gl_call :=
  match Texture._create device gl_apply gl_new_texture self (init, []) with
  | (Ok self, s) =>
      let '(r, (_, trace)) :=
        Texture._update ext_available device gl_apply gl_new_texture
          gl_is_texture self s in
      (r, trace)
  | (Raise e, (_, trace)) => (Raise e, trace)
  end.

End Dev.

(** The array that a texture call carries, if any. *)
Definition payload_of (c : gl_call) : option Np.ndarray :=
  match c with
  | glTexImage _ _ _ _ _ data => data
  | glTexSubImage _ _ _ _ _ _ data => Some data
  | glBufferSubData _ _ _ data => Some data
  | _ => None
  end.

(** What a computation on the device does to the trace: it appends calls
    that all satisfy [Q], and a result it returns satisfies [R]. *)
Definition emits {device A : Type} (Q : gl_call -> Prop) (R : A -> Prop)
    (m : Texture.M device A) : Prop :=
  forall s, exists new,
    snd (snd (m s)) = snd s ++ new
    /\ Forall Q new
    /\ forall a, fst (m s) = Ok a -> R a.

(** The upload [c] carries what the pending entry [e] holds: the array of
    the entry as [convert_data] returns it, or nothing for a storage
    request. *)
Definition carries (ext_available : string -> bool) (e : Texture.entry)
    (c : gl_call) : Prop :=
  match Texture.e_data e with
  | Texture.Data data =>
      exists data', convert_data ext_available data (Texture.e_clim e) = Ok data'
                    /\ payload_of c = Some data'
  | Texture.Shape _ => payload_of c = None
  end.

(** ** Predicates on buffers and dicts *)

(** Every pending write ends within the capacity of the buffer. *)
Definition within_capacity (self : obj) : Prop :=
  Forall (fun e : pending => snd e + snd (fst e) <= _nbytes self)
    (_pending_data self).

(** Every pending write also starts at a byte offset that is not negative. *)
Definition within_buffer (self : obj) : Prop :=
  Forall (fun e : pending => 0 <= snd e /\ snd e + snd (fst e) <= _nbytes self)
    (_pending_data self).

(** The element contract of a typed buffer: what the constructor fixes. *)
Definition same_contract (a b : obj) : Prop :=
  __class__ a = __class__ b /\ _target a = _target b /\ _dtype a = _dtype b
  /\ _vsize a = _vsize b /\ _stride a = _stride b /\ _offset a = _offset b
  /\ _base a = _base b.

(** [d[k]] and [k in d] on a parameter dict *)
Fixpoint dict_get (k : gl_enum) (d : list (gl_enum * gl_enum))
  : option gl_enum :=
  match d with
  | [] => None
  | (k', v) :: d' => if bool_decide (k = k') then Some v else dict_get k d'
  end.

(** The number of channels of a pixel format. *)
Definition channels_of (format : gl_enum) : option Z :=
  match format with
  | GL_LUMINANCE => Some 1
  | GL_LUMINANCE_ALPHA => Some 2
  | GL_RGB => Some 3
  | GL_RGBA => Some 4
  | _ => None
  end.

(** The value of a key after an assignment that is made only for an
    argument that is not [None]. *)
Definition overrides (v old : option gl_enum) : option gl_enum :=
  match v with
  | Some _ => v
  | None => old
  end.

(** The device after a list of calls. *)
Definition gl_replay {device : Type} (gl_apply : gl_call -> device -> device)
    (calls : list gl_call) (d : device) : device :=
  fold_left (fun d c => gl_apply c d) calls d.

(** One [glTexParameter] for each item of a dict, in its order. *)
Definition param_calls (target : gl_enum) (d : list (gl_enum * gl_enum))
  : list gl_call :=
  map (fun pv => glTexParameter target (fst pv) (snd pv)) d.

(** The calls of an upload of a whole array: the image, between a change of
    the unpack alignment and its reset where the alignment is not 4. *)
Definition image_calls (target : gl_enum) (level : Z) (format gltype : gl_enum)
    (data : Np.ndarray) : list gl_call :=
  let a := Texture._get_alignment (List.last (Np.arr_shape data) 0) in
  let size := rev (take (Z.to_nat (Texture.ndim_of target)) (Np.arr_shape data)) in
  let image := glTexImage target level format size gltype (Some data) in
  if Z.eqb a 4 then [image]
  else [glPixelStorei GL_UNPACK_ALIGNMENT a; image;
        glPixelStorei GL_UNPACK_ALIGNMENT 4].

(** The format of an entry: the one it names, or the one of the shape. *)
Definition format_of (format : option gl_enum) (shape : list Z)
    (target : gl_enum) : result gl_enum :=
  match format with
  | None => get_format shape target
  | Some f => Ok f
  end.

(** ** Properties of buffer.py *)

(** *** Resizing and the pending queue *)

Lemma bind_ok {A B : Type} (a : A) (k : A -> result B) : Ok a ≫= k = k a.
Proof. reflexivity. Qed.


Arguments Buffer.set_nbytes : simpl never.
Arguments DataBuffer.set_count : simpl never.
Arguments DataBuffer.stride : simpl never.
Arguments DataBuffer.count : simpl never.
Arguments DataBuffer.check_match : simpl never.
Arguments DataBuffer.call_set_count : simpl never.
Arguments DataBuffer._parse_array : simpl never.
Arguments VertexBuffer._parse_array : simpl never.
Arguments ElementBuffer._parse_array : simpl never.
Arguments Buffer.set_subdata : simpl never.
Arguments Buffer.set_data : simpl never.

Lemma set_nbytes_clears self n :
  _pending_data (Buffer.set_nbytes self n) = [].
Proof. unfold Buffer.set_nbytes. by destruct (negb _). Qed.

Lemma set_nbytes_nbytes self n : _nbytes (Buffer.set_nbytes self n) = n.
Proof.
  unfold Buffer.set_nbytes.
  destruct (Z.eqb_spec (_nbytes self) n) as [H|H]; cbn; auto.
Qed.

Lemma set_nbytes_target self n :
  _target (Buffer.set_nbytes self n) = _target self.
Proof. unfold Buffer.set_nbytes. by destruct (negb _). Qed.

Lemma set_nbytes_attrs self n :
  __class__ (Buffer.set_nbytes self n) = __class__ self
  /\ _count (Buffer.set_nbytes self n) = _count self
  /\ _stride (Buffer.set_nbytes self n) = _stride self
  /\ _base (Buffer.set_nbytes self n) = _base self.
Proof. unfold Buffer.set_nbytes. by destruct (negb _). Qed.

Lemma set_count_clears self n :
  _pending_data (DataBuffer.set_count self n) = [].
Proof. apply set_nbytes_clears. Qed.

Lemma Buffer_set_data_pending self data :
  _pending_data (Buffer.set_data self data) = [(data, Np.nbytes data, 0)].
Proof.
  unfold Buffer.set_data. cbn. by rewrite set_nbytes_clears.
Qed.

Lemma Buffer_set_data_target self data :
  _target (Buffer.set_data self data) = _target self.
Proof. unfold Buffer.set_data. cbn. apply set_nbytes_target. Qed.

(** What [self.set_count(count)] does when it returns. *)
Lemma call_set_count_ok self args self' :
  DataBuffer.call_set_count self args = Ok self' ->
  exists count, args = [count] /\ self' = DataBuffer.set_count self count
                /\ __class__ self <> VertexBufferView.
Proof.
  unfold DataBuffer.call_set_count.
  destruct (__class__ self) eqn:Hk;
    destruct args as [|c [|? ?]]; intros H; try discriminate;
    injection H as <-; exists c; done.
Qed.

(** A successful [set_data] leaves exactly the write of the new data. *)
Lemma set_data_pending h self data self' :
  DataBuffer.set_data h self data = Ok self' ->
  _pending_data self'
  = [(VertexBuffer.unwrap_array data,
      Np.nbytes (VertexBuffer.unwrap_array data), 0)]
  /\ _target self' = _target self.
Proof.
  unfold DataBuffer.set_data.
  destruct (DataBuffer._parse_array _ _) as [[[[dt vs] st] ct]|e]; [|done].
  cbn.
  destruct (DataBuffer.check_match h self dt vs st) as [self1|e] eqn:Hm; [|done].
  cbn.
  destruct (DataBuffer.call_set_count self1 [ct]) as [self2|e] eqn:Hc; [|done].
  cbn. intros [= <-].
  rewrite Buffer_set_data_pending, Buffer_set_data_target.
  split; [done|].
  apply call_set_count_ok in Hc as (c & _ & -> & _).
  unfold DataBuffer.set_count. rewrite set_nbytes_target. cbn.
  revert Hm. unfold DataBuffer.check_match.
  repeat (destruct (negb _); [done|]).
  unfold DataBuffer.stride.
  destruct (DataBuffer.get_stride _ _ _); [|done]. cbn.
  destruct (__class__ self); cbn; destruct (negb _); try done;
    by intros [= <-].
Qed.

Lemma uploads_upload target q :
  uploads (Buffer.upload target q) = Buffer.upload target q.
Proof.
  induction q as [|[[data nbytes] offset] q IH]; [done|].
  cbn. unfold uploads in IH. by rewrite IH.
Qed.

(** The data that a flush moves is the pending queue, in order. *)
Lemma update_uploads self :
  uploads (snd (Buffer._update self))
  = Buffer.upload (_target self) (_pending_data self).
Proof.
  unfold Buffer._update.
  destruct (_need_resize self); cbn; apply uploads_upload.
Qed.

(** C1.  Resizing discards the queue: after [set_count(n)] with [n]
    different from the current count the pending queue is empty and the
    next flush uploads nothing; after a [set_data] with an array whose byte
    size differs from the current capacity the queue holds the write of the
    new data alone, and the next flush uploads that and nothing else. *)
Theorem resize_discards_pending :
  (forall self n self',
      n <> _count self ->
      DataBuffer.call_set_count self [n] = Ok self' ->
      _pending_data self' = []
      /\ uploads (snd (Buffer._update self')) = [])
  /\ (forall h self data self',
        Np.nbytes data <> _nbytes self ->
        DataBuffer.set_data h self data = Ok self' ->
        let data' := VertexBuffer.unwrap_array data in
        _pending_data self' = [(data', Np.nbytes data', 0)]
        /\ uploads (snd (Buffer._update self'))
           = [glBufferSubData (_target self) 0 (Np.nbytes data') data']).
Proof.
  split.
  - intros self n self' _ Hc.
    apply call_set_count_ok in Hc as (c & _ & -> & _).
    rewrite update_uploads, set_count_clears. done.
  - intros h self data self' _ Hd data'.
    apply set_data_pending in Hd as [Hq Ht].
    rewrite update_uploads, Hq, Ht. done.
Qed.

Lemma resize_discards_pending_witness :
  let self' := DataBuffer.set_count Ex.I 60 in
  let data := Ex.zeros 2 60 Ex.uint16 in
  (_pending_data self' = [] /\ uploads (snd (Buffer._update self')) = [])
  /\ exists self'',
      DataBuffer.set_data ∅ Ex.I data = Ok self''
      /\ _pending_data self'' = [(data, 120, 0)]
      /\ uploads (snd (Buffer._update self''))
         = [glBufferSubData GL_ELEMENT_ARRAY_BUFFER 0 120 data].
Proof.
  split.
  - apply (proj1 resize_discards_pending Ex.I 60); [done | reflexivity].
  - eexists. split; [reflexivity|].
    apply (proj2 resize_discards_pending ∅ Ex.I (Ex.zeros 2 60 Ex.uint16));
      [done | reflexivity].
Defined.

(** *** Parsing arrays: the stride *)

Lemma field_view_wf a fd : Np.wf (Np.field_view a fd).
Proof.
  unfold Np.wf, Np.field_view, Np.owner. cbn.
  intros [= H]. destruct (Np.arr_base a); lia.
Qed.

Lemma unwrap_fields_wf :
  forall dtype data, Np.wf data -> Np.wf (VertexBuffer.unwrap_fields dtype data).
Proof.
  fix IH 1. intros [n s | b sh | fs sz] data Hwf; try exact Hwf.
  destruct fs as [|[nm [fd off]] [|? ?]]; try exact Hwf.
  cbn. destruct fd as [n s | b sh | fs' sz'] eqn:E.
  - exact (field_view_wf _ _).
  - apply (IH b), field_view_wf.
  - rewrite <- E. apply (IH fd), field_view_wf.
Qed.

Lemma wf_base_is_not_self a : Np.wf a -> Np.base_is_not_self a = true.
Proof.
  unfold Np.wf, Np.base_is_not_self. destruct (Np.arr_base a) as [b|]; [|done].
  intros H. apply negb_true_iff, Nat.eqb_neq. congruence.
Qed.

(** [data.base is not data] holds of every array, so the stride that
    [VertexBuffer._parse_array] returns is always the recomputed one. *)
Lemma parse_array_stride data dtype vsize stride count :
  Np.wf data ->
  VertexBuffer._parse_array data = Ok (dtype, vsize, stride, count) ->
  stride = Np.itemsize dtype * vsize.
Proof.
  intros Hwf. unfold VertexBuffer._parse_array, VertexBuffer.unwrap_array.
  rewrite (wf_base_is_not_self (VertexBuffer.unwrap_fields _ data))
    by (by apply unwrap_fields_wf).
  cbn.
  destruct (Np.has_fields _); [|destruct (Z.leb _ _)]; by intros [= <- <- <- <-].
Qed.

(** C5.  [VertexBuffer(P)] for the structured array [P] of 100 elements
    with fields position:f32x3 and color:f32x4 has vector size 7 and count
    100, and [buffer['color']] is a view at byte offset 12; its stride is
    196 = 28 * 7, not the 28 bytes of an element, although the dtype alone
    parses to stride 28. *)
Theorem structured_vertex_buffer :
  new VertexBuffer (InitArray Ex.P) = Ok Ex.V
  /\ _vsize Ex.V = 7 /\ _count Ex.V = 100 /\ _stride Ex.V = 196
  /\ VertexBuffer._parse_dtype Ex.position_color = Ok (Ex.position_color, 7, 28)
  /\ exists view,
       getitem {[0%nat := Ex.V]} 0%nat (KeyStr "color") = Ok (Some view)
       /\ _offset view = 12.
Proof.
  repeat split; try reflexivity.
  eexists. split; [vm_compute; reflexivity | reflexivity].
Qed.

(** The demonstration at the end of buffer.py assigns [V[10:20] =
    data[10:20]]; with the stride of 324 = 36 * 9 that the constructor
    stores, the assignment expects 3240 bytes and raises. *)
Lemma demo_slice_assignment_raises :
  match new VertexBuffer (InitArray Ex.demo_data) with
  | Ok V =>
      _stride V = 324
      /\ Np.nbytes Ex.demo_slice = 360
      /\ setitem ∅ V (KeySlice (Some 10) (Some 20) None) Ex.demo_slice
         = Raise (ValueError "Not enough data.")
  | Raise _ => False
  end.
Proof. vm_compute. repeat split. Qed.

(** *** The capacity invariant *)

Lemma set_count_invariant self n :
  let self' := DataBuffer.set_count self n in
  _count self' = n /\ _stride self' = _stride self
  /\ _nbytes self' = _count self' * _stride self'.
Proof.
  unfold DataBuffer.set_count. cbn.
  destruct (set_nbytes_attrs (set__count self n) (n * _stride self))
    as (_ & Hc & Hs & _).
  rewrite Hc, Hs, set_nbytes_nbytes. done.
Qed.

Lemma Buffer_set_subdata_ok self offset data self' :
  Buffer.set_subdata self offset data = Ok self' ->
  self' = set__need_update
            (set__pending_data self
               (_pending_data self ++ [(data, Np.nbytes data, offset)])) true
  /\ _nbytes self <> 0 /\ offset + Np.nbytes data <= _nbytes self.
Proof.
  unfold Buffer.set_subdata.
  destruct (Z.eqb_spec (_nbytes self) 0); [done|].
  destruct (Z.ltb_spec (_nbytes self) (offset + Np.nbytes data)); [done|].
  by intros [= <-].
Qed.

(** On a buffer that is not a view the properties are the attributes. *)
Lemma stride_plain h self :
  __class__ self <> VertexBufferView ->
  DataBuffer.stride h self = Ok (_stride self, self).
Proof.
  unfold DataBuffer.stride. cbn. by destruct (__class__ self).
Qed.


Lemma count_plain h self :
  __class__ self <> VertexBufferView ->
  DataBuffer.count h self = Ok (_count self, self).
Proof.
  unfold DataBuffer.count. cbn. by destruct (__class__ self).
Qed.

Lemma check_match_plain h self dtype vsize stride self' :
  __class__ self <> VertexBufferView ->
  DataBuffer.check_match h self dtype vsize stride = Ok self' ->
  self' = self /\ Np.eqb dtype (_dtype self) = true
  /\ vsize = _vsize self /\ stride = _stride self.
Proof.
  intros Hk. unfold DataBuffer.check_match.
  destruct (Np.eqb dtype (_dtype self)); [|done].
  destruct (Z.eqb_spec vsize (_vsize self)); [|done].
  rewrite stride_plain by done. cbn.
  destruct (Z.eqb_spec stride (_stride self)); [|done].
  by intros [= <-].
Qed.

(** [set_subdata] and the indexed assignment touch neither the capacity
    nor the count nor the stride. *)
Lemma set_subdata_attrs h self offset data self' :
  __class__ self <> VertexBufferView ->
  DataBuffer.set_subdata h self offset data = Ok self' ->
  _nbytes self' = _nbytes self /\ _count self' = _count self
  /\ _stride self' = _stride self.
Proof.
  intros Hk. unfold DataBuffer.set_subdata.
  destruct (DataBuffer._parse_array _ _) as [[[[dt vs] st] ct]|e]; [|done].
  cbn.
  destruct (DataBuffer.check_match h self dt vs st) as [self1|e] eqn:Hm; [|done].
  apply check_match_plain in Hm as (-> & _); [|done]. cbn.
  destruct (Z.ltb offset 0); [done|].
  rewrite count_plain by done. cbn.
  destruct (Z.ltb _ _); [done|].
  intros H. apply Buffer_set_subdata_ok in H as (-> & _). done.
Qed.

Lemma setitem_attrs h self key data self' :
  __class__ self <> VertexBufferView ->
  setitem h self key data = Ok self' ->
  _nbytes self' = _nbytes self /\ _count self' = _count self
  /\ _stride self' = _stride self.
Proof.
  intros Hk. unfold setitem.
  assert (DataBuffer.__setitem__ h self key data = Ok self' ->
          _nbytes self' = _nbytes self /\ _count self' = _count self
          /\ _stride self' = _stride self) as Hset.
  { unfold DataBuffer.__setitem__.
    destruct (match key with KeyStr _ => _ | _ => _ end) as [[start nbytes]|e];
      [|done].
    cbn. destruct (Z.ltb _ _); [done|]. destruct (Z.ltb _ _); [done|].
    by apply set_subdata_attrs. }
  destruct (__class__ self); try exact Hset; by intros [= <-].
Qed.

Lemma set_data_attrs h self data self' :
  __class__ self <> VertexBufferView ->
  DataBuffer.set_data h self data = Ok self' ->
  let data' := VertexBuffer.unwrap_array data in
  exists dtype vsize,
    DataBuffer._parse_array (__class__ self) data'
    = Ok (dtype, vsize, _stride self', _count self')
    /\ _stride self' = _stride self
    /\ _nbytes self' = Np.nbytes data'.
Proof.
  intros Hk. unfold DataBuffer.set_data.
  destruct (DataBuffer._parse_array _ _) as [[[[dt vs] st] ct]|e]; [|done].
  cbn.
  destruct (DataBuffer.check_match h self dt vs st) as [self1|e] eqn:Hm; [|done].
  apply check_match_plain in Hm as (-> & _ & _ & ->); [|done]. cbn.
  destruct (DataBuffer.call_set_count self [ct]) as [self2|e] eqn:Hc; [|done].
  apply call_set_count_ok in Hc as (c & [= <-] & -> & _).
  cbn. intros [= <-]. exists dt, vs.
  destruct (set_count_invariant self ct) as (Hc & Hs & _). cbn in Hc, Hs.
  unfold Buffer.set_data. cbn.
  destruct (set_nbytes_attrs (DataBuffer.set_count self ct)
              (Np.nbytes (VertexBuffer.unwrap_array data)))
    as (_ & Hc' & Hs' & _).
  rewrite Hc', Hs', Hc, Hs, set_nbytes_nbytes. done.
Qed.

(** On an index buffer [set_data] establishes the invariant. *)
Lemma element_set_data_invariant h self data self' :
  is_element (__class__ self) = true ->
  DataBuffer.set_data h self data = Ok self' ->
  _nbytes self' = _count self' * _stride self'.
Proof.
  intros Hk Hd.
  assert (__class__ self <> VertexBufferView) as Hv
    by (intros E; rewrite E in Hk; discriminate).
  apply set_data_attrs in Hd as (dt & vs & Hp & _ & ->); [|done].
  revert Hp. unfold DataBuffer._parse_array. rewrite Hk.
  unfold ElementBuffer._parse_array, ElementBuffer._parse_dtype.
  destruct (Np.has_fields _); [done|]. cbn.
  intros [= _ _ <- <-]. reflexivity.
Qed.

Lemma prod_removelast_last (l : list Z) :
  l <> [] -> Np.prod (removelast l) * List.last l 0 = Np.prod l.
Proof.
  induction l as [|x [|y l] IH]; [done | cbn; lia |].
  intros _. change (Np.prod (x :: y :: l)) with (x * Np.prod (y :: l)).
  rewrite <- IH by done.
  change (removelast (x :: y :: l)) with (x :: removelast (y :: l)).
  change (List.last (x :: y :: l) 0) with (List.last (y :: l) 0).
  cbn [Np.prod fold_right]. fold (Np.prod (removelast (y :: l))). lia.
Qed.

(** What [VertexBuffer._parse_array] returns for an array of a scalar
    type. *)
Lemma vertex_parse_scalar data name sz :
  Np.arr_dtype data = Np.Scalar name sz ->
  Np.wf data ->
  VertexBuffer.unwrap_array data = data
  /\ exists vsize count,
       VertexBuffer._parse_array data
       = Ok (Np.Scalar name sz, vsize, sz * vsize, count)
       /\ count * vsize = Np.size data.
Proof.
  intros Hdt Hwf. pose proof (wf_base_is_not_self data Hwf) as Hb.
  destruct data as [id dt sh b v]. cbn in Hdt. subst dt.
  split; [reflexivity|].
  unfold VertexBuffer._parse_array, VertexBuffer.unwrap_array.
  cbn [VertexBuffer.unwrap_fields Np.arr_dtype]. rewrite Hb. cbn.
  unfold Np.ndim, Np.size. cbn.
  destruct (Z.leb_spec (Z.of_nat (length sh)) 1) as [Hn|Hn].
  - eexists _, _. split; [reflexivity | lia].
  - eexists _, _. split; [reflexivity|].
    apply prod_removelast_last. destruct sh; [cbn in Hn; lia | done].
Qed.

(** On a vertex buffer [set_data] with an array of a scalar type
    establishes the invariant as well. *)
Lemma vertex_scalar_set_data_invariant h self data name sz self' :
  is_element (__class__ self) = false ->
  __class__ self <> VertexBufferView ->
  Np.arr_dtype data = Np.Scalar name sz ->
  Np.wf data ->
  DataBuffer.set_data h self data = Ok self' ->
  _nbytes self' = _count self' * _stride self'.
Proof.
  intros Hk Hv Hdt Hwf Hd.
  apply set_data_attrs in Hd as (dt & vs & Hp & _ & ->); [|done].
  destruct (vertex_parse_scalar data name sz Hdt Hwf)
    as (Hu & vsize & count & Hparse & Hsize).
  revert Hp. unfold DataBuffer._parse_array. rewrite Hk, Hu, Hparse.
  intros [= _ _ <- <-]. unfold Np.nbytes. rewrite Hdt, <- Hsize. cbn. lia.
Qed.

(** C2.  After [set_count] the capacity is count * stride, and neither
    [set_subdata] nor an indexed assignment changes the three; but
    [set_data] with a structured array breaks the invariant: on the vertex
    buffer of 100 position/color elements it leaves a capacity of 2800
    bytes with count * stride = 100 * 196 = 19600. *)
Theorem capacity_invariant_broken :
  let self := DataBuffer.set_count Ex.V 100 in
  _nbytes self = _count self * _stride self
  /\ exists self',
       DataBuffer.set_data ∅ self Ex.P = Ok self'
       /\ _nbytes self' = 2800
       /\ _count self' * _stride self' = 19600.
Proof.
  split; [reflexivity|]. eexists. repeat split; reflexivity.
Qed.

(** *** Sub-data bounds *)

Lemma check_match_plain_ok h self dtype :
  __class__ self <> VertexBufferView ->
  Np.eqb dtype (_dtype self) = true ->
  DataBuffer.check_match h self dtype (_vsize self) (_stride self) = Ok self.
Proof.
  intros Hk Hd. unfold DataBuffer.check_match.
  rewrite Hd, Z.eqb_refl, stride_plain by done. cbn.
  by rewrite Z.eqb_refl.
Qed.

(** Where the capacity is count * stride and the bytes of the data are
    its count * stride, [set_subdata] fails exactly when the elements do
    not fit, and otherwise enqueues one write at [offset * stride]. *)
Lemma set_subdata_fits h self offset data dtype count :
  __class__ self <> VertexBufferView ->
  DataBuffer._parse_array (__class__ self) (VertexBuffer.unwrap_array data)
  = Ok (dtype, _vsize self, _stride self, count) ->
  Np.eqb dtype (_dtype self) = true ->
  0 < _stride self ->
  0 < _count self ->
  _nbytes self = _count self * _stride self ->
  Np.nbytes (VertexBuffer.unwrap_array data) = count * _stride self ->
  (fails (DataBuffer.set_subdata h self offset data)
   <-> offset < 0 \/ offset + count > _count self)
  /\ (0 <= offset -> offset + count <= _count self ->
      DataBuffer.set_subdata h self offset data
      = Ok (set__need_update
              (set__pending_data self
                 (_pending_data self
                    ++ [(VertexBuffer.unwrap_array data,
                         Np.nbytes (VertexBuffer.unwrap_array data),
                         offset * _stride self)])) true)).
Proof.
  intros Hk Hp Hd Hs Hc Hinv Hbytes.
  assert (forall r, DataBuffer.set_subdata h self offset data = r ->
            r = if Z.ltb offset 0
                then Raise (ValueError "Offset in set_subdata should be >= 0.")
                else if Z.ltb (_count self) (offset + count)
                then Raise (ValueError "Offset + data does not fit in this buffer.")
                else Buffer.set_subdata self (offset * _stride self)
                       (VertexBuffer.unwrap_array data)) as Hrun.
  { intros r <-. unfold DataBuffer.set_subdata. rewrite Hp. cbn.
    rewrite (check_match_plain_ok h self dtype) by done. cbn.
    destruct (Z.ltb offset 0); [done|].
    rewrite count_plain by done. cbn. reflexivity. }
  assert (0 <= offset -> offset + count <= _count self ->
          Buffer.set_subdata self (offset * _stride self)
            (VertexBuffer.unwrap_array data)
          = Ok (set__need_update
                  (set__pending_data self
                     (_pending_data self
                        ++ [(VertexBuffer.unwrap_array data,
                             Np.nbytes (VertexBuffer.unwrap_array data),
                             offset * _stride self)])) true)) as Hbuf.
  { intros Ho Hfit. unfold Buffer.set_subdata.
    destruct (Z.eqb_spec (_nbytes self) 0) as [E|_]; [nia|].
    destruct (Z.ltb_spec (_nbytes self)
                (offset * _stride self
                 + Np.nbytes (VertexBuffer.unwrap_array data))); [nia|].
    reflexivity. }
  split.
  - rewrite (Hrun _ eq_refl). split.
    + intros [e He].
      destruct (Z.ltb_spec offset 0); [lia|].
      destruct (Z.ltb_spec (_count self) (offset + count)); [lia|].
      rewrite Hbuf in He by lia. discriminate.
    + intros [Ho|Ho].
      * destruct (Z.ltb_spec offset 0); [|lia]. by eexists.
      * destruct (Z.ltb offset 0); [by eexists|].
        destruct (Z.ltb_spec (_count self) (offset + count)); [|lia].
        by eexists.
  - intros Ho Hfit. rewrite (Hrun _ eq_refl).
    destruct (Z.ltb_spec offset 0); [lia|].
    destruct (Z.ltb_spec (_count self) (offset + count)); [lia|].
    by apply Hbuf.
Qed.




(** *** Allowed element types *)

Lemma init_dtype_ok k dtype target self :
  DataBuffer.__init__ k (InitDtype dtype) target = Ok self ->
  __class__ self = k /\ _nbytes self = 0 /\ _base self = None
  /\ DataBuffer.check_dtype k (_dtype self) = Ok tt.
Proof.
  unfold DataBuffer.__init__. destruct (negb _); [done|].
  destruct (DataBuffer._parse_dtype k dtype) as [[[dt vs] st]|e]; [|done].
  cbn.
  destruct (DataBuffer.check_dtype k dt) as [[]|e] eqn:Hc; [|done].
  cbn. by intros [= <-].
Qed.

Ltac case_name :=
  match goal with
  | |- context [String.eqb ?a ?b] =>
      destruct (String.eqb_spec a b) as [->|?]; cbn
  end.

Lemma allowed_element n :
  DataBuffer.allowed ElementBuffer n = true
  <-> n ∈ ["uint8"; "uint16"; "uint32"].
Proof.
  unfold DataBuffer.allowed. cbn. rewrite bool_decide_eq_true.
  repeat case_name.
  all: rewrite ?elem_of_cons, ?elem_of_nil.
  all: split; [intros [? ?]; try discriminate; auto 10 |].
  all: intros ?; try (by eexists); exfalso; intuition congruence.
Qed.

Lemma allowed_vertex n :
  DataBuffer.allowed VertexBuffer n = true
  <-> n ∈ ["int8"; "uint8"; "uint16"; "int16"; "float32"; "float16"].
Proof.
  unfold DataBuffer.allowed. cbn. rewrite bool_decide_eq_true.
  repeat case_name.
  all: rewrite ?elem_of_cons, ?elem_of_nil.
  all: split; [intros [? ?]; try discriminate; auto 10 |].
  all: intros ?; try (by eexists); exfalso; intuition congruence.
Qed.

Lemma set_nbytes_dtype self n :
  _dtype (Buffer.set_nbytes self n) = _dtype self.
Proof. unfold Buffer.set_nbytes. by destruct (negb _). Qed.

Lemma scalar_eqb_refl n sz : Np.eqb (Np.Scalar n sz) (Np.Scalar n sz) = true.
Proof. cbn. by rewrite String.eqb_refl, Z.eqb_refl. Qed.

Lemma parse_array_scalar k data n sz :
  k = ElementBuffer \/ k = VertexBuffer ->
  Np.arr_dtype data = Np.Scalar n sz ->
  Np.wf data ->
  VertexBuffer.unwrap_array data = data
  /\ exists vsize stride count,
       DataBuffer._parse_array k data = Ok (Np.Scalar n sz, vsize, stride, count).
Proof.
  intros Hk Hdt Hwf.
  destruct (vertex_parse_scalar data n sz Hdt Hwf) as (Hu & vs & ct & Hp & _).
  split; [done|].
  destruct Hk as [-> | ->]; unfold DataBuffer._parse_array; cbn.
  - unfold ElementBuffer._parse_array, ElementBuffer._parse_dtype.
    rewrite Hdt. cbn. by eexists _, _, _.
  - rewrite Hp. by eexists _, _, _.
Qed.

Lemma set_data_fresh k target data dtype vsize stride count :
  k <> VertexBufferView ->
  VertexBuffer.unwrap_array data = data ->
  DataBuffer._parse_array k data = Ok (dtype, vsize, stride, count) ->
  Np.eqb dtype dtype = true ->
  let self := DataBuffer.fresh k target dtype vsize stride count in
  DataBuffer.set_data ∅ self data
  = Ok (Buffer.set_data (DataBuffer.set_count self count) data).
Proof.
  intros Hk Hu Hp He self. unfold DataBuffer.set_data.
  rewrite Hu. change (__class__ self) with k. rewrite Hp, bind_ok.
  rewrite (check_match_plain_ok ∅ self dtype Hk He), bind_ok.
  unfold DataBuffer.call_set_count. change (__class__ self) with k.
  by destruct k.
Qed.

Lemma set_data_dtype self count data :
  _dtype (Buffer.set_data (DataBuffer.set_count self count) data) = _dtype self.
Proof.
  unfold Buffer.set_data, DataBuffer.set_count. cbn.
  by rewrite !set_nbytes_dtype.
Qed.

Lemma new_array_scalar k data n sz :
  k = ElementBuffer \/ k = VertexBuffer ->
  Np.arr_dtype data = Np.Scalar n sz ->
  Np.wf data ->
  if DataBuffer.allowed k n
  then exists self, new k (InitArray data) = Ok self
                    /\ _dtype self = Np.Scalar n sz
  else new k (InitArray data) = Raise (not_allowed k n).
Proof.
  intros Hk Hdt Hwf.
  destruct (parse_array_scalar k data n sz Hk Hdt Hwf)
    as (Hu & vs & st & ct & Hp).
  assert (k <> VertexBufferView) as Hv by (destruct Hk; by subst).
  assert (exists target,
             new k (InitArray data)
             = (self ← set_data_result k target data (Np.Scalar n sz) vs st ct;
                _ ← DataBuffer.check_dtype k (_dtype self); Ok self))
    as (target & ->).
  { destruct Hk as [-> | ->]; eexists; unfold new, DataBuffer.__init__;
      cbn [negb bool_decide decide_rel orb]; rewrite Hp, bind_ok;
      reflexivity. }
  unfold set_data_result.
  rewrite (set_data_fresh k target data _ vs st ct Hv Hu Hp
             (scalar_eqb_refl n sz)), bind_ok.
  rewrite set_data_dtype.
  change (_dtype (DataBuffer.fresh k target (Np.Scalar n sz) vs st ct))
    with (Np.Scalar n sz).
  unfold DataBuffer.check_dtype.
  change (Np.has_fields (Np.Scalar n sz)) with false.
  change (Np.name (Np.Scalar n sz)) with n.
  cbn match. fold (not_allowed k n).
  destruct (DataBuffer.allowed k n); [|reflexivity].
  eexists. split; [reflexivity|]. apply set_data_dtype.
Qed.

Lemma new_dtype_scalar k n sz :
  k = ElementBuffer \/ k = VertexBuffer ->
  if DataBuffer.allowed k n
  then exists self, new k (InitDtype (Np.Scalar n sz)) = Ok self
                    /\ _dtype self = Np.Scalar n sz
  else new k (InitDtype (Np.Scalar n sz)) = Raise (not_allowed k n).
Proof.
  intros [-> | ->]; unfold new, DataBuffer.__init__, DataBuffer.check_dtype; cbn.
  all: destruct (DataBuffer.allowed _ n); cbn; [by eexists | done].
Qed.

(** C6, as the code has it.  Index buffers accept exactly uint8, uint16
    and uint32; vertex buffers accept exactly int8, uint8, int16, uint16,
    float16 and float32.  Constructing either from a scalar type or from an
    array of a scalar type succeeds when the type is in the list and
    otherwise raises the type error that names the class and the type. *)
Theorem element_types_checked :
  (forall n, DataBuffer.allowed ElementBuffer n = true
             <-> n ∈ ["uint8"; "uint16"; "uint32"])
  /\ (forall n, DataBuffer.allowed VertexBuffer n = true
                <-> n ∈ ["int8"; "uint8"; "uint16"; "int16"; "float32"; "float16"])
  /\ (forall k n sz,
        k = ElementBuffer \/ k = VertexBuffer ->
        if DataBuffer.allowed k n
        then exists self, new k (InitDtype (Np.Scalar n sz)) = Ok self
                          /\ _dtype self = Np.Scalar n sz
        else new k (InitDtype (Np.Scalar n sz)) = Raise (not_allowed k n))
  /\ (forall k data n sz,
        k = ElementBuffer \/ k = VertexBuffer ->
        Np.arr_dtype data = Np.Scalar n sz ->
        Np.wf data ->
        if DataBuffer.allowed k n
        then exists self, new k (InitArray data) = Ok self
                          /\ _dtype self = Np.Scalar n sz
        else new k (InitArray data) = Raise (not_allowed k n)).
Proof.
  split; [exact allowed_element|]. split; [exact allowed_vertex|].
  split; [exact new_dtype_scalar | exact new_array_scalar].
Qed.

Lemma element_types_checked_witness :
  (exists self, new ElementBuffer (InitArray (Ex.zeros 1 50 Ex.uint16)) = Ok self
                /\ _dtype self = Ex.uint16)
  /\ new ElementBuffer (InitArray (Ex.zeros 1 50 Ex.int8))
     = Raise (TypeError "Data type not allowed for ElementBuffer: int8").
Proof.
  split.
  - apply (proj2 (proj2 (proj2 element_types_checked))
             ElementBuffer (Ex.zeros 1 50 Ex.uint16) "uint16" 2);
      [by left | reflexivity | discriminate].
  - apply (proj2 (proj2 (proj2 element_types_checked))
             ElementBuffer (Ex.zeros 1 50 Ex.int8) "int8" 1);
      [by left | reflexivity | discriminate].
Defined.

(** C6, refuted as stated: a vertex buffer does not accept every integer
    type; an array of int32 is rejected. *)
Lemma vertex_rejects_int32 :
  new VertexBuffer (InitArray (Ex.zeros 1 10 Ex.int32))
  = Raise (TypeError "Data type not allowed for VertexBuffer: int32").
Proof. reflexivity. Qed.

(** *** Views *)

Arguments DataBuffer.__init__ : simpl never.

Lemma getitem_view h l key view :
  getitem h l key = Ok (Some view) -> is_view_of l view.
Proof.
  unfold getitem. destruct (h !! l) as [parent|] eqn:Hl; [|done].
  assert (match key with
          | KeyStr key =>
              dtype ← Np.getitem (_dtype parent) key;
              offset ← Np.field_offset (_dtype parent) key;
              view ← VertexBufferView.__init__ h dtype l offset;
              Ok (Some view)
          | _ => Raise (ValueError "Can only get access to a named field")
          end = Ok (Some view) -> is_view_of l view) as Hget.
  { destruct key as [key| | |]; try done.
    destruct (Np.getitem _ key) as [dtype|]; [|done]. cbn.
    destruct (Np.field_offset _ key) as [offset|]; [|done]. cbn.
    unfold VertexBufferView.__init__.
    destruct (DataBuffer.__init__ _ _ _) as [self|] eqn:Hi; [|done].
    apply init_dtype_ok in Hi as (Hk & Hn & _). cbn. rewrite Hl.
    destruct (DataBuffer.stride h parent) as [[s ?]|]; [|done]. cbn.
    intros [= <-]. unfold is_view_of. cbn. done. }
  destruct (__class__ parent); try exact Hget; done.
Qed.

Lemma get_stride_plain depth h self :
  __class__ self <> VertexBufferView ->
  DataBuffer.get_stride depth h self = Ok (_stride self).
Proof. intros Hk. destruct depth; cbn; by destruct (__class__ self). Qed.

Lemma get_count_plain depth h self :
  __class__ self <> VertexBufferView ->
  DataBuffer.get_count depth h self = Ok (_count self).
Proof. intros Hk. destruct depth; cbn; by destruct (__class__ self). Qed.

Lemma get_stride_view depth h l view parent :
  __class__ view = VertexBufferView -> _base view = Some l ->
  h !! l = Some parent -> __class__ parent <> VertexBufferView ->
  DataBuffer.get_stride (S depth) h view = Ok (_stride parent).
Proof.
  intros Hk Hb Hl Hp. cbn [DataBuffer.get_stride]. rewrite Hk, Hb, Hl.
  by apply get_stride_plain.
Qed.

Lemma get_count_view depth h l view parent :
  __class__ view = VertexBufferView -> _base view = Some l ->
  h !! l = Some parent -> __class__ parent <> VertexBufferView ->
  DataBuffer.get_count (S depth) h view = Ok (_count parent).
Proof.
  intros Hk Hb Hl Hp. cbn [DataBuffer.get_count]. rewrite Hk, Hb, Hl.
  by apply get_count_plain.
Qed.

Lemma view_stride h l view parent :
  is_view_of l view ->
  h !! l = Some parent ->
  __class__ parent <> VertexBufferView ->
  DataBuffer.stride h view = Ok (_stride parent, set__stride view (_stride parent)).
Proof.
  intros (Hk & Hb & _) Hl Hp. unfold DataBuffer.stride, recursion_limit.
  rewrite (get_stride_view _ h l view parent) by done. cbn. by rewrite Hk.
Qed.

Lemma view_count h l view parent :
  is_view_of l view ->
  h !! l = Some parent ->
  __class__ parent <> VertexBufferView ->
  DataBuffer.count h view = Ok (_count parent, set__count view (_count parent)).
Proof.
  intros (Hk & Hb & _) Hl Hp. unfold DataBuffer.count, recursion_limit.
  rewrite (get_count_view _ h l view parent) by done. cbn. by rewrite Hk.
Qed.

Lemma view_handle h l view parent :
  is_view_of l view ->
  h !! l = Some parent ->
  VertexBufferView.handle h view
  = Ok (_handle parent, set__handle view (_handle parent)).
Proof.
  intros (Hk & Hb & _) Hl. unfold VertexBufferView.handle. by rewrite Hb, Hl.
Qed.

Lemma view_set_count_fails view args :
  __class__ view = VertexBufferView ->
  fails (DataBuffer.call_set_count view args).
Proof.
  intros Hk. unfold DataBuffer.call_set_count. rewrite Hk.
  destruct args; by eexists.
Qed.

(** What is left of a view when the comparison with the data passes. *)
Lemma check_match_view h l view dtype vsize stride view' :
  is_view_of l view ->
  DataBuffer.check_match h view dtype vsize stride = Ok view' ->
  is_view_of l view'.
Proof.
  intros (Hk & Hb & Hn). unfold DataBuffer.check_match.
  destruct (negb _); [done|]. destruct (negb _); [done|].
  unfold DataBuffer.stride. destruct (DataBuffer.get_stride _ _ _); [|done].
  cbn. rewrite Hk. cbn. destruct (negb _); [done|].
  intros [= <-]. unfold is_view_of. cbn. done.
Qed.

Lemma view_set_data_fails h l view data :
  is_view_of l view -> fails (DataBuffer.set_data h view data).
Proof.
  intros Hv. unfold DataBuffer.set_data.
  destruct (DataBuffer._parse_array _ _) as [[[[dt vs] st] ct]|e];
    [|by eexists].
  cbn.
  destruct (DataBuffer.check_match h view dt vs st) as [view'|e] eqn:Hm;
    [|by eexists].
  apply (check_match_view h l) in Hm as (Hk & _); [|done]. cbn.
  destruct (view_set_count_fails view' [ct] Hk) as [e ->]. by eexists.
Qed.

Lemma view_set_subdata_fails h l view offset data :
  is_view_of l view -> fails (DataBuffer.set_subdata h view offset data).
Proof.
  intros Hv. unfold DataBuffer.set_subdata.
  destruct (DataBuffer._parse_array _ _) as [[[[dt vs] st] ct]|e];
    [|by eexists].
  cbn.
  destruct (DataBuffer.check_match h view dt vs st) as [view'|e] eqn:Hm;
    [|by eexists].
  apply (check_match_view h l) in Hm as (Hk & Hb & Hn); [|done]. cbn.
  destruct (Z.ltb offset 0); [by eexists|].
  unfold DataBuffer.count. destruct (DataBuffer.get_count _ _ _); [|by eexists].
  cbn. rewrite Hk. cbn. destruct (Z.ltb _ _); [by eexists|].
  unfold Buffer.set_subdata. cbn. rewrite Hn. by eexists.
Qed.

Lemma view_setitem_fails h l view key data :
  is_view_of l view -> fails (setitem h view key data).
Proof.
  intros Hv. unfold setitem. destruct Hv as (Hk & Hv). rewrite Hk.
  unfold DataBuffer.__setitem__.
  destruct (match key with KeyStr _ => _ | _ => _ end) as [[start nbytes]|e];
    [|by eexists].
  cbn. destruct (Z.ltb _ _); [by eexists|]. destruct (Z.ltb _ _); [by eexists|].
  by apply (view_set_subdata_fails h l).
Qed.

(** C7.  The view that [buffer[key]] returns for the buffer at reference
    [l] reads its stride, count and handle from whatever the buffer is at
    the time of the access, in any later heap and however often it is read,
    and every attempt to set its count, its data or a part of its data
    raises an exception. *)
Theorem view_reads_through h l key view :
  getitem h l key = Ok (Some view) ->
  is_view_of l view
  /\ forall h' parent view',
       is_view_of l view' ->
       h' !! l = Some parent ->
       __class__ parent <> VertexBufferView ->
       (exists view'', DataBuffer.stride h' view' = Ok (_stride parent, view'')
                       /\ is_view_of l view'')
       /\ (exists view'', DataBuffer.count h' view' = Ok (_count parent, view'')
                          /\ is_view_of l view'')
       /\ (exists view'', VertexBufferView.handle h' view'
                          = Ok (_handle parent, view'')
                          /\ is_view_of l view'')
       /\ (forall args, fails (DataBuffer.call_set_count view' args))
       /\ (forall data, fails (DataBuffer.set_data h' view' data))
       /\ (forall offset data, fails (DataBuffer.set_subdata h' view' offset data))
       /\ (forall key data, fails (setitem h' view' key data)).
Proof.
  intros Hget. split; [by apply (getitem_view h l key)|].
  intros h' parent view' Hv Hl Hp.
  split; [|split; [|split]].
  - eexists. split; [by apply (view_stride h' l)|].
    destruct Hv as (? & ? & ?). unfold is_view_of. cbn. done.
  - eexists. split; [by apply (view_count h' l)|].
    destruct Hv as (? & ? & ?). unfold is_view_of. cbn. done.
  - eexists. split; [by apply (view_handle h' l)|].
    destruct Hv as (? & ? & ?). unfold is_view_of. cbn. done.
  - split; [|split; [|split]].
    + intros args. apply view_set_count_fails. by destruct Hv.
    + intros data. by apply (view_set_data_fails h' l).
    + intros offset data. by apply (view_set_subdata_fails h' l).
    + intros key' data. by apply (view_setitem_fails h' l).
Qed.

Lemma view_reads_through_witness :
  let h : heap := {[0%nat := Ex.V]} in
  let h' : heap := {[0%nat := DataBuffer.set_count Ex.V 50]} in
  exists view,
    getitem h 0%nat (KeyStr "color") = Ok (Some view)
    /\ (exists view', DataBuffer.stride h view = Ok (196, view')
                      /\ is_view_of 0%nat view')
    /\ (exists view', DataBuffer.count h' view = Ok (50, view')
                      /\ is_view_of 0%nat view')
    /\ fails (DataBuffer.set_data h' view (Ex.zeros 3 50 Np.float32)).
Proof.
  intros h h'. eexists. split; [vm_compute; reflexivity|].
  destruct (view_reads_through h 0%nat (KeyStr "color") _ eq_refl) as [Hv H].
  split; [|split].
  - apply (H h Ex.V _ Hv); [reflexivity | discriminate].
  - apply (H h' (DataBuffer.set_count Ex.V 50) _ Hv);
      [reflexivity | discriminate].
  - apply (H h' (DataBuffer.set_count Ex.V 50) _ Hv);
      [reflexivity | discriminate].
Defined.

(** ** Properties of texture.py *)

(** *** convert_data *)




(** Without texture_float the same array comes back as uint8. *)
Lemma convert_data_int8_uint8 :
  convert_data Dev.no_extensions
    (Np.mk_ndarray 1 Ex.int8 [3] None [inject_Z (-128); inject_Z 0; inject_Z 126])
    None
  = Ok (Np.mk_ndarray 3 Np.uint8 [3] None [inject_Z 0; inject_Z 128; inject_Z 254]).
Proof. reflexivity. Qed.

(** C9, as the code has it.  Without limits an array of uint16, uint32 or
    uint64 is made float32 and gets the limits (0, 2^(bits-1)); an array of
    uint8 is left as it is and gets no limits. *)
Theorem convert_unsigned ext_available id sz shape base values :
  let arr name := Np.mk_ndarray id (Np.Scalar name sz) shape base values in
  convert_prepare ext_available (arr "uint16") None
  = Ok (Np.astype (arr "uint16") Np.float32, Some (inject_Z 0, inject_Z (2 ^ 15)))
  /\ convert_prepare ext_available (arr "uint32") None
     = Ok (Np.astype (arr "uint32") Np.float32, Some (inject_Z 0, inject_Z (2 ^ 31)))
  /\ convert_prepare ext_available (arr "uint64") None
     = Ok (Np.astype (arr "uint64") Np.float32, Some (inject_Z 0, inject_Z (2 ^ 63)))
  /\ convert_prepare ext_available (arr "uint8") None = Ok (arr "uint8", None).
Proof. repeat split. Qed.

(** C9, refuted as stated: an array of uint8, an unsigned integer type, is
    not made floating point and no limits are derived for it. *)
Lemma convert_uint8_untouched :
  let data := Ex.image 1 [2; 2] in
  convert_prepare Dev.all_extensions data None = Ok (data, None)
  /\ convert_data Dev.all_extensions data None = Ok data
  /\ Np.arr_dtype data = Np.uint8.
Proof. repeat split. Qed.

(** *** The flush of a texture *)

Section Flush.

Variable ext_available : string -> bool.
Variable device : Type.
Variable gl_apply : gl_call -> device -> device.
Variable gl_new_texture : device -> Z.
Variable gl_is_texture : device -> Z -> bool.

#[local] Existing Instance Texture.M_bind.

Lemma emits_ret {A} (Q : gl_call -> Prop) (R : A -> Prop) a :
  R a -> emits Q R (Texture.ret device a).
Proof.
  intros HR s. exists []. cbn. rewrite app_nil_r.
  split; [done|]. split; [constructor|]. by intros ? [= <-].
Qed.

Lemma emits_raise {A} (Q : gl_call -> Prop) (R : A -> Prop) e :
  emits Q R (Texture.raise device e).
Proof.
  intros s. exists []. cbn. rewrite app_nil_r.
  split; [done|]. split; [constructor | done].
Qed.

Lemma emits_lift {A} (Q : gl_call -> Prop) (R : A -> Prop) (r : result A) :
  (forall a, r = Ok a -> R a) -> emits Q R (Texture.lift device r).
Proof.
  intros HR s. exists []. cbn. rewrite app_nil_r.
  split; [done|]. split; [constructor | done].
Qed.

Lemma emits_bind {A B} (Q : gl_call -> Prop) (R : A -> Prop) (R' : B -> Prop)
    (m : Texture.M device A) (k : A -> Texture.M device B) :
  emits Q R m -> (forall a, R a -> emits Q R' (k a)) -> emits Q R' (m ≫= k).
Proof.
  intros Hm Hk s. destruct (Hm s) as (new1 & Ht1 & HQ1 & HR1).
  unfold mbind, Texture.M_bind.
  destruct (m s) as [[a|e] s1] eqn:Hms; cbn in *.
  - destruct (Hk a (HR1 a eq_refl) s1) as (new2 & Ht2 & HQ2 & HR2).
    exists (new1 ++ new2). rewrite Ht2, Ht1, app_assoc.
    split; [done|]. split; [by apply Forall_app | done].
  - exists new1. split; [done|]. split; done.
Qed.

Lemma emits_gl (Q : gl_call -> Prop) c :
  Q c -> emits Q (fun _ => True) (Texture.gl device gl_apply c).
Proof.
  intros HQ [d trace]. exists [c]. cbn.
  split; [done|]. split; [by repeat constructor | done].
Qed.

Lemma emits_gen (Q : gl_call -> Prop) :
  Q glGenTextures ->
  emits Q (fun _ => True) (Texture.gl_GenTextures device gl_apply gl_new_texture).
Proof.
  intros HQ [d trace]. exists [glGenTextures]. cbn.
  split; [done|]. split; [by repeat constructor | done].
Qed.

Lemma emits_is (Q : gl_call -> Prop) handle :
  emits Q (fun _ => True) (Texture.gl_IsTexture device gl_is_texture handle).
Proof.
  intros [d trace]. exists []. cbn. rewrite app_nil_r.
  split; [done|]. split; [constructor | done].
Qed.

Lemma emits_weaken {A} (Q Q' : gl_call -> Prop) (R R' : A -> Prop)
    (m : Texture.M device A) :
  emits Q R m -> (forall c, Q c -> Q' c) -> (forall a, R a -> R' a) ->
  emits Q' R' m.
Proof.
  intros Hm HQ HR s. destruct (Hm s) as (new & Ht & HQn & HRn).
  exists new. split; [done|]. split; [by eapply Forall_impl | auto].
Qed.

(** Calls that are no uploads satisfy every condition on uploads. *)
Definition on_uploads (P : gl_call -> Prop) (c : gl_call) : Prop :=
  is_upload c = true -> P c.

Lemma emits_call (P : gl_call -> Prop) c :
  on_uploads P c ->
  emits (on_uploads P) (fun _ => True) (Texture.gl device gl_apply c).
Proof. apply emits_gl. Qed.

Ltac emits_other :=
  apply emits_call; unfold on_uploads; cbn; intros ?; discriminate.

Lemma emits_apply_params P target d :
  emits (on_uploads P) (fun _ => True)
    (Texture.apply_params device gl_apply target d).
Proof.
  induction d as [|[param value] d IH]; cbn.
  - by apply emits_ret.
  - eapply emits_bind; [emits_other|]. intros _ _. exact IH.
Qed.

Lemma emits_upload_ndim P target :
  emits (on_uploads P) (fun _ => True) (Texture.upload_ndim device target).
Proof.
  unfold Texture.upload_ndim.
  destruct target; (by apply emits_ret) || apply emits_raise.
Qed.

Lemma emits_get_size_and_type P data ndim :
  emits (on_uploads P) (fun _ => True)
    (Texture._get_size_and_type device data ndim).
Proof.
  unfold Texture._get_size_and_type.
  destruct (Np.assoc _ _); [by apply emits_ret | apply emits_raise].
Qed.

Lemma emits_allocate_storage P self shape format level :
  (forall c, payload_of c = None -> P c) ->
  emits (on_uploads P) (fun _ => True)
    (Texture._allocate_storage device gl_apply self shape format level).
Proof.
  intros HP. unfold Texture._allocate_storage.
  eapply emits_bind; [apply emits_upload_ndim|]. intros ndim _.
  apply emits_call. intros _. by apply HP.
Qed.

Lemma emits_upload_data P self data format level :
  (forall c, payload_of c = Some data -> P c) ->
  emits (on_uploads P) (fun _ => True)
    (Texture._upload_data device gl_apply self data format level).
Proof.
  intros HP. unfold Texture._upload_data.
  eapply emits_bind; [apply emits_upload_ndim|]. intros ndim _.
  destruct (Np.assoc _ _); [|apply emits_raise].
  eapply emits_bind; [apply emits_get_size_and_type|].
  intros [size gltype] _.
  eapply emits_bind.
  { destruct (negb _); [emits_other | by apply emits_ret]. }
  intros _ _. eapply emits_bind.
  { apply emits_call. intros _. by apply HP. }
  intros _ _. destruct (negb _); [emits_other | by apply emits_ret].
Qed.

Lemma emits_upload_subdata P self data offset format level :
  (forall c, payload_of c = Some data -> P c) ->
  emits (on_uploads P) (fun _ => True)
    (Texture._upload_subdata device gl_apply self data offset format level).
Proof.
  intros HP. unfold Texture._upload_subdata.
  eapply emits_bind; [apply emits_upload_ndim|]. intros ndim _.
  eapply emits_bind; [apply emits_get_size_and_type|].
  intros [size gltype] _.
  eapply emits_bind; [by apply (emits_lift _ (fun _ => True))|]. intros _ _.
  apply emits_call. intros _. by apply HP.
Qed.

(** Processing an entry uploads nothing but what the entry holds, and it
    leaves the queue of sub-region writes alone. *)
Lemma emits_process self e :
  emits (on_uploads (carries ext_available e))
    (fun self' => Texture._pending_subdata self' = Texture._pending_subdata self)
    (Texture._process_pending_data ext_available device gl_apply
       gl_new_texture gl_is_texture self e).
Proof.
  unfold Texture._process_pending_data.
  eapply (emits_bind _
            (fun '(p, _, _) =>
               match p with
               | Texture.Data data' =>
                   exists data, Texture.e_data e = Texture.Data data
                     /\ convert_data ext_available data (Texture.e_clim e)
                        = Ok data'
               | Texture.Shape _ =>
                   exists shape, Texture.e_data e = Texture.Shape shape
               end)).
  { destruct (Texture.e_data e) as [data|shape] eqn:He.
    - eapply (emits_bind _ (fun data' =>
                convert_data ext_available data (Texture.e_clim e) = Ok data')).
      + by apply emits_lift.
      + intros data' Hc. apply emits_ret. by exists data.
    - apply emits_ret. by exists shape. }
  intros [[p shape] offset] Hp.
  eapply emits_bind.
  { instantiate (1 := fun _ => True).
    destruct (Texture.e_format e); [by apply emits_ret | by apply emits_lift]. }
  intros format _.
  destruct (Texture.truthy offset) as [offset'|].
  - eapply emits_bind; [emits_other|]. intros _ _.
    eapply emits_bind; [apply emits_is|]. intros ok _.
    destruct (_ || _); [apply emits_raise|].
    destruct p as [data'|shape']; [|apply emits_raise].
    destruct Hp as (data & He & Hc).
    eapply emits_bind.
    { apply emits_upload_subdata. intros c Hc'. unfold carries. rewrite He.
      by exists data'. }
    intros _ _. by apply emits_ret.
  - eapply (emits_bind _
              (fun self' => Texture._pending_subdata self'
                            = Texture._pending_subdata self)).
    { destruct (Texture._valid self); [|by apply emits_ret].
      eapply (emits_bind _
                (fun self' => Texture._pending_subdata self'
                              = Texture._pending_subdata self)).
      - unfold Texture.delete, Texture._delete.
        eapply emits_bind.
        + eapply emits_bind; [emits_other|]. intros _ _.
          apply (emits_ret _ (fun self' => self' = self)). done.
        + intros ? ->. by apply emits_ret.
      - intros self1 H1. unfold Texture._create.
        eapply emits_bind.
        + apply emits_gen. unfold on_uploads. cbn. intros ?. discriminate.
        + intros handle _. by apply emits_ret. }
    intros self1 H1.
    eapply (emits_bind _ (fun self' => self' = self1)).
    { unfold Texture._activate.
      eapply emits_bind; [emits_other|]. intros _ _. by apply emits_ret. }
    intros ? ->.
    eapply emits_bind.
    { instantiate (1 := fun _ => True).
      destruct p as [data'|shape'].
      - destruct Hp as (data & He & Hc).
        apply emits_upload_data. intros c Hc'. unfold carries. rewrite He.
        by exists data'.
      - destruct Hp as (shape0 & He).
        apply emits_allocate_storage. intros c Hc'. unfold carries.
        by rewrite He. }
    intros _ _.
    eapply emits_bind; [apply emits_apply_params|]. intros _ _.
    by apply emits_ret.
Qed.

Lemma emits_drain self q :
  emits (on_uploads (fun c => exists e, e ∈ q /\ carries ext_available e c))
    (fun _ => True)
    (Texture.drain_subdata ext_available device gl_apply gl_new_texture
       gl_is_texture self q).
Proof.
  revert self. induction q as [|e q IH]; intros self; cbn.
  - by apply emits_ret.
  - eapply emits_bind.
    + eapply emits_weaken; [apply emits_process | | intros a Ha; exact Ha].
      intros c Hc Hu. exists e. split; [by left | by apply Hc].
    + intros self' _.
      eapply emits_weaken; [apply IH | | done].
      intros c Hc Hu. destruct (Hc Hu) as (e' & He' & Hcar).
      exists e'. split; [by right | done].
Qed.

(** A flush uploads nothing but what the pending full write and the
    queued sub-region writes hold. *)
Lemma emits_update self :
  emits (on_uploads (fun c =>
           exists e, (Texture._pending_data self = Some e
                      \/ e ∈ Texture._pending_subdata self)
                     /\ carries ext_available e c))
    (fun _ => True)
    (Texture._update ext_available device gl_apply gl_new_texture
       gl_is_texture self).
Proof.
  unfold Texture._update.
  destruct (_ && _); [apply emits_raise|].
  eapply (emits_bind _
            (fun '(self', _) => Texture._pending_subdata self'
                                = Texture._pending_subdata self)).
  { destruct (Texture._pending_data self) as [e|] eqn:He;
      [|by apply emits_ret].
    eapply emits_bind.
    - eapply emits_weaken; [apply emits_process | | intros a Ha; exact Ha].
      intros c Hc Hu. exists e. split; [by left | by apply Hc].
    - intros self1 H1. cbn in H1.
      eapply emits_bind; [apply emits_is|]. intros ok _.
      destruct (negb ok); by apply emits_ret. }
  intros [self1 returned] H1.
  destruct returned; [by apply emits_ret|].
  eapply emits_bind.
  { eapply emits_weaken; [apply emits_drain | | intros a Ha; exact Ha].
    intros c Hc Hu. destruct (Hc Hu) as (e & He & Hcar).
    exists e. split; [right; by rewrite <- H1 | done]. }
  intros self2 _.
  eapply emits_bind; [apply emits_is|]. intros ok _.
  destruct (negb ok); [apply emits_raise|].
  eapply emits_bind.
  { unfold Texture._activate.
    eapply emits_bind; [emits_other|]. intros _ _.
    by apply (emits_ret _ (fun _ => True)). }
  intros self3 _. unfold Texture.drain_params.
  eapply emits_bind; [apply emits_apply_params|]. intros _ _.
  by apply emits_ret.
Qed.

(** C10.  A [set_data] that returns leaves the queue of sub-region writes
    empty and the new full write pending, and every upload of the next
    flush, on any device, carries the new data as [convert_data] returns
    it: nothing that was queued before is uploaded. *)
Theorem set_data_clears_subdata self data level format clim self' :
  Texture.set_data self data level format clim = Ok self' ->
  Texture._pending_subdata self' = []
  /\ Texture._pending_data self'
     = Some (Texture.mk_entry (Texture.Data data) None level format clim)
  /\ forall s, exists new,
       snd (snd (Texture._update ext_available device gl_apply gl_new_texture
                   gl_is_texture self' s))
       = snd s ++ new
       /\ forall c, c ∈ new -> is_upload c = true ->
           exists data', convert_data ext_available data clim = Ok data'
                         /\ payload_of c = Some data'.
Proof.
  unfold Texture.set_data.
  destruct (Texture.rank_ok _ _); cbn; [|done].
  destruct (Z.leb 0 level); cbn; [|done].
  destruct (Texture.format_ok format); cbn; [|done].
  intros [= <-]. split; [done|]. split; [done|].
  intros s.
  match goal with
  | |- context [Texture._update _ _ _ _ _ ?t s] =>
      destruct (emits_update t s) as (new & Ht & HQ & _)
  end.
  exists new. split; [exact Ht|].
  intros c Hin Hu. rewrite Forall_forall in HQ.
  destruct (HQ c Hin Hu) as (e & [He|He] & Hcar); cbn in He.
  - injection He as <-. exact Hcar.
  - by apply elem_of_nil in He.
Qed.

End Flush.

Lemma set_data_clears_subdata_witness :
  let t2 := Ex.T2 (Ex.image 1 [8; 8; 4]) [2; 2] (Ex.image 2 [4; 4; 4]) in
  let t3 := Ex.T1 (Ex.image 3 [8; 8; 4]) in
  length (Texture._pending_subdata t2) = 1%nat
  /\ Texture.set_data t2 (Ex.image 3 [8; 8; 4]) 0 None None = Ok t3
  /\ Texture._pending_subdata t3 = []
  /\ forall s, exists new,
       snd (snd (Texture._update Dev.all_extensions Dev.device Dev.gl_apply
                   Dev.gl_new_texture Dev.gl_is_texture t3 s))
       = snd s ++ new
       /\ forall c, c ∈ new -> is_upload c = true ->
           payload_of c = Some (Ex.image 3 [8; 8; 4]).
Proof.
  intros t2 t3. split; [reflexivity|]. split; [reflexivity|].
  destruct (set_data_clears_subdata Dev.all_extensions Dev.device Dev.gl_apply
              Dev.gl_new_texture Dev.gl_is_texture
              t2 (Ex.image 3 [8; 8; 4]) 0 None None t3 eq_refl)
    as (Hq & _ & Hflush).
  split; [exact Hq|].
  intros s. destruct (Hflush s) as (new & Ht & Hup).
  exists new. split; [exact Ht|].
  intros c Hin Hu. destruct (Hup c Hin Hu) as (data' & Hc & Hp).
  injection Hc as <-. exact Hp.
Defined.

(** *** Sub-region writes *)

(** Without a shape [set_subdata] raises. *)
Lemma set_subdata_needs_shape self offset data level format clim :
  Texture._texture_shape self = None ->
  Texture.set_subdata self offset data level format clim
  = Raise (RuntimeError "Cannot set subdata if there is not data or storage yet.").
Proof. intros H. unfold Texture.set_subdata. by rewrite H. Qed.

(** With a shape, [set_subdata] looks at the rank of the data and at the
    length of the offset, never at where the region lies. *)
Lemma set_subdata_ignores_bounds self shape offset data level format clim :
  Texture._texture_shape self = Some shape ->
  Texture.rank_ok (Np.arr_shape data) (Texture.ndim_of (Texture._target self))
  = true ->
  Z.of_nat (length offset) = Texture.ndim_of (Texture._target self) ->
  0 <= level ->
  Texture.format_ok format = true ->
  Texture.set_subdata self offset data level format clim
  = Ok (Texture.set__need_update
          (Texture.set__pending_subdata self
             (Texture._pending_subdata self
                ++ [Texture.mk_entry (Texture.Data data) (Some offset)
                      level format clim])) true).
Proof.
  intros Hs Hr Ho Hl Hf. unfold Texture.set_subdata.
  rewrite Hs, Hr, Hf. cbn.
  destruct (Z.eqb_spec (Z.of_nat (length offset))
              (Texture.ndim_of (Texture._target self))); [|done].
  cbn. destruct (Z.leb_spec 0 level); [done | lia].
Qed.

(** C4.  On a 2D texture with data of shape (64, 64, 4), a [set_subdata]
    of a (10, 10, 4) region at offset (60, 0), which reaches row 70, is
    accepted and enqueued, and the flush uploads it with [glTexSubImage];
    before there is a shape the same call raises. *)
Theorem texture_subdata_unchecked :
  let full := Ex.image 1 [64; 64; 4] in
  let part := Ex.image 2 [10; 10; 4] in
  Texture.Texture2D None None None = Ok Ex.T0
  /\ Texture.set_subdata Ex.T0 [60; 0] part 0 None None
     = Raise (RuntimeError
                "Cannot set subdata if there is not data or storage yet.")
  /\ Texture.set_data Ex.T0 full 0 None None = Ok (Ex.T1 full)
  /\ Texture._texture_shape (Ex.T1 full) = Some [64; 64; 4]
  /\ Texture.set_subdata (Ex.T1 full) [60; 0] part 0 None None
     = Ok (Ex.T2 full [60; 0] part)
  /\ Texture._pending_subdata (Ex.T2 full [60; 0] part)
     = [Texture.mk_entry (Texture.Data part) (Some [60; 0]) 0 None None]
  /\ uploads (snd (Dev.flush Dev.all_extensions (Ex.T2 full [60; 0] part)))
     = [glTexImage GL_TEXTURE_2D 0 GL_RGBA [64; 64] GL_UNSIGNED_BYTE (Some full);
        glTexSubImage GL_TEXTURE_2D 0 [0; 60] [10; 10] GL_RGBA
          GL_UNSIGNED_BYTE part].
Proof.
  intros full part.
  split; [reflexivity|]. split; [reflexivity|]. split; [reflexivity|].
  split; [reflexivity|]. split; [reflexivity|]. split; [reflexivity|].
  vm_compute. reflexivity.
Qed.

(** ** Further properties of buffer.py *)

(** *** The pending queue of a byte buffer *)

Lemma upload_app target q1 q2 :
  Buffer.upload target (q1 ++ q2)
  = Buffer.upload target q1 ++ Buffer.upload target q2.
Proof.
  induction q1 as [|[[d n] o] q1 IH]; [done|]. cbn. by rewrite IH.
Qed.

Lemma update_trace self :
  snd (Buffer._update self)
  = glBindBuffer (_target self) (_handle self)
    :: (if _need_resize self
        then [glBufferData (_target self) (_nbytes self) (_usage self)]
        else [])
    ++ Buffer.upload (_target self) (_pending_data self).
Proof. unfold Buffer._update. by destruct (_need_resize self). Qed.

Lemma upload_bounded target q (cap : Z) c :
  Forall (fun e : pending => snd e + snd (fst e) <= cap) q ->
  c ∈ Buffer.upload target q ->
  match c with
  | glBufferSubData _ offset nbytes _ => offset + nbytes <= cap
  | _ => True
  end.
Proof.
  induction q as [|[[d n] o] q IH]; cbn; intros HF Hin.
  - by apply elem_of_nil in Hin.
  - apply Forall_cons in HF as [H1 H2].
    apply elem_of_cons in Hin as [-> | Hin]; [exact H1 | by apply IH].
Qed.

(** Every write that the byte-level methods leave pending ends within the
    capacity: [set_nbytes] and [set_data] establish it, [set_subdata] keeps
    it, and so no [glBufferSubData] of a flush reaches beyond the bytes
    that the buffer has. *)
Theorem writes_within_capacity self :
  within_capacity self ->
  (forall nbytes, within_capacity (Buffer.set_nbytes self nbytes))
  /\ (forall data, within_capacity (Buffer.set_data self data))
  /\ (forall offset data self',
        Buffer.set_subdata self offset data = Ok self' ->
        within_capacity self')
  /\ (forall c, c ∈ snd (Buffer._update self) ->
        match c with
        | glBufferSubData _ offset nbytes _ => offset + nbytes <= _nbytes self
        | _ => True
        end).
Proof.
  intros Hw. split; [|split; [|split]].
  - intros n. unfold within_capacity. rewrite set_nbytes_clears. constructor.
  - intros data. unfold within_capacity.
    rewrite Buffer_set_data_pending. unfold Buffer.set_data. cbn.
    rewrite set_nbytes_nbytes. repeat constructor. cbn. lia.
  - intros offset data self' H.
    apply Buffer_set_subdata_ok in H as (-> & _ & Hfit).
    unfold within_capacity in *. cbn. apply Forall_app. split; [done|].
    repeat constructor. cbn. lia.
  - intros c. rewrite update_trace. intros Hin.
    apply elem_of_cons in Hin as [-> | Hin]; [done|].
    apply elem_of_app in Hin as [Hin | Hin].
    + destruct (_need_resize self); [|by apply elem_of_nil in Hin].
      apply list_elem_of_singleton in Hin as ->. done.
    + by apply (upload_bounded (_target self) (_pending_data self)).
Qed.

Lemma writes_within_capacity_witness :
  within_capacity Ex.I
  /\ forall c, c ∈ snd (Buffer._update Ex.I) ->
      match c with
      | glBufferSubData _ offset nbytes _ => offset + nbytes <= 100
      | _ => True
      end.
Proof.
  assert (within_capacity Ex.I) as Hw.
  { unfold within_capacity. cbn. repeat constructor. cbn. lia. }
  split; [exact Hw|]. apply (writes_within_capacity Ex.I Hw).
Defined.

(** A flush empties the queue and clears the resize request, so a second
    flush only binds the buffer: nothing is allocated or uploaded twice. *)
Theorem flush_drains self :
  let self' := fst (Buffer._update self) in
  _pending_data self' = []
  /\ _need_resize self' = false
  /\ _nbytes self' = _nbytes self
  /\ snd (Buffer._update self') = [glBindBuffer (_target self) (_handle self)].
Proof.
  unfold Buffer._update. destruct (_need_resize self) eqn:E; cbn.
  - done.
  - rewrite E. done.
Qed.

(** Writes are uploaded in the order in which they were enqueued: the
    flush after a [set_subdata] that returns is the flush before it followed
    by the upload of the new write. *)
Theorem subdata_uploaded_last self offset data self' :
  Buffer.set_subdata self offset data = Ok self' ->
  snd (Buffer._update self')
  = snd (Buffer._update self)
    ++ [glBufferSubData (_target self) offset (Np.nbytes data) data].
Proof.
  intros H. apply Buffer_set_subdata_ok in H as (-> & _).
  rewrite !update_trace. cbn. rewrite upload_app. cbn.
  by rewrite !app_assoc.
Qed.

Lemma subdata_uploaded_last_witness :
  let data := Ex.zeros 2 10 Ex.uint16 in
  exists self',
    Buffer.set_subdata Ex.I 20 data = Ok self'
    /\ snd (Buffer._update self')
       = snd (Buffer._update Ex.I)
         ++ [glBufferSubData GL_ELEMENT_ARRAY_BUFFER 20 20 data].
Proof.
  intros data. eexists. split; [reflexivity|].
  apply (subdata_uploaded_last Ex.I 20 data). reflexivity.
Defined.

(** *** What the methods of a typed buffer return *)

Lemma set_nbytes_contract self n : same_contract self (Buffer.set_nbytes self n).
Proof. unfold Buffer.set_nbytes, same_contract. by destruct (negb _). Qed.

Lemma same_contract_trans a b c :
  same_contract a b -> same_contract b c -> same_contract a c.
Proof.
  unfold same_contract. intros (?&?&?&?&?&?&?) (?&?&?&?&?&?&?).
  repeat split; congruence.
Qed.

Lemma set_count_contract self n : same_contract self (DataBuffer.set_count self n).
Proof.
  unfold DataBuffer.set_count.
  eapply same_contract_trans; [|apply set_nbytes_contract]. by repeat split.
Qed.

Lemma Buffer_set_data_contract self data :
  same_contract self (Buffer.set_data self data).
Proof.
  unfold Buffer.set_data.
  eapply same_contract_trans; [apply (set_nbytes_contract _ (Np.nbytes data))|].
  by repeat split.
Qed.

(** A [set_data] that returns, on a buffer that is not a view. *)
Lemma set_data_ok h self data self' :
  __class__ self <> VertexBufferView ->
  DataBuffer.set_data h self data = Ok self' ->
  let data' := VertexBuffer.unwrap_array data in
  exists dtype count,
    DataBuffer._parse_array (__class__ self) data'
    = Ok (dtype, _vsize self, _stride self, count)
    /\ Np.eqb dtype (_dtype self) = true
    /\ self' = Buffer.set_data (DataBuffer.set_count self count) data'.
Proof.
  intros Hk. unfold DataBuffer.set_data.
  destruct (DataBuffer._parse_array _ _) as [[[[dt vs] st] ct]|e]; [|done].
  cbn.
  destruct (DataBuffer.check_match h self dt vs st) as [self1|e] eqn:Hm; [|done].
  apply check_match_plain in Hm as (-> & He & -> & ->); [|done]. cbn.
  destruct (DataBuffer.call_set_count self [ct]) as [self2|e] eqn:Hc; [|done].
  apply call_set_count_ok in Hc as (c & [= <-] & -> & _).
  cbn. intros [= <-]. by exists dt, ct.
Qed.

(** A [set_subdata] that returns, on a buffer that is not a view. *)
Lemma set_subdata_ok h self offset data self' :
  __class__ self <> VertexBufferView ->
  DataBuffer.set_subdata h self offset data = Ok self' ->
  let data' := VertexBuffer.unwrap_array data in
  exists dtype count,
    DataBuffer._parse_array (__class__ self) data'
    = Ok (dtype, _vsize self, _stride self, count)
    /\ Np.eqb dtype (_dtype self) = true
    /\ 0 <= offset /\ offset + count <= _count self
    /\ offset * _stride self + Np.nbytes data' <= _nbytes self
    /\ self' = set__need_update
                 (set__pending_data self
                    (_pending_data self
                       ++ [(data', Np.nbytes data', offset * _stride self)]))
                 true.
Proof.
  intros Hk. unfold DataBuffer.set_subdata.
  destruct (DataBuffer._parse_array _ _) as [[[[dt vs] st] ct]|e]; [|done].
  cbn.
  destruct (DataBuffer.check_match h self dt vs st) as [self1|e] eqn:Hm; [|done].
  apply check_match_plain in Hm as (-> & He & -> & ->); [|done]. cbn.
  destruct (Z.ltb_spec offset 0) as [Ho|Ho]; [done|].
  rewrite count_plain by done. cbn.
  destruct (Z.ltb_spec (_count self) (offset + ct)) as [Hc|Hc]; [done|].
  intros Hs. apply Buffer_set_subdata_ok in Hs as (-> & _ & Hfit).
  exists dt, ct. repeat split; try done; lia.
Qed.

(** An indexed assignment that returns has done nothing (the client
    classes) or is a [set_subdata] that returns. *)
Lemma setitem_ok h self key data self' :
  setitem h self key data = Ok self' ->
  self' = self
  \/ exists start data', DataBuffer.set_subdata h self start data' = Ok self'.
Proof.
  unfold setitem.
  assert (DataBuffer.__setitem__ h self key data = Ok self' ->
          exists start data', DataBuffer.set_subdata h self start data' = Ok self')
    as Hset.
  { unfold DataBuffer.__setitem__.
    destruct (match key with KeyStr _ => _ | _ => _ end) as [[start nbytes]|e];
      [|done].
    cbn. destruct (Z.ltb _ _); [done|]. destruct (Z.ltb _ _); [done|].
    intros Hs. by eexists _, _. }
  destruct (__class__ self); try (intros Hs; right; by apply Hset);
    intros [= <-]; by left.
Qed.

Lemma set_data_contract h self data self' :
  __class__ self <> VertexBufferView ->
  DataBuffer.set_data h self data = Ok self' -> same_contract self self'.
Proof.
  intros Hk H. apply set_data_ok in H as (dt & ct & _ & _ & ->); [|done].
  eapply same_contract_trans; [apply (set_count_contract self ct)|].
  apply Buffer_set_data_contract.
Qed.

(** No method changes what the constructor fixed: after [set_count], and
    after a [set_data], a [set_subdata] or an indexed assignment that
    returns, the class, target, dtype, vector size, stride, offset and base
    of the buffer are what they were. *)
Theorem contract_is_fixed h self :
  __class__ self <> VertexBufferView ->
  (forall count, same_contract self (DataBuffer.set_count self count))
  /\ (forall data self',
        DataBuffer.set_data h self data = Ok self' -> same_contract self self')
  /\ (forall offset data self',
        DataBuffer.set_subdata h self offset data = Ok self' ->
        same_contract self self')
  /\ (forall key data self',
        setitem h self key data = Ok self' -> same_contract self self').
Proof.
  intros Hk.
  assert (forall offset data self',
            DataBuffer.set_subdata h self offset data = Ok self' ->
            same_contract self self') as Hsub.
  { intros offset data self' H.
    apply set_subdata_ok in H as (dt & ct & _ & _ & _ & _ & _ & ->); [|done].
    by repeat split. }
  split; [apply set_count_contract|]. split; [|split; [exact Hsub|]].
  - intros data self' H. by apply (set_data_contract h self data).
  - intros key data self' H.
    apply setitem_ok in H as [-> | (start & data' & H)]; [by repeat split|].
    by apply (Hsub start data').
Qed.

Lemma contract_is_fixed_witness :
  let data := Ex.zeros 2 60 Ex.uint16 in
  exists self',
    DataBuffer.set_data ∅ Ex.I data = Ok self'
    /\ same_contract Ex.I self' /\ _count self' = 60.
Proof.
  intros data. eexists. split; [reflexivity|]. split; [|reflexivity].
  apply (proj1 (proj2 (contract_is_fixed ∅ Ex.I ltac:(discriminate))) data).
  reflexivity.
Defined.

(** The writes that the methods of a typed buffer leave pending lie within
    the buffer, from byte 0 to the capacity, when its stride is not
    negative: [set_count] and [set_data] establish it, [set_subdata] and
    indexed assignment keep it. *)
Theorem typed_writes_within_buffer h self :
  __class__ self <> VertexBufferView ->
  0 <= _stride self ->
  within_buffer self ->
  (forall count, within_buffer (DataBuffer.set_count self count))
  /\ (forall data self',
        DataBuffer.set_data h self data = Ok self' -> within_buffer self')
  /\ (forall offset data self',
        DataBuffer.set_subdata h self offset data = Ok self' ->
        within_buffer self')
  /\ (forall key data self',
        setitem h self key data = Ok self' -> within_buffer self').
Proof.
  intros Hk Hs Hw.
  assert (forall offset data self',
            DataBuffer.set_subdata h self offset data = Ok self' ->
            within_buffer self') as Hsub.
  { intros offset data self' H.
    apply set_subdata_ok in H as (dt & ct & _ & _ & Ho & _ & Hfit & ->);
      [|done].
    unfold within_buffer in *. cbn. apply Forall_app. split; [done|].
    repeat constructor; cbn; nia. }
  split; [|split; [|split; [exact Hsub|]]].
  - intros count. unfold within_buffer. rewrite set_count_clears. constructor.
  - intros data self' H.
    apply set_data_ok in H as (dt & ct & _ & _ & ->); [|done].
    unfold within_buffer. rewrite Buffer_set_data_pending.
    unfold Buffer.set_data. cbn. rewrite set_nbytes_nbytes.
    repeat constructor; cbn; lia.
  - intros key data self' H.
    apply setitem_ok in H as [-> | (start & data' & H)]; [done|].
    by apply (Hsub start data').
Qed.

Lemma typed_writes_within_buffer_witness :
  let data := Ex.zeros 2 10 Ex.uint16 in
  within_buffer Ex.I
  /\ exists self',
       DataBuffer.set_subdata ∅ Ex.I 10 data = Ok self'
       /\ within_buffer self'.
Proof.
  intros data.
  assert (within_buffer Ex.I) as Hw.
  { unfold within_buffer. cbn. repeat constructor; cbn; lia. }
  split; [exact Hw|]. eexists. split; [reflexivity|].
  apply (proj1 (proj2 (proj2
           (typed_writes_within_buffer ∅ Ex.I ltac:(discriminate)
              ltac:(cbn; lia) Hw))) 10 data).
  reflexivity.
Defined.

(** *** Constructed buffers *)

Lemma check_match_class h self dtype vsize stride self' :
  DataBuffer.check_match h self dtype vsize stride = Ok self' ->
  __class__ self' = __class__ self.
Proof.
  unfold DataBuffer.check_match.
  destruct (negb _); [done|]. destruct (negb _); [done|].
  unfold DataBuffer.stride. destruct (DataBuffer.get_stride _ _ _); [|done].
  cbn. destruct (__class__ self) eqn:E; cbn; destruct (negb _); try done;
    by intros [= <-].
Qed.

(** [set_data] never returns on a view. *)
Lemma set_data_not_view h self data self' :
  DataBuffer.set_data h self data = Ok self' ->
  __class__ self <> VertexBufferView.
Proof.
  unfold DataBuffer.set_data.
  destruct (DataBuffer._parse_array _ _) as [[[[dt vs] st] ct]|e]; [|done].
  cbn.
  destruct (DataBuffer.check_match h self dt vs st) as [self1|e] eqn:Hm; [|done].
  apply check_match_class in Hm. cbn.
  destruct (DataBuffer.call_set_count self1 [ct]) as [self2|e] eqn:Hc; [|done].
  apply call_set_count_ok in Hc as (_ & _ & _ & Hv). congruence.
Qed.

(** A constructor call with an array that returns. *)
Lemma init_array_ok k data target self :
  DataBuffer.__init__ k (InitArray data) target = Ok self ->
  k <> VertexBufferView
  /\ exists dtype vsize stride count,
       DataBuffer._parse_array k data = Ok (dtype, vsize, stride, count)
       /\ DataBuffer.set_data ∅
            (DataBuffer.fresh k target dtype vsize stride count) data
          = Ok self
       /\ DataBuffer.check_dtype k dtype = Ok tt.
Proof.
  unfold DataBuffer.__init__. destruct (negb _); [done|].
  destruct (DataBuffer._parse_array k data) as [[[[dt vs] st] ct]|e] eqn:Hp;
    [|done].
  rewrite bind_ok.
  destruct (DataBuffer.set_data _ _ data) as [self1|e] eqn:Hd; [|done].
  rewrite bind_ok.
  pose proof (set_data_not_view _ _ _ _ Hd) as Hk. cbn in Hk.
  destruct (set_data_contract ∅ (DataBuffer.fresh k target dt vs st ct)
              data self1 Hk Hd) as (_ & _ & Hdt & _).
  cbn in Hdt.
  destruct (DataBuffer.check_dtype k (_dtype self1)) as [[]|e] eqn:Hc; [|done].
  cbn. intros [= <-]. split; [done|]. exists dt, vs, st, ct.
  rewrite <- Hdt in Hc. done.
Qed.

Lemma unwrap_no_fields data :
  Np.has_fields (Np.arr_dtype data) = false ->
  VertexBuffer.unwrap_array data = data.
Proof.
  unfold VertexBuffer.unwrap_array.
  destruct (Np.arr_dtype data) as [n s | b sh | [|f fs] sz]; try done.
Qed.

(** What the object holds after [Buffer.set_data (set_count self count)]. *)
Lemma set_count_set_data_attrs self count data :
  let self' := Buffer.set_data (DataBuffer.set_count self count) data in
  _count self' = count /\ _nbytes self' = Np.nbytes data
  /\ _pending_data self' = [(data, Np.nbytes data, 0)]
  /\ same_contract self self'.
Proof.
  cbn. split; [|split; [|split]].
  - unfold Buffer.set_data. cbn.
    destruct (set_nbytes_attrs (DataBuffer.set_count self count) (Np.nbytes data))
      as (_ & -> & _). apply set_count_invariant.
  - unfold Buffer.set_data. cbn. apply set_nbytes_nbytes.
  - apply Buffer_set_data_pending.
  - eapply same_contract_trans; [apply (set_count_contract self count)|].
    apply Buffer_set_data_contract.
Qed.

(** An index buffer made from an array has vector size 1, the item size as
    stride, the number of items as count, and count * stride bytes, all of
    them pending as one write; its type is uint8, uint16 or uint32.  A
    structured array is refused with a ValueError. *)
Theorem index_buffer_layout :
  (forall data name sz self,
      Np.arr_dtype data = Np.Scalar name sz ->
      new ElementBuffer (InitArray data) = Ok self ->
      _dtype self = Np.Scalar name sz /\ _vsize self = 1 /\ _stride self = sz
      /\ _count self = Np.size data
      /\ _nbytes self = _count self * _stride self
      /\ _pending_data self = [(data, Np.nbytes data, 0)]
      /\ name ∈ ["uint8"; "uint16"; "uint32"])
  /\ (forall data,
        Np.has_fields (Np.arr_dtype data) = true ->
        new ElementBuffer (InitArray data)
        = Raise (ValueError "ElementBuffer does not support structured arrays.")).
Proof.
  split.
  - intros data name sz self Hdt H. unfold new in H.
    apply init_array_ok in H as (Hk & dt & vs & st & ct & Hp & Hd & Hc).
    assert (VertexBuffer.unwrap_array data = data) as Hu
      by (apply unwrap_no_fields; by rewrite Hdt).
    unfold DataBuffer._parse_array, ElementBuffer._parse_array,
      ElementBuffer._parse_dtype in Hp.
    cbn in Hp. rewrite Hdt in Hp. cbn in Hp. injection Hp as <- <- <- <-.
    apply set_data_ok in Hd as (dt' & ct' & Hp' & _ & ->); [|done].
    rewrite Hu in *.
    unfold DataBuffer._parse_array, ElementBuffer._parse_array,
      ElementBuffer._parse_dtype in Hp'.
    cbn in Hp'. rewrite Hdt in Hp'. cbn in Hp'. injection Hp' as <- <-.
    destruct (set_count_set_data_attrs
                (DataBuffer.fresh ElementBuffer GL_ELEMENT_ARRAY_BUFFER
                   (Np.Scalar name sz) 1 sz (Np.size data)) (Np.size data) data)
      as (Hcnt & Hnb & Hpd & (_ & _ & Hdty & Hvs & Hst & _)).
    rewrite Hcnt, Hnb, Hpd, <- Hdty, <- Hvs, <- Hst.
    repeat split; try done.
    + unfold Np.nbytes. by rewrite Hdt.
    + apply allowed_element. revert Hc. unfold DataBuffer.check_dtype. cbn.
      by destruct (DataBuffer.allowed ElementBuffer name).
  - intros data Hf. unfold new, DataBuffer.__init__. cbn.
    unfold DataBuffer._parse_array. cbn. unfold ElementBuffer._parse_array.
    by rewrite Hf.
Qed.

Lemma index_buffer_layout_witness :
  new ElementBuffer (InitArray (Ex.zeros 1 50 Ex.uint16)) = Ok Ex.I
  /\ _stride Ex.I = 2 /\ _count Ex.I = 50 /\ _nbytes Ex.I = 50 * 2
  /\ new ElementBuffer (InitArray Ex.P)
     = Raise (ValueError "ElementBuffer does not support structured arrays.").
Proof.
  assert (new ElementBuffer (InitArray (Ex.zeros 1 50 Ex.uint16)) = Ok Ex.I)
    as Hnew by reflexivity.
  destruct (proj1 index_buffer_layout (Ex.zeros 1 50 Ex.uint16) "uint16" 2
              Ex.I eq_refl Hnew) as (_ & _ & Hs & Hc & Hn & _).
  split; [exact Hnew|]. split; [exact Hs|]. split; [exact Hc|].
  split; [exact Hn|].
  apply (proj2 index_buffer_layout Ex.P). reflexivity.
Defined.

Lemma vertex_parse_scalar_exact data name sz :
  Np.arr_dtype data = Np.Scalar name sz ->
  Np.wf data ->
  VertexBuffer._parse_array data
  = Ok (Np.Scalar name sz,
        (if Z.leb (Np.ndim data) 1 then 1 else List.last (Np.arr_shape data) 0),
        sz * (if Z.leb (Np.ndim data) 1 then 1
              else List.last (Np.arr_shape data) 0),
        (if Z.leb (Np.ndim data) 1 then Np.size data
         else Np.prod (removelast (Np.arr_shape data)))).
Proof.
  intros Hdt Hwf. pose proof (wf_base_is_not_self data Hwf) as Hb.
  destruct data as [id dt sh b v]. cbn in Hdt. subst dt.
  unfold VertexBuffer._parse_array, VertexBuffer.unwrap_array.
  cbn [VertexBuffer.unwrap_fields Np.arr_dtype]. rewrite Hb. cbn.
  by destruct (Z.leb _ 1).
Qed.

(** A vertex buffer made from an array of a scalar type takes the last
    axis as vector size and the product of the others as count (vector
    size 1 and every item for an array of at most one axis); its stride is
    vector size * item size and its capacity count * stride, the bytes of
    the array. *)
Theorem vertex_buffer_layout data name sz self :
  Np.arr_dtype data = Np.Scalar name sz ->
  Np.wf data ->
  new VertexBuffer (InitArray data) = Ok self ->
  let plain := Z.leb (Np.ndim data) 1 in
  _dtype self = Np.Scalar name sz
  /\ _vsize self = (if plain then 1 else List.last (Np.arr_shape data) 0)
  /\ _count self = (if plain then Np.size data
                    else Np.prod (removelast (Np.arr_shape data)))
  /\ _stride self = sz * _vsize self
  /\ _nbytes self = _count self * _stride self
  /\ _nbytes self = Np.nbytes data
  /\ _pending_data self = [(data, Np.nbytes data, 0)].
Proof.
  intros Hdt Hwf H plain. unfold new in H.
  apply init_array_ok in H as (Hk & dt & vs & st & ct & Hp & Hd & Hc).
  destruct (vertex_parse_scalar data name sz Hdt Hwf)
    as (Hu & vs0 & ct0 & _ & Hsize).
  pose proof (vertex_parse_scalar_exact data name sz Hdt Hwf) as Hex.
  fold plain in Hex.
  unfold DataBuffer._parse_array in Hp. cbn in Hp. rewrite Hex in Hp.
  injection Hp as <- <- <- <-.
  apply set_data_ok in Hd as (dt' & ct' & Hp' & _ & ->); [|done].
  rewrite Hu in *.
  unfold DataBuffer._parse_array in Hp'. cbn in Hp'. rewrite Hex in Hp'.
  injection Hp' as <- <-.
  match goal with
  | |- context [Buffer.set_data (DataBuffer.set_count ?f ?c) data] =>
      destruct (set_count_set_data_attrs f c data)
        as (Hcnt & Hnb & Hpd & (_ & _ & Hdty & Hvs & Hst & _))
  end.
  rewrite Hcnt, Hnb, Hpd, <- Hdty, <- Hvs, <- Hst.
  repeat split; try done.
  unfold Np.nbytes, Np.size, Np.ndim in *. rewrite Hdt. cbn.
  subst plain. destruct (Z.leb_spec (Z.of_nat (length (Np.arr_shape data))) 1)
    as [Hn|Hn]; [lia|].
  rewrite <- (prod_removelast_last (Np.arr_shape data))
    by (destruct (Np.arr_shape data); [cbn in Hn; lia | done]).
  lia.
Qed.

Lemma vertex_buffer_layout_witness :
  let data := Np.mk_ndarray 1 Np.float32 [100; 3] None (repeat 0%Q 300) in
  exists self,
    new VertexBuffer (InitArray data) = Ok self
    /\ _vsize self = 3 /\ _count self = 100 /\ _stride self = 12
    /\ _nbytes self = 1200.
Proof.
  intros data.
  assert (exists self, new VertexBuffer (InitArray data) = Ok self)
    as [self Hnew] by (vm_compute; eexists; reflexivity).
  exists self. split; [exact Hnew|].
  destruct (vertex_buffer_layout data "float32" 4 self eq_refl
              ltac:(discriminate) Hnew)
    as (_ & Hv & Hc & Hs & _ & Hn & _).
  rewrite Hs, Hn, Hc, Hv. repeat split; reflexivity.
Defined.

(** A buffer accepts the array it was made from: [set_data] with that
    array returns, and leaves the count, the capacity and the pending write
    of the constructor. *)
Theorem set_data_own_array k data target self h :
  DataBuffer.__init__ k (InitArray data) target = Ok self ->
  exists self',
    DataBuffer.set_data h self data = Ok self'
    /\ _count self' = _count self /\ _nbytes self' = _nbytes self
    /\ _pending_data self' = _pending_data self
    /\ same_contract self self'.
Proof.
  intros H.
  apply init_array_ok in H as (Hk & dt & vs & st & ct & _ & Hd & _).
  apply set_data_ok in Hd as (dt' & ct' & Hp' & He & ->); [|done].
  cbn in Hp', He.
  set (data' := VertexBuffer.unwrap_array data) in *.
  set (self0 := DataBuffer.fresh k target dt vs st ct) in *.
  destruct (set_count_set_data_attrs self0 ct' data')
    as (Hcnt & Hnb & Hpd & Hsame).
  set (self := Buffer.set_data (DataBuffer.set_count self0 ct') data') in *.
  destruct Hsame as (Hcl & Htg & Hdty & Hvs & Hst & Hof & Hba).
  assert (__class__ self <> VertexBufferView) as Hk' by (by rewrite <- Hcl).
  exists (Buffer.set_data (DataBuffer.set_count self ct') data').
  destruct (set_count_set_data_attrs self ct' data')
    as (Hcnt' & Hnb' & Hpd' & Hsame').
  split; [|by rewrite Hcnt', Hnb', Hpd', Hcnt, Hnb, Hpd].
  unfold DataBuffer.set_data. fold data'.
  rewrite <- Hcl. change (__class__ self0) with k. rewrite Hp', bind_ok.
  pose proof (check_match_plain_ok h self dt' Hk') as Hm.
  rewrite <- Hdty, <- Hvs, <- Hst in Hm. cbn in Hm.
  rewrite (Hm He), bind_ok.
  unfold DataBuffer.call_set_count. rewrite <- Hcl.
  change (__class__ self0) with k. by destruct k.
Qed.

Lemma set_data_own_array_witness :
  exists self',
    DataBuffer.set_data ∅ Ex.I (Ex.zeros 1 50 Ex.uint16) = Ok self'
    /\ _count self' = 50 /\ _nbytes self' = 100.
Proof.
  destruct (set_data_own_array ElementBuffer (Ex.zeros 1 50 Ex.uint16)
              GL_ELEMENT_ARRAY_BUFFER Ex.I ∅ eq_refl)
    as (self' & Hd & Hc & Hn & _).
  exists self'. split; [exact Hd|]. split; [exact Hc | exact Hn].
Defined.

(** *** Field views *)

Lemma init_ok k data target self :
  DataBuffer.__init__ k data target = Ok self ->
  __class__ self = k /\ DataBuffer.check_dtype k (_dtype self) = Ok tt.
Proof.
  destruct data as [data|dtype|].
  - intros H. apply init_array_ok in H as (Hk & dt & vs & st & ct & _ & Hd & Hc).
    destruct (set_data_contract ∅ (DataBuffer.fresh k target dt vs st ct)
                data self Hk Hd) as (Hcl & _ & Hdt & _).
    split; [by rewrite <- Hcl|]. by rewrite <- Hdt.
  - intros H. by apply init_dtype_ok in H as (? & _ & _ & ?).
  - unfold DataBuffer.__init__. by destruct (negb _).
Qed.

Lemma check_fields_assoc k fs key fd off :
  DataBuffer.check_fields k fs = Ok tt ->
  Np.assoc key fs = Some (fd, off) ->
  DataBuffer.allowed k (Np.name (Np.base fd)) = true.
Proof.
  induction fs as [|[n [f o]] fs IH]; [done|]. cbn.
  destruct (DataBuffer.allowed k (Np.name (Np.base f))) eqn:Ha; [|done]. cbn.
  destruct (String.eqb key n); [by intros _ [= <- _] | exact IH].
Qed.

(** Only scalar types have a name in an allow-list. *)
Lemma allowed_scalar k dtype :
  DataBuffer.allowed k (Np.name dtype) = true ->
  exists name sz, dtype = Np.Scalar name sz.
Proof.
  destruct dtype as [n sz | b sh | fs sz]; [by eexists _, _ | |];
    unfold DataBuffer.allowed, DataBuffer.DTYPE2GTYPE;
    destruct (is_element k); cbn; intros H;
    apply bool_decide_eq_true in H as [? H]; discriminate.
Qed.

(** Indexing a constructed vertex buffer by the name of one of its fields
    returns a view at the byte offset of the field, of the field's base
    type, with as many components as the field's shape holds and with the
    stride of the buffer; any other name raises a KeyError, and a key that
    is no string a ValueError. *)
Theorem field_view_layout h l data target parent key :
  DataBuffer.__init__ VertexBuffer data target = Ok parent ->
  h !! l = Some parent ->
  match Np.assoc key (Np.fields (_dtype parent)) with
  | Some (fd, off) =>
      exists view,
        getitem h l (KeyStr key) = Ok (Some view)
        /\ is_view_of l view
        /\ _offset view = off
        /\ _dtype view = Np.base fd
        /\ _vsize view = match Np.shape fd with
                         | [] => 1
                         | _ :: _ => Np.prod (Np.shape fd)
                         end
        /\ _stride view = _stride parent
        /\ _count view = 0
  | None => getitem h l (KeyStr key) = Raise (KeyError key)
  end
  /\ (forall start stop step,
        getitem h l (KeySlice start stop step)
        = Raise (ValueError "Can only get access to a named field"))
  /\ (forall i, getitem h l (KeyInt i)
                = Raise (ValueError "Can only get access to a named field"))
  /\ getitem h l KeyEllipsis
     = Raise (ValueError "Can only get access to a named field").
Proof.
  intros Hinit Hl. apply init_ok in Hinit as (Hk & Hc).
  split; [|unfold getitem; rewrite Hl, Hk; done].
  destruct (Np.assoc key (Np.fields (_dtype parent))) as [[fd off]|] eqn:Ha.
  - assert (DataBuffer.allowed VertexBuffer (Np.name (Np.base fd)) = true)
      as Hall.
    { revert Hc. unfold DataBuffer.check_dtype.
      destruct (Np.has_fields (_dtype parent)) eqn:Hf.
      - intros Hc. by apply (check_fields_assoc _ _ key fd off Hc).
      - unfold Np.has_fields in Hf.
        destruct (Np.fields (_dtype parent)); [done | discriminate]. }
    destruct (allowed_scalar _ _ Hall) as (n & sz & Hb).
    unfold getitem, Np.getitem, Np.field_offset. rewrite Hl, Hk, Ha.
    rewrite !bind_ok. unfold VertexBufferView.__init__.
    assert (exists sh,
               DataBuffer.__init__ VertexBufferView (InitDtype fd) GL_ARRAY_BUFFER
               = Ok (DataBuffer.fresh VertexBufferView GL_ARRAY_BUFFER
                       (Np.base fd)
                       match Np.shape fd with
                       | [] => 1
                       | _ :: _ => Np.prod (Np.shape fd)
                       end
                       (Np.itemsize fd) 0)
               /\ sh = Np.shape fd) as (sh & -> & _).
    { exists (Np.shape fd). split; [|done].
      rewrite Hb in Hall.
      assert (DataBuffer.allowed VertexBufferView n = true) as Hall'
        by exact Hall.
      unfold DataBuffer.__init__, DataBuffer._parse_dtype,
        VertexBuffer._parse_dtype, DataBuffer.check_dtype.
      destruct fd as [n' sz' | b sh | fs sz']; cbn in Hb; try discriminate.
      - injection Hb as -> ->. cbn. by rewrite Hall'.
      - subst b. cbn. rewrite Hall'. by destruct sh. }
    rewrite bind_ok, Hl, stride_plain by (by rewrite Hk). rewrite !bind_ok.
    eexists. split; [reflexivity|]. unfold is_view_of. cbn. done.
  - unfold getitem, Np.getitem. rewrite Hl, Hk, Ha. done.
Qed.

Lemma field_view_layout_witness :
  exists view,
    getitem {[0%nat := Ex.V]} 0%nat (KeyStr "position") = Ok (Some view)
    /\ _offset view = 0 /\ _vsize view = 3 /\ _stride view = 196
    /\ getitem {[0%nat := Ex.V]} 0%nat (KeyStr "normal")
       = Raise (KeyError "normal").
Proof.
  pose proof (field_view_layout {[0%nat := Ex.V]} 0%nat (InitArray Ex.P)
                GL_ARRAY_BUFFER Ex.V) as H.
  destruct (H "position" eq_refl eq_refl) as [(view & Hg & _ & Ho & _ & Hv & Hs & _) _].
  destruct (H "normal" eq_refl eq_refl) as [Hn _].
  exists view. repeat split; assumption.
Defined.

(** *** Indexed assignment *)

(** [buffer[key] = data] on a buffer whose class does not override it:
    a key that is neither a slice nor the ellipsis, and a slice with a step
    above 1, raise a ValueError, a negative step fails the assertion; the
    ellipsis writes the data at element 0 whatever its size; a slice with
    unit step whose bounds are not negative wants exactly (stop - start) *
    stride bytes and writes them at element [start], where a missing start
    is 0 and a missing stop is the stride of the buffer.  Data of another
    dtype is cast first. *)
Theorem indexed_assignment h self data :
  __class__ self <> ClientVertexBuffer ->
  __class__ self <> ClientElementBuffer ->
  let cast :=
    if negb (Np.eqb (Np.arr_dtype data) (_dtype self))
    then Np.astype data (_dtype self) else data in
  let contiguous := ValueError "Can only set contiguous block of data." in
  (forall name, setitem h self (KeyStr name) data = Raise contiguous)
  /\ (forall i, setitem h self (KeyInt i) data = Raise contiguous)
  /\ (forall start stop step,
        1 < step ->
        setitem h self (KeySlice start stop (Some step)) data = Raise contiguous)
  /\ (forall start stop step,
        step < 0 ->
        setitem h self (KeySlice start stop (Some step)) data
        = Raise AssertionError)
  /\ setitem h self KeyEllipsis data = DataBuffer.set_subdata h self 0 cast
  /\ (forall start stop step,
        step = None \/ step = Some 0 \/ step = Some 1 ->
        let first := or_default start 0 in
        let last := or_default stop (_stride self) in
        0 <= first -> 0 <= last ->
        setitem h self (KeySlice start stop step) data
        = if Z.ltb (Np.nbytes data) ((last - first) * _stride self)
          then Raise (ValueError "Not enough data.")
          else if Z.ltb ((last - first) * _stride self) (Np.nbytes data)
          then Raise (ValueError "Too much data.")
          else DataBuffer.set_subdata h self first cast).
Proof.
  intros Hc1 Hc2 cast contiguous.
  assert (forall key, setitem h self key data
                      = DataBuffer.__setitem__ h self key data) as Hset.
  { intros key. unfold setitem. by destruct (__class__ self). }
  split; [intros; by rewrite Hset|]. split; [intros; by rewrite Hset|].
  split; [|split; [|split]].
  - intros start stop step Hs. rewrite Hset. unfold DataBuffer.__setitem__.
    assert (or_default (Some step) 1 = step) as ->.
    { unfold or_default. destruct (Z.eqb_spec step 0); [lia | done]. }
    rewrite (proj2 (Z.ltb_lt 0 step)) by lia.
    rewrite (proj2 (Z.ltb_lt 1 step)) by lia. done.
  - intros start stop step Hs. rewrite Hset. unfold DataBuffer.__setitem__.
    assert (or_default (Some step) 1 = step) as ->.
    { unfold or_default. destruct (Z.eqb_spec step 0); [lia | done]. }
    rewrite (proj2 (Z.ltb_ge 0 step)) by lia. done.
  - rewrite Hset. unfold DataBuffer.__setitem__. rewrite bind_ok.
    by rewrite Z.ltb_irrefl.
  - intros start stop step Hstep first last Hf Hl. rewrite Hset.
    unfold DataBuffer.__setitem__. fold first. fold last.
    assert (or_default step 1 = 1) as ->.
    { destruct Hstep as [-> | [-> | ->]]; reflexivity. }
    destruct (Z.ltb_spec first 0); [lia|].
    destruct (Z.ltb_spec last 0); [lia|].
    cbn. reflexivity.
Qed.

Lemma indexed_assignment_witness :
  let data := Ex.zeros 2 10 Ex.uint16 in
  setitem ∅ Ex.I (KeySlice (Some 10) (Some 20) None) data
  = DataBuffer.set_subdata ∅ Ex.I 10 data
  /\ setitem ∅ Ex.I (KeySlice (Some 10) (Some 21) None) data
     = Raise (ValueError "Not enough data.")
  /\ setitem ∅ Ex.I (KeySlice None None (Some 2)) data
     = Raise (ValueError "Can only set contiguous block of data.").
Proof.
  intros data.
  destruct (indexed_assignment ∅ Ex.I data ltac:(discriminate)
              ltac:(discriminate)) as (_ & _ & Hstep & _ & _ & Hslice).
  split; [|split].
  - apply (Hslice (Some 10) (Some 20) None); [by left | done | done].
  - apply (Hslice (Some 10) (Some 21) None); [by left | done | done].
  - apply (Hstep None None 2). lia.
Defined.

(** ** Further properties of texture.py *)

(** *** Formats and alignment *)

(** [get_format] returns for a 2D or 3D target only, and only for a shape
    of as many axes as the target has, where the format is luminance, or
    one more, where the last axis is the number of channels of the format,
    1 to 4; GL_ALPHA is never inferred. *)
Theorem get_format_table shape target format :
  get_format shape target = Ok format
  <-> (target = GL_TEXTURE_2D \/ target = GL_TEXTURE_3D)
      /\ ((Z.of_nat (length shape) = Texture.ndim_of target
           /\ format = GL_LUMINANCE)
          \/ (Z.of_nat (length shape) = Texture.ndim_of target + 1
              /\ channels_of format = Some (List.last shape 0))).
Proof.
  split.
  - destruct target; try done;
      destruct shape as [|a [|b [|c [|d [|e ?]]]]]; cbn; try done;
      repeat match goal with
             | |- context [Z.eqb ?x ?y] => destruct (Z.eqb_spec x y); subst
             end;
      intros [= <-]; split; auto; cbn; auto.
  - intros [[-> | ->] [[Hl ->] | [Hl Hc]]];
      destruct shape as [|a [|b [|c [|d [|e ?]]]]]; cbn in Hl; try lia;
      try done; cbn in Hc; destruct format; try discriminate;
      injection Hc as <-; reflexivity.
Qed.

(** [_get_alignment] never answers 8, although 8 is in its list: it is the
    largest of 4, 2 and 1 that divides the width. *)
Theorem alignment_divides width :
  let a := Texture._get_alignment width in
  (a = 4 \/ a = 2 \/ a = 1)
  /\ width mod a = 0
  /\ (width mod 4 = 0 -> a = 4)
  /\ (width mod 2 = 0 -> width mod 4 <> 0 -> a = 2).
Proof.
  unfold Texture._get_alignment.
  destruct (Z.eqb_spec (width mod 4) 0) as [H4|H4].
  { repeat split; auto; lia. }
  destruct (Z.eqb_spec (width mod 8) 0) as [H8|H8].
  { exfalso. apply H4. clear H4. revert H8. Z.div_mod_to_equations. lia. }
  destruct (Z.eqb_spec (width mod 2) 0) as [H2|H2].
  { repeat split; auto; lia. }
  repeat split; auto; try lia. apply Z.mod_1_r.
Qed.

(** *** What convert_data returns *)

Section Converted.

Variable ext_available : string -> bool.

Lemma eqb_scalar d n sz : Np.eqb d (Np.Scalar n sz) = true -> d = Np.Scalar n sz.
Proof.
  destruct d as [n' sz'| |]; cbn; try done.
  intros [Hn Hs]%andb_true_iff.
  apply String.eqb_eq in Hn. apply Z.eqb_eq in Hs. by subst.
Qed.

Ltac break_if :=
  repeat match goal with
         | |- context [if ?b then _ else _] => destruct b
         end.

Lemma prepare_attrs data clim d c :
  convert_prepare ext_available data clim = Ok (d, c) ->
  Np.arr_shape d = Np.arr_shape data
  /\ (Np.arr_dtype d = Np.arr_dtype data \/ Np.arr_dtype d = Np.uint8
      \/ Np.arr_dtype d = Np.float32).
Proof.
  unfold convert_prepare.
  destruct clim as [cl|];
    repeat match goal with
           | |- context [if ?b then _ else _] => destruct b
           | |- context [int_of_string ?s] => destruct (int_of_string s)
           end; cbn; try done; intros [= <- <-]; cbn; auto.
Qed.

Lemma limits_attrs d c d' :
  apply_limits d c = Ok d' ->
  Np.arr_shape d' = Np.arr_shape d /\ Np.arr_dtype d' = Np.arr_dtype d
  /\ Np.arr_id d' = Np.arr_id d.
Proof.
  unfold apply_limits. destruct c as [[lo hi]|]; [|by intros [= <-]].
  break_if; cbn; try done; by intros [= <-].
Qed.

Lemma finish_attrs d out :
  convert_finish ext_available d = Ok out ->
  Np.arr_shape out = Np.arr_shape d
  /\ (Np.arr_dtype out = Np.uint8
      \/ (Np.arr_dtype out = Np.float16
          /\ ext_available "texture_half_float" = true)
      \/ (Np.arr_dtype out = Np.float32
          /\ ext_available "texture_float" = true)).
Proof.
  unfold convert_finish.
  destruct (Np.eqb (Np.arr_dtype d) Np.uint8) eqn:E8.
  { intros [= <-]. apply eqb_scalar in E8. auto. }
  destruct (Np.eqb (Np.arr_dtype d) Np.float16) eqn:E16; cbn [andb orb].
  { apply eqb_scalar in E16.
    destruct (ext_available "texture_half_float") eqn:Eh.
    - intros [= <-]. auto.
    - rewrite E16. change (Np.eqb Np.float16 Np.float32) with false.
      cbn [andb]. intros [= <-]. auto. }
  destruct (Np.eqb (Np.arr_dtype d) Np.float32) eqn:E32; cbn [andb orb]; [|done].
  apply eqb_scalar in E32.
  destruct (ext_available "texture_float") eqn:Ef; intros [= <-]; auto.
Qed.

Lemma convert_stages data clim out :
  convert_data ext_available data clim = Ok out ->
  exists d c d',
    convert_prepare ext_available data clim = Ok (d, c)
    /\ apply_limits d c = Ok d'
    /\ convert_finish ext_available d' = Ok out.
Proof.
  unfold convert_data.
  destruct (convert_prepare ext_available data clim) as [[d c]|e]; [|done].
  rewrite bind_ok. cbn beta iota.
  destruct (apply_limits d c) as [d'|e] eqn:Hl; [|done].
  rewrite bind_ok. intros Hf. by exists d, c, d'.
Qed.

Lemma converted_gltype data clim out :
  convert_data ext_available data clim = Ok out ->
  is_Some (Np.assoc (Np.name (Np.arr_dtype out)) Texture.DTYPE2GTYPE).
Proof.
  intros (d & c & d' & _ & _ & Hf)%convert_stages.
  apply finish_attrs in Hf as [_ [-> | [[-> _] | [-> _]]]]; by eexists.
Qed.

(** Whatever [convert_data] returns can be uploaded: the result has the
    shape of the argument and a type of [Texture.DTYPE2GTYPE], uint8 or,
    only where the context has the extension for it, float16 or float32. *)
Theorem converted_is_uploadable data clim out :
  convert_data ext_available data clim = Ok out ->
  Np.arr_shape out = Np.arr_shape data
  /\ (Np.arr_dtype out = Np.uint8
      \/ (Np.arr_dtype out = Np.float16
          /\ ext_available "texture_half_float" = true)
      \/ (Np.arr_dtype out = Np.float32
          /\ ext_available "texture_float" = true))
  /\ is_Some (Np.assoc (Np.name (Np.arr_dtype out)) Texture.DTYPE2GTYPE).
Proof.
  intros (d & c & d' & Hp & Hl & Hf)%convert_stages.
  apply prepare_attrs in Hp as [Hs _].
  apply limits_attrs in Hl as (Hs' & _ & _).
  apply finish_attrs in Hf as [Hs'' Hd].
  split; [congruence|]. split; [exact Hd|].
  destruct Hd as [-> | [[-> _] | [-> _]]]; by eexists.
Qed.

(** Limits whose two ends are equal make [convert_data] divide by zero for
    every array it can prepare, an array of bool apart, whose limits are
    dropped. *)
Theorem equal_limits_divide data lo hi d c :
  Qeq lo hi ->
  Np.name (Np.arr_dtype data) <> "bool" ->
  convert_prepare ext_available data (Some (lo, hi)) = Ok (d, c) ->
  convert_data ext_available data (Some (lo, hi)) = Raise ZeroDivisionError.
Proof.
  intros Heq Hb Hp. unfold convert_data. rewrite Hp, bind_ok. cbn beta iota.
  assert (c = Some (lo, hi)) as ->.
  { revert Hp. unfold convert_prepare.
    destruct (String.eqb_spec (Np.name (Np.arr_dtype data)) "bool"); [done|].
    break_if; cbn; try done; by intros [= _ <-]. }
  assert (Qeq (Qminus hi lo) 0) as H0 by (rewrite Heq; ring).
  unfold apply_limits.
  assert (Qeq_bool (Qminus hi lo) 1 = false) as ->.
  { apply not_true_is_false. intros H1%Qeq_bool_iff.
    rewrite H0 in H1. discriminate. }
  rewrite (proj2 (Qeq_bool_iff _ _) H0). done.
Qed.

(** An array of bool comes back as uint8, whatever limits are given and
    whatever the context supports. *)
Theorem bool_becomes_uint8 data clim :
  Np.name (Np.arr_dtype data) = "bool" ->
  convert_data ext_available data clim = Ok (Np.astype_uint8 data).
Proof.
  intros Hb. unfold convert_data, convert_prepare. rewrite Hb. reflexivity.
Qed.

(** Without limits an array of int16, int32 or int64 is made float32 and
    gets the limits (-2^(bits-1), 2^(bits-1)-1); the array that is returned
    is a new object of the shape of the argument. *)
Theorem signed_limits data sz bits :
  (bits = 16 \/ bits = 32 \/ bits = 64) ->
  Np.arr_dtype data = Np.Scalar ("int" ++ pretty bits) sz ->
  convert_prepare ext_available data None
  = Ok (Np.astype data Np.float32,
        Some (inject_Z (- 2 ^ (bits - 1)), inject_Z (2 ^ (bits - 1) - 1))).
Proof.
  intros Hb Hd. unfold convert_prepare. rewrite Hd.
  destruct Hb as [-> | [-> | ->]]; reflexivity.
Qed.

End Converted.

Lemma converted_is_uploadable_witness :
  let data := Np.mk_ndarray 1 Ex.int8 [3] None
                [inject_Z (-128); inject_Z 0; inject_Z 127] in
  let out := Np.mk_ndarray 2 Np.float32 [3] None [0 # 255; 128 # 255; 255 # 255]%Q in
  Np.arr_shape out = Np.arr_shape data
  /\ (Np.arr_dtype out = Np.uint8
      \/ (Np.arr_dtype out = Np.float16
          /\ Dev.all_extensions "texture_half_float" = true)
      \/ (Np.arr_dtype out = Np.float32
          /\ Dev.all_extensions "texture_float" = true))
  /\ is_Some (Np.assoc (Np.name (Np.arr_dtype out)) Texture.DTYPE2GTYPE).
Proof.
  intros data out.
  apply (converted_is_uploadable Dev.all_extensions data None out).
  reflexivity.
Defined.

Lemma equal_limits_divide_witness :
  convert_data Dev.no_extensions (Ex.image 1 [2; 2]) (Some (3, 3)%Q)
  = Raise ZeroDivisionError.
Proof.
  apply (equal_limits_divide Dev.no_extensions (Ex.image 1 [2; 2]) 3%Q 3%Q
           (Np.astype (Ex.image 1 [2; 2]) Np.float32) (Some (3, 3)%Q)).
  - reflexivity.
  - vm_compute. discriminate.
  - reflexivity.
Defined.

Lemma bool_becomes_uint8_witness :
  let data := Np.mk_ndarray 1 (Np.Scalar "bool" 1) [2] None [1; 0]%Q in
  convert_data Dev.all_extensions data (Some (0, 0)%Q)
  = Ok (Np.astype_uint8 data).
Proof.
  intros data.
  apply (bool_becomes_uint8 Dev.all_extensions data (Some (0, 0)%Q)).
  reflexivity.
Defined.

Lemma signed_limits_witness :
  let data := Np.mk_ndarray 1 (Np.Scalar "int16" 2) [2] None
                [inject_Z (-32768); inject_Z 32767] in
  convert_prepare Dev.no_extensions data None
  = Ok (Np.astype data Np.float32, Some (inject_Z (-32768), inject_Z 32767)).
Proof.
  intros data.
  apply (signed_limits Dev.no_extensions data 2 16); [auto | reflexivity].
Defined.

(** *** The state of a texture *)

Lemma dict_get_set k v d : dict_get k (Texture.dict_set k v d) = Some v.
Proof.
  induction d as [|[k' v'] d IH]; cbn.
  - by rewrite bool_decide_eq_true_2.
  - destruct (decide (k = k')) as [->|Hne].
    + rewrite bool_decide_eq_true_2 by done. cbn.
      by rewrite bool_decide_eq_true_2.
    + rewrite bool_decide_eq_false_2 by done. cbn.
      by rewrite bool_decide_eq_false_2.
Qed.

Lemma dict_get_set_ne k k' v d :
  k' <> k -> dict_get k' (Texture.dict_set k v d) = dict_get k' d.
Proof.
  intros Hne. induction d as [|[k0 v0] d IH]; cbn.
  - by rewrite bool_decide_eq_false_2.
  - destruct (decide (k = k0)) as [->|Hk].
    + rewrite bool_decide_eq_true_2 by done. cbn.
      by rewrite !bool_decide_eq_false_2.
    + rewrite bool_decide_eq_false_2 by done. cbn. by rewrite IH.
Qed.

Lemma dict_get_put k k' v d :
  dict_get k' (match v with Some v => Texture.dict_set k v d | None => d end)
  = if bool_decide (k' = k) then overrides v (dict_get k' d) else dict_get k' d.
Proof.
  destruct (decide (k' = k)) as [->|Hne].
  - rewrite bool_decide_eq_true_2 by done. destruct v; [|done].
    apply dict_get_set.
  - rewrite bool_decide_eq_false_2 by done. destruct v; [|done].
    by apply dict_get_set_ne.
Qed.

(** [set_filter] and [set_wrapping] record each argument that is given
    under its key in both dicts, the parameters and the pending ones, and
    leave every other key, the data, the shape and the queue of the texture
    as they are. *)
Theorem parameters_recorded self :
  (forall mag min self', Texture.set_filter self mag min = Ok self' ->
     let after d :=
       fun k => if bool_decide (k = GL_TEXTURE_MIN_FILTER)
                then overrides min (dict_get k d)
                else if bool_decide (k = GL_TEXTURE_MAG_FILTER)
                then overrides mag (dict_get k d)
                else dict_get k d in
     (forall k, dict_get k (Texture._texture_params self')
                = after (Texture._texture_params self) k)
     /\ (forall k, dict_get k (Texture._pending_params self')
                   = after (Texture._pending_params self) k)
     /\ Texture._pending_data self' = Texture._pending_data self
     /\ Texture._pending_subdata self' = Texture._pending_subdata self
     /\ Texture._texture_shape self' = Texture._texture_shape self
     /\ Texture._need_update self' = true)
  /\ (forall x y z self', Texture.set_wrapping self x y z = Ok self' ->
       let after d :=
         fun k => if bool_decide (k = GL_TEXTURE_WRAP_R)
                  then overrides z (dict_get k d)
                  else if bool_decide (k = GL_TEXTURE_WRAP_T)
                  then overrides y (dict_get k d)
                  else if bool_decide (k = GL_TEXTURE_WRAP_S)
                  then overrides x (dict_get k d)
                  else dict_get k d in
       (forall k, dict_get k (Texture._texture_params self')
                  = after (Texture._texture_params self) k)
       /\ (forall k, dict_get k (Texture._pending_params self')
                     = after (Texture._pending_params self) k)
       /\ Texture._pending_data self' = Texture._pending_data self
       /\ Texture._pending_subdata self' = Texture._pending_subdata self
       /\ Texture._texture_shape self' = Texture._texture_shape self
       /\ Texture._need_update self' = true).
Proof.
  split.
  - intros mag min self'. unfold Texture.set_filter.
    destruct (Texture.in_enums mag _); [|by cbn].
    destruct (Texture.in_enums min _); [|by cbn].
    unfold assert. rewrite !bind_ok.
    intros [= <-]. cbn zeta.
    repeat split; try (by destruct mag, min).
    + intros k.
      transitivity
        (dict_get k
           (match min with
            | Some v => Texture.dict_set GL_TEXTURE_MIN_FILTER v
                          (match mag with
                           | Some v => Texture.dict_set GL_TEXTURE_MAG_FILTER v
                                         (Texture._texture_params self)
                           | None => Texture._texture_params self
                           end)
            | None => match mag with
                      | Some v => Texture.dict_set GL_TEXTURE_MAG_FILTER v
                                    (Texture._texture_params self)
                      | None => Texture._texture_params self
                      end
            end)); [by destruct mag, min|].
      rewrite dict_get_put.
      destruct (decide (k = GL_TEXTURE_MIN_FILTER)) as [->|Hk].
      * rewrite bool_decide_eq_true_2 by done.
        rewrite dict_get_put, bool_decide_eq_false_2 by discriminate; reflexivity.
      * rewrite bool_decide_eq_false_2 by done. by rewrite dict_get_put.
    + intros k.
      transitivity
        (dict_get k
           (match min with
            | Some v => Texture.dict_set GL_TEXTURE_MIN_FILTER v
                          (match mag with
                           | Some v => Texture.dict_set GL_TEXTURE_MAG_FILTER v
                                         (Texture._pending_params self)
                           | None => Texture._pending_params self
                           end)
            | None => match mag with
                      | Some v => Texture.dict_set GL_TEXTURE_MAG_FILTER v
                                    (Texture._pending_params self)
                      | None => Texture._pending_params self
                      end
            end)); [by destruct mag, min|].
      rewrite dict_get_put.
      destruct (decide (k = GL_TEXTURE_MIN_FILTER)) as [->|Hk].
      * rewrite bool_decide_eq_true_2 by done.
        rewrite dict_get_put, bool_decide_eq_false_2 by discriminate; reflexivity.
      * rewrite bool_decide_eq_false_2 by done. by rewrite dict_get_put.
  - intros x y z self'. unfold Texture.set_wrapping.
    destruct (Texture.in_enums x _); [|by cbn].
    destruct (Texture.in_enums y _); [|by cbn].
    destruct (Texture.in_enums z _); [|by cbn].
    unfold assert. rewrite !bind_ok.
    intros [= <-]. cbn zeta.
    pose (put := fun k (v : option gl_enum) d =>
                   match v with Some v => Texture.dict_set k v d | None => d end).
    assert (forall k d, dict_get k
              (put GL_TEXTURE_WRAP_R z (put GL_TEXTURE_WRAP_T y
                 (put GL_TEXTURE_WRAP_S x d)))
            = if bool_decide (k = GL_TEXTURE_WRAP_R)
              then overrides z (dict_get k d)
              else if bool_decide (k = GL_TEXTURE_WRAP_T)
              then overrides y (dict_get k d)
              else if bool_decide (k = GL_TEXTURE_WRAP_S)
              then overrides x (dict_get k d)
              else dict_get k d) as Hput.
    { intros k d. unfold put. rewrite dict_get_put.
      destruct (decide (k = GL_TEXTURE_WRAP_R)) as [->|Hr].
      { rewrite bool_decide_eq_true_2 by done.
        rewrite dict_get_put, bool_decide_eq_false_2 by discriminate.
        rewrite dict_get_put, bool_decide_eq_false_2 by discriminate; reflexivity. }
      rewrite bool_decide_eq_false_2 by done. rewrite dict_get_put.
      destruct (decide (k = GL_TEXTURE_WRAP_T)) as [->|Ht].
      { rewrite bool_decide_eq_true_2 by done.
        rewrite dict_get_put, bool_decide_eq_false_2 by discriminate; reflexivity. }
      rewrite bool_decide_eq_false_2 by done. by rewrite dict_get_put. }
    repeat split; try (by destruct x, y, z).
    + intros k. rewrite <- Hput. by destruct x, y, z.
    + intros k. rewrite <- Hput. by destruct x, y, z.
Qed.

Lemma parameters_recorded_witness :
  dict_get GL_TEXTURE_MAG_FILTER
    (Texture._texture_params
       (Texture.set__need_update
          (Texture.set__texture_params
             (Texture.set__pending_params Ex.T0
                [(GL_TEXTURE_MAG_FILTER, GL_NEAREST);
                 (GL_TEXTURE_MIN_FILTER, GL_LINEAR);
                 (GL_TEXTURE_WRAP_S, GL_CLAMP_TO_EDGE);
                 (GL_TEXTURE_WRAP_T, GL_CLAMP_TO_EDGE)])
             [(GL_TEXTURE_MAG_FILTER, GL_NEAREST);
              (GL_TEXTURE_MIN_FILTER, GL_LINEAR);
              (GL_TEXTURE_WRAP_S, GL_CLAMP_TO_EDGE);
              (GL_TEXTURE_WRAP_T, GL_CLAMP_TO_EDGE)]) true))
  = Some GL_NEAREST.
Proof.
  apply (proj1 (proj1 (parameters_recorded Ex.T0) (Some GL_NEAREST) None _
                  eq_refl) GL_TEXTURE_MAG_FILTER).
Defined.

(** [set_storage] that returns leaves the queue of sub-region writes as it
    is, where [set_data] empties it: either the texture is untouched, or a
    request for storage of the given shape, all of whose entries are
    positive, is pending and is the shape of the texture. *)
Theorem storage_keeps_regions self shape level format self' :
  Texture.set_storage self shape level format = Ok self' ->
  Texture._pending_subdata self' = Texture._pending_subdata self
  /\ Texture._texture_params self' = Texture._texture_params self
  /\ Texture._pending_params self' = Texture._pending_params self
  /\ Texture._handle self' = Texture._handle self
  /\ (self' = self
      \/ (Texture._pending_data self'
           = Some (Texture.mk_entry (Texture.Shape shape) None level format None)
          /\ Texture._texture_shape self' = Some shape
          /\ Texture._need_update self' = true
          /\ Texture.rank_ok shape (Texture.ndim_of (Texture._target self)) = true
          /\ Forall (fun i => 0 < i) shape
          /\ 0 <= level)).
Proof.
  unfold Texture.set_storage.
  match goal with |- context [if ?b then _ else _] => destruct b end.
  { intros [= <-]. auto 10. }
  destruct (Texture.rank_ok _ _) eqn:Hr; cbn; [|done].
  destruct (forallb _ shape) eqn:Hp; cbn; [|done].
  destruct (Z.leb_spec 0 level); cbn; [|done].
  destruct (Texture.format_ok format); cbn; [|done].
  intros [= <-]. cbn. repeat split. right. repeat split; [|done].
  apply Forall_forall. intros i Hi.
  rewrite forallb_forall in Hp. apply Z.ltb_lt, Hp. by apply list_elem_of_In.
Qed.

Lemma storage_keeps_regions_witness :
  let part := Texture.mk_entry (Texture.Data (Ex.image 2 [2; 2])) (Some [0; 0])
                0 None None in
  let self := Texture.set__pending_subdata (Ex.T1 (Ex.image 1 [4; 4])) [part] in
  exists self', Texture.set_storage self [8; 8] 0 None = Ok self'
                /\ Texture._pending_subdata self' = [part].
Proof.
  intros part self.
  assert (exists self', Texture.set_storage self [8; 8] 0 None = Ok self')
    as [self' H] by (vm_compute; eexists; reflexivity).
  exists self'. split; [exact H|].
  apply (storage_keeps_regions self [8; 8] 0 None self' H).
Defined.

(** [set_storage] with the shape alone does nothing, and checks nothing,
    where the leading axes of the shape are those of the texture: a shape
    of any length and with any further entries is accepted. *)
Theorem same_storage_is_noop self cur shape :
  Texture._texture_shape self = Some cur ->
  (let n := Z.to_nat (Texture.ndim_of (Texture._target self)) in
   take n cur = take n shape) ->
  Texture.set_storage self shape 0 None = Ok self.
Proof.
  intros Hs Ht. unfold Texture.set_storage. rewrite Hs. cbn zeta in Ht.
  by rewrite bool_decide_eq_true_2.
Qed.

Lemma same_storage_is_noop_witness :
  let self := Ex.T1 (Ex.image 1 [4; 4]) in
  Texture.set_storage self [4; 4; -7; 0; 9] 0 None = Ok self.
Proof.
  intros self. apply (same_storage_is_noop self [4; 4] [4; 4; -7; 0; 9]);
    reflexivity.
Defined.

(** A texture is made for the 2D and the 3D target only.  Made without
    data it has no handle, no shape and nothing queued, so every
    sub-region write is refused; linear filters and clamping to the edge,
    along the third axis only for a 3D texture, are recorded and pending. *)
Theorem new_texture_state target format clim :
  match Texture.__init__ target None format clim with
  | Ok self =>
      (target = GL_TEXTURE_2D \/ target = GL_TEXTURE_3D)
      /\ Texture._target self = target
      /\ Texture._handle self = 0
      /\ Texture._need_update self = true
      /\ Texture._pending_data self = None
      /\ Texture._texture_shape self = None
      /\ Texture._pending_subdata self = []
      /\ Texture._pending_params self = Texture._texture_params self
      /\ dict_get GL_TEXTURE_MAG_FILTER (Texture._texture_params self)
         = Some GL_LINEAR
      /\ dict_get GL_TEXTURE_MIN_FILTER (Texture._texture_params self)
         = Some GL_LINEAR
      /\ dict_get GL_TEXTURE_WRAP_S (Texture._texture_params self)
         = Some GL_CLAMP_TO_EDGE
      /\ dict_get GL_TEXTURE_WRAP_T (Texture._texture_params self)
         = Some GL_CLAMP_TO_EDGE
      /\ dict_get GL_TEXTURE_WRAP_R (Texture._texture_params self)
         = (if bool_decide (target = GL_TEXTURE_3D)
            then Some GL_CLAMP_TO_EDGE else None)
      /\ forall offset data level format clim,
           Texture.set_subdata self offset data level format clim
           = Raise (RuntimeError
                      "Cannot set subdata if there is not data or storage yet.")
  | Raise e =>
      target <> GL_TEXTURE_2D /\ target <> GL_TEXTURE_3D
      /\ e = ValueError "Unsupported target"
  end.
Proof.
  destruct target; vm_compute; repeat split; auto; discriminate.
Qed.

(** *** The calls of a flush *)

Section Calls.

Variable ext_available : string -> bool.
Variable device : Type.
Variable gl_apply : gl_call -> device -> device.
Variable gl_new_texture : device -> Z.
Variable gl_is_texture : device -> Z -> bool.

#[local] Existing Instance Texture.M_bind.

Local Abbreviation process :=
  (Texture._process_pending_data ext_available device gl_apply gl_new_texture
     gl_is_texture).
Local Abbreviation update :=
  (Texture._update ext_available device gl_apply gl_new_texture gl_is_texture).
Local Abbreviation replay := (gl_replay gl_apply).

Lemma run_bind {A B} (m : Texture.M device A) (k : A -> Texture.M device B)
    s a s' :
  m s = (Ok a, s') -> (m ≫= k) s = k a s'.
Proof. intros H. unfold mbind, Texture.M_bind. by rewrite H. Qed.

Lemma run_bind_raise {A B} (m : Texture.M device A)
    (k : A -> Texture.M device B) s e s' :
  m s = (Raise e, s') -> (m ≫= k) s = (Raise e, s').
Proof. intros H. unfold mbind, Texture.M_bind. by rewrite H. Qed.

Lemma replay_app calls1 calls2 d :
  replay (calls1 ++ calls2) d = replay calls2 (replay calls1 d).
Proof. apply fold_left_app. Qed.

Lemma run_gl c d tr :
  Texture.gl device gl_apply c (d, tr) = (Ok tt, (replay [c] d, tr ++ [c])).
Proof. reflexivity. Qed.

Lemma run_upload_ndim target s :
  target = GL_TEXTURE_2D \/ target = GL_TEXTURE_3D ->
  Texture.upload_ndim device target s = (Ok (Texture.ndim_of target), s).
Proof. by intros [-> | ->]. Qed.

Lemma run_apply_params target l d tr :
  Texture.apply_params device gl_apply target l (d, tr)
  = (Ok tt, (replay (param_calls target l) d, tr ++ param_calls target l)).
Proof.
  revert d tr. induction l as [|[param value] l IH]; intros d tr.
  - cbn. by rewrite app_nil_r.
  - cbn [Texture.apply_params]. erewrite run_bind by apply run_gl.
    rewrite IH. cbn. by rewrite <- app_assoc.
Qed.

Lemma run_upload_data self data format level gltype d tr :
  Texture._target self = GL_TEXTURE_2D \/ Texture._target self = GL_TEXTURE_3D ->
  Np.assoc (Np.name (Np.arr_dtype data)) Texture.DTYPE2GTYPE = Some gltype ->
  let calls := image_calls (Texture._target self) level format gltype data in
  Texture._upload_data device gl_apply self data format level (d, tr)
  = (Ok tt, (replay calls d, tr ++ calls)).
Proof.
  intros Ht Hg calls. unfold Texture._upload_data.
  erewrite run_bind by (by apply run_upload_ndim).
  rewrite Hg. unfold Texture._get_size_and_type. rewrite Hg.
  erewrite run_bind by reflexivity. cbn beta iota.
  subst calls. unfold image_calls. cbn zeta.
  destruct (Z.eqb _ 4); cbn [negb].
  - erewrite run_bind by reflexivity.
    erewrite run_bind by apply run_gl. reflexivity.
  - erewrite run_bind by apply run_gl.
    erewrite run_bind by apply run_gl.
    rewrite run_gl. cbn. by rewrite <- !app_assoc.
Qed.

(** [_upload_data] issues the image alone where the last axis of the data
    is a multiple of 4; otherwise it sets the unpack alignment before the
    image and sets it back to 4 after it.  For a type that is not in
    [DTYPE2GTYPE] it raises and issues nothing. *)
Theorem upload_restores_alignment self data format level d tr :
  Texture._target self = GL_TEXTURE_2D \/ Texture._target self = GL_TEXTURE_3D ->
  Np.arr_shape data <> [] ->
  let run := Texture._upload_data device gl_apply self data format level (d, tr) in
  let name := Np.name (Np.arr_dtype data) in
  match Np.assoc name Texture.DTYPE2GTYPE with
  | Some gltype =>
      let a := Texture._get_alignment (List.last (Np.arr_shape data) 0) in
      let size := rev (take (Z.to_nat (Texture.ndim_of (Texture._target self)))
                         (Np.arr_shape data)) in
      let image := glTexImage (Texture._target self) level format size gltype
                     (Some data) in
      let calls := if Z.eqb a 4 then [image]
                   else [glPixelStorei GL_UNPACK_ALIGNMENT a; image;
                         glPixelStorei GL_UNPACK_ALIGNMENT 4] in
      run = (Ok tt, (replay calls d, tr ++ calls))
  | None =>
      run = (Raise (TextureError ("Cannot translate datatype " ++ name ++ " to GL.")),
             (d, tr))
  end.
Proof.
  intros Ht _ run name.
  destruct (Np.assoc name Texture.DTYPE2GTYPE) as [gltype|] eqn:Hg.
  - by apply run_upload_data.
  - subst run. unfold Texture._upload_data.
    erewrite run_bind by (by apply run_upload_ndim).
    fold name. by rewrite Hg.
Qed.

Lemma run_process_full self e shape payload format calls d tr :
  Texture._target self = GL_TEXTURE_2D \/ Texture._target self = GL_TEXTURE_3D ->
  Texture._valid self = false ->
  Texture.truthy (Texture.e_offset e) = None ->
  (match Texture.e_data e with
   | Texture.Data data =>
       exists data' gltype,
         convert_data ext_available data (Texture.e_clim e) = Ok data'
         /\ Np.assoc (Np.name (Np.arr_dtype data')) Texture.DTYPE2GTYPE
            = Some gltype
         /\ shape = Np.arr_shape data'
         /\ payload = image_calls (Texture._target self) (Texture.e_level e)
                        format gltype data'
   | Texture.Shape shape' =>
       shape = shape'
       /\ payload = [glTexImage (Texture._target self) (Texture.e_level e) format
                       (rev (take (Z.to_nat (Texture.ndim_of (Texture._target self)))
                               shape'))
                       GL_UNSIGNED_BYTE None]
   end) ->
  format_of (Texture.e_format e) shape (Texture._target self) = Ok format ->
  calls = [glBindTexture (Texture._target self) (Texture._handle self)]
          ++ payload
          ++ param_calls (Texture._target self) (Texture._texture_params self) ->
  process self e (d, tr)
  = (Ok (Texture.set__pending_params self []), (replay calls d, tr ++ calls)).
Proof.
  intros Ht Hv Ho Hdata Hf ->. unfold Texture._process_pending_data.
  destruct (Texture.e_data e) as [data|shape'].
  - destruct Hdata as (data' & gltype & Hc & Hg & -> & ->).
    rewrite Hc.
    erewrite run_bind; cycle 1.
    { erewrite run_bind by reflexivity. reflexivity. }
    cbn beta iota.
    erewrite run_bind; cycle 1.
    { unfold format_of in Hf. destruct (Texture.e_format e).
      - injection Hf as ->. reflexivity.
      - unfold Texture.lift. by rewrite Hf. }
    rewrite Ho, Hv.
    assert (match Texture._texture_shape self with
            | Some texture_shape =>
                if bool_decide (Np.arr_shape data' = texture_shape) && false
                then Some (map (fun _ : Z => 0)
                             (take (Z.to_nat (Texture.ndim_of
                                                (Texture._target self)))
                                texture_shape))
                else Texture.e_offset e
            | None => Texture.e_offset e
            end = Texture.e_offset e) as ->.
    { destruct (Texture._texture_shape self); [|done].
      by rewrite andb_false_r. }
    rewrite Ho.
    erewrite run_bind by reflexivity.
    erewrite run_bind; cycle 1.
    { unfold Texture._activate. erewrite run_bind by apply run_gl. reflexivity. }
    erewrite run_bind by (by apply run_upload_data).
    erewrite run_bind by apply run_apply_params.
    unfold Texture.ret. by rewrite !replay_app, <- !app_assoc.
  - destruct Hdata as [-> ->].
    erewrite run_bind by reflexivity. cbn beta iota.
    erewrite run_bind; cycle 1.
    { unfold format_of in Hf. destruct (Texture.e_format e).
      - injection Hf as ->. reflexivity.
      - unfold Texture.lift. by rewrite Hf. }
    rewrite Ho, Hv.
    erewrite run_bind by reflexivity.
    erewrite run_bind; cycle 1.
    { unfold Texture._activate. erewrite run_bind by apply run_gl. reflexivity. }
    erewrite run_bind; cycle 1.
    { unfold Texture._allocate_storage.
      erewrite run_bind by (by apply run_upload_ndim). apply run_gl. }
    erewrite run_bind by apply run_apply_params.
    unfold Texture.ret. by rewrite !replay_app, <- !app_assoc.
Qed.

(** The flush of a texture that is not valid and has data pending and no
    sub-region queued, as [set_data] on a new texture leaves it: the
    texture is bound, the data is uploaded as [convert_data] returns it,
    whose type is always one of [DTYPE2GTYPE], and every recorded parameter
    is set, in the order of the dict.  If the handle is no texture then,
    the handle is made absent and the flush ends; otherwise the texture is
    bound once more, and no parameter is set a second time. *)
Theorem flush_of_data self data level format clim data' f d tr :
  Texture._target self = GL_TEXTURE_2D
  \/ (Texture._target self = GL_TEXTURE_3D
      /\ ext_available "GL_texture_3D" = true) ->
  Texture._valid self = false ->
  Texture._pending_data self
  = Some (Texture.mk_entry (Texture.Data data) None level format clim) ->
  Texture._pending_subdata self = [] ->
  Np.arr_shape data <> [] ->
  convert_data ext_available data clim = Ok data' ->
  format_of format (Np.arr_shape data') (Texture._target self) = Ok f ->
  exists gltype,
    Np.assoc (Np.name (Np.arr_dtype data')) Texture.DTYPE2GTYPE = Some gltype
    /\ let bind := glBindTexture (Texture._target self) (Texture._handle self) in
       let calls :=
         [bind]
         ++ image_calls (Texture._target self) level f gltype data'
         ++ param_calls (Texture._target self) (Texture._texture_params self) in
       let flushed :=
         Texture.set__pending_params (Texture.set__pending_data self None) [] in
       update self (d, tr)
       = if gl_is_texture (replay calls d) (Texture._handle self)
         then (Ok flushed, (replay (calls ++ [bind]) d, tr ++ calls ++ [bind]))
         else (Ok (Texture.set__handle flushed 0),
               (replay calls d, tr ++ calls)).
Proof.
  intros Ht Hv Hp Hq _ Hc Hf.
  destruct (converted_gltype _ _ _ _ Hc) as [gltype Hg].
  exists gltype. split; [exact Hg|]. intros bind calls flushed.
  assert (Texture._target self = GL_TEXTURE_2D
          \/ Texture._target self = GL_TEXTURE_3D) as Ht' by tauto.
  unfold Texture._update.
  assert (bool_decide (Texture._target self = GL_TEXTURE_3D)
          && negb (ext_available "GL_texture_3D") = false) as ->.
  { destruct Ht as [-> | [-> ->]]; [done|]. by rewrite andb_false_r. }
  rewrite Hp.
  assert (process (Texture.set__pending_data self None)
            (Texture.mk_entry (Texture.Data data) None level format clim) (d, tr)
          = (Ok flushed, (replay calls d, tr ++ calls))) as Hrun.
  { eapply (run_process_full _ _ (Np.arr_shape data')); try done.
    cbn. by exists data', gltype. }
  assert (Texture._handle flushed = Texture._handle self) as Hh by done.
  destruct (gl_is_texture (replay calls d) (Texture._handle self)) eqn:Hok.
  2:{ erewrite run_bind; cycle 1.
      { erewrite run_bind by exact Hrun.
        erewrite run_bind by reflexivity.
        unfold Texture.gl_IsTexture. rewrite Hh, Hok. reflexivity. }
      reflexivity. }
  erewrite run_bind; cycle 1.
  { erewrite run_bind by exact Hrun.
    erewrite run_bind by reflexivity.
    unfold Texture.gl_IsTexture. rewrite Hh, Hok. reflexivity. }
  cbn beta iota.
  change (Texture._pending_subdata flushed) with (Texture._pending_subdata self).
  rewrite Hq. cbn [Texture.drain_subdata].
  erewrite run_bind by reflexivity.
  erewrite run_bind; cycle 1.
  { unfold Texture.gl_IsTexture.
    change (Texture._handle (Texture.set__pending_subdata flushed []))
      with (Texture._handle self).
    rewrite Hok. reflexivity. }
  cbn [negb].
  erewrite run_bind; cycle 1.
  { unfold Texture._activate. erewrite run_bind by apply run_gl. reflexivity. }
  unfold Texture.drain_params.
  erewrite run_bind by apply run_apply_params.
  unfold Texture.ret.
  assert (Texture.set__pending_params (Texture.set__pending_subdata flushed []) []
          = flushed) as ->.
  { subst flushed. destruct self. cbn in *. by subst. }
  change (Texture._pending_params (Texture.set__pending_subdata flushed []))
    with (@nil (gl_enum * gl_enum)).
  change (Texture._target (Texture.set__pending_subdata flushed []))
    with (Texture._target self).
  change (Texture._handle (Texture.set__pending_subdata flushed []))
    with (Texture._handle self).
  fold bind. cbn [rev param_calls map].
  rewrite (replay_app calls [bind]), app_nil_r, <- app_assoc.
  reflexivity.
Qed.

(** A request for storage, processed for a texture that is not valid,
    binds the texture, allocates an image of unsigned bytes without data,
    of the format named or else of the format of the shape, and sets every
    recorded parameter; nothing is left pending. *)
Theorem storage_calls self shape level format f d tr :
  Texture._target self = GL_TEXTURE_2D \/ Texture._target self = GL_TEXTURE_3D ->
  Texture._valid self = false ->
  format_of format shape (Texture._target self) = Ok f ->
  let target := Texture._target self in
  let size := rev (take (Z.to_nat (Texture.ndim_of target)) shape) in
  let calls :=
    [glBindTexture target (Texture._handle self);
     glTexImage target level f size GL_UNSIGNED_BYTE None]
    ++ param_calls target (Texture._texture_params self) in
  process self (Texture.mk_entry (Texture.Shape shape) None level format None)
    (d, tr)
  = (Ok (Texture.set__pending_params self []), (replay calls d, tr ++ calls)).
Proof.
  intros Ht Hv Hf target size calls.
  by eapply (run_process_full _ _ shape).
Qed.

(** A sub-region write that is processed while the handle is absent, or
    is no texture once it is bound, raises after the one call that binds
    it: nothing is uploaded. *)
Theorem region_needs_texture self data offset level format clim data' f d tr :
  offset <> [] ->
  convert_data ext_available data clim = Ok data' ->
  format_of format (Np.arr_shape data') (Texture._target self) = Ok f ->
  let bind := glBindTexture (Texture._target self) (Texture._handle self) in
  Texture._handle self <= 0
  \/ gl_is_texture (replay [bind] d) (Texture._handle self) = false ->
  process self (Texture.mk_entry (Texture.Data data) (Some offset) level
                  format clim) (d, tr)
  = (Raise (TextureError "Cannot update texture if there is no texture."),
     (replay [bind] d, tr ++ [bind])).
Proof.
  intros Ho Hc Hf bind Hh. unfold Texture._process_pending_data.
  cbn [Texture.e_data Texture.e_clim Texture.e_offset Texture.e_format
       Texture.e_level].
  rewrite Hc.
  assert (Texture.truthy (Some offset) = Some offset) as Htr
    by (by destruct offset).
  erewrite run_bind; cycle 1.
  { erewrite run_bind by reflexivity. reflexivity. }
  cbn beta iota.
  erewrite run_bind; cycle 1.
  { unfold format_of in Hf. destruct format.
    - injection Hf as ->. reflexivity.
    - unfold Texture.lift. by rewrite Hf. }
  rewrite !Htr.
  erewrite run_bind by apply run_gl.
  erewrite run_bind by reflexivity.
  fold bind.
  assert ((Texture._handle self <=? 0)
          || negb (gl_is_texture (replay [bind] d) (Texture._handle self))
          = true) as ->; [|done].
  destruct Hh as [Hh | ->]; [|by rewrite orb_true_r].
  by rewrite (proj2 (Z.leb_le _ _) Hh).
Qed.

(** The flush of a texture with no data pending and nothing queued: if the
    handle is a texture it is bound and the pending parameters are set,
    the one recorded last first, and none is pending afterwards; if it is
    not, the flush raises and issues nothing. *)
Theorem parameters_flushed_last_first self d tr :
  (Texture._target self = GL_TEXTURE_3D -> ext_available "GL_texture_3D" = true) ->
  Texture._pending_data self = None ->
  Texture._pending_subdata self = [] ->
  let target := Texture._target self in
  let calls :=
    glBindTexture target (Texture._handle self)
    :: param_calls target (rev (Texture._pending_params self)) in
  update self (d, tr)
  = if gl_is_texture d (Texture._handle self)
    then (Ok (Texture.set__pending_params self []),
          (replay calls d, tr ++ calls))
    else (Raise (TextureError "This should not happen (texture is invalid)"),
          (d, tr)).
Proof.
  intros Ht Hp Hq target calls. unfold Texture._update.
  assert (bool_decide (Texture._target self = GL_TEXTURE_3D)
          && negb (ext_available "GL_texture_3D") = false) as ->.
  { destruct (decide (Texture._target self = GL_TEXTURE_3D)) as [H3|H3].
    - by rewrite (Ht H3), andb_false_r.
    - by rewrite bool_decide_eq_false_2. }
  rewrite Hp.
  erewrite run_bind by reflexivity. cbn beta iota.
  rewrite Hq. cbn [Texture.drain_subdata].
  erewrite run_bind by reflexivity.
  assert (Texture.set__pending_subdata self [] = self) as ->.
  { destruct self. cbn in *. by subst. }
  erewrite run_bind by reflexivity.
  destruct (gl_is_texture d (Texture._handle self)); cbn [negb]; [|done].
  erewrite run_bind; cycle 1.
  { unfold Texture._activate. erewrite run_bind by apply run_gl. reflexivity. }
  unfold Texture.drain_params.
  erewrite run_bind by apply run_apply_params.
  unfold Texture.ret. subst calls target.
  change (?a :: ?l) with ([a] ++ l) at 2 3.
  by rewrite replay_app, <- app_assoc.
Qed.

Lemma set_filter_target self mag min self' :
  Texture.set_filter self mag min = Ok self' ->
  Texture._target self' = Texture._target self.
Proof.
  unfold Texture.set_filter.
  destruct (Texture.in_enums mag _); [|by cbn].
  destruct (Texture.in_enums min _); [|by cbn].
  unfold assert. rewrite !bind_ok. intros [= <-]. by destruct mag, min.
Qed.

Lemma set_wrapping_target self x y z self' :
  Texture.set_wrapping self x y z = Ok self' ->
  Texture._target self' = Texture._target self.
Proof.
  unfold Texture.set_wrapping.
  destruct (Texture.in_enums x _); [|by cbn].
  destruct (Texture.in_enums y _); [|by cbn].
  destruct (Texture.in_enums z _); [|by cbn].
  unfold assert. rewrite !bind_ok. intros [= <-]. by destruct x, y, z.
Qed.

Lemma set_data_target self data level format clim self' :
  Texture.set_data self data level format clim = Ok self' ->
  Texture._target self' = Texture._target self.
Proof.
  unfold Texture.set_data.
  destruct (Texture.rank_ok _ _); cbn; [|done].
  destruct (Z.leb 0 level); cbn; [|done].
  destruct (Texture.format_ok format); cbn; [|done].
  by intros [= <-].
Qed.

Lemma set_storage_target self shape level format self' :
  Texture.set_storage self shape level format = Ok self' ->
  Texture._target self' = Texture._target self.
Proof.
  unfold Texture.set_storage.
  match goal with |- context [if ?b then _ else _] => destruct b end.
  { by intros [= <-]. }
  destruct (Texture.rank_ok _ _); cbn; [|done].
  destruct (forallb _ shape); cbn; [|done].
  destruct (Z.leb 0 level); cbn; [|done].
  destruct (Texture.format_ok format); cbn; [|done].
  by intros [= <-].
Qed.

Lemma init_target target data format clim self :
  Texture.__init__ target data format clim = Ok self ->
  Texture._target self = target.
Proof.
  unfold Texture.__init__.
  destruct (negb _); [done|].
  unfold GLObject.__init__. cbn beta iota zeta.
  destruct (Texture.set_filter _ _ _) as [self1|] eqn:H1; [|done].
  rewrite bind_ok. apply set_filter_target in H1.
  match goal with
  | |- context [mbind _ ?m] => destruct m as [self2|] eqn:H2; [|done]
  end.
  rewrite bind_ok.
  assert (Texture._target self2 = target) as H2'.
  { destruct (bool_decide (target = GL_TEXTURE_3D));
      apply set_wrapping_target in H2; by rewrite H2, H1. }
  destruct data as [[data|shape]|].
  - intros H%set_data_target. congruence.
  - intros H%set_storage_target. congruence.
  - intros [= <-]. exact H2'.
Qed.

(** A 3D texture, however it is made, cannot be flushed in a context
    without the 3D extension: the flush raises before any call, whatever
    is pending. *)
Theorem flush_needs_extension data format clim self s :
  Texture.Texture3D data format clim = Ok self ->
  ext_available "GL_texture_3D" = false ->
  update self s = (Raise (TextureError "3D Texture not available."), s).
Proof.
  intros Hi He. apply init_target in Hi.
  unfold Texture._update. by rewrite Hi, He.
Qed.

Lemma converted_shape data clim out :
  convert_data ext_available data clim = Ok out ->
  Np.arr_shape out = Np.arr_shape data.
Proof.
  intros (d0 & c & d' & Hp & Hl & Hf)%convert_stages.
  apply prepare_attrs in Hp as [Hs _].
  apply limits_attrs in Hl as (Hs' & _ & _).
  apply finish_attrs in Hf as [Hs'' _]. congruence.
Qed.

(** A sub-region write as [set_subdata] accepts it, with an offset of as
    many entries as the target has axes and data of that rank or one more,
    processed for a handle that is a texture: the texture is bound and one
    sub-image is uploaded, whose offset and size are those of the write in
    reverse order, x first; the texture itself is left as it is. *)
Theorem region_calls self data offset level format clim data' f d tr :
  Texture._target self = GL_TEXTURE_2D \/ Texture._target self = GL_TEXTURE_3D ->
  Z.of_nat (length offset) = Texture.ndim_of (Texture._target self) ->
  Texture.rank_ok (Np.arr_shape data) (Texture.ndim_of (Texture._target self))
  = true ->
  convert_data ext_available data clim = Ok data' ->
  format_of format (Np.arr_shape data') (Texture._target self) = Ok f ->
  let target := Texture._target self in
  let bind := glBindTexture target (Texture._handle self) in
  0 < Texture._handle self ->
  gl_is_texture (replay [bind] d) (Texture._handle self) = true ->
  exists gltype,
    Np.assoc (Np.name (Np.arr_dtype data')) Texture.DTYPE2GTYPE = Some gltype
    /\ let size := rev (take (Z.to_nat (Texture.ndim_of target))
                          (Np.arr_shape data')) in
       let calls :=
         [bind; glTexSubImage target level (rev offset) size f gltype data'] in
       process self (Texture.mk_entry (Texture.Data data) (Some offset) level
                       format clim) (d, tr)
       = (Ok self, (replay calls d, tr ++ calls)).
Proof.
  intros Ht Ho Hr Hc Hf target bind Hh Hok.
  destruct (converted_gltype _ _ _ _ Hc) as [gltype Hg].
  exists gltype. split; [exact Hg|]. intros size calls.
  pose proof (converted_shape _ _ _ Hc) as Hs.
  assert (length offset = length size) as Hlen.
  { subst size. unfold target. rewrite length_rev, length_take, Hs.
    revert Ho Hr. unfold Texture.rank_ok. rewrite orb_true_iff, !Z.eqb_eq.
    destruct Ht as [Ht' | Ht']; rewrite Ht'; cbn [Texture.ndim_of]; lia. }
  assert (Texture.truthy (Some offset) = Some offset) as Htr.
  { destruct offset; [|done]. cbn in Ho. destruct Ht as [Ht | Ht];
      rewrite Ht in Ho; cbn in Ho; lia. }
  unfold Texture._process_pending_data.
  cbn [Texture.e_data Texture.e_clim Texture.e_offset Texture.e_format
       Texture.e_level].
  rewrite Hc.
  erewrite run_bind; cycle 1.
  { erewrite run_bind by reflexivity. reflexivity. }
  cbn beta iota.
  erewrite run_bind; cycle 1.
  { unfold format_of in Hf. destruct format.
    - injection Hf as ->. reflexivity.
    - unfold Texture.lift. by rewrite Hf. }
  rewrite !Htr.
  erewrite run_bind by apply run_gl.
  erewrite run_bind by reflexivity.
  fold target. fold bind. rewrite Hok.
  rewrite (proj2 (Z.leb_gt _ _) Hh). cbn [negb orb].
  erewrite run_bind; cycle 1.
  { unfold Texture._upload_subdata.
    erewrite run_bind by (by apply run_upload_ndim).
    unfold Texture._get_size_and_type. rewrite Hg.
    erewrite run_bind by reflexivity. cbn beta iota.
    fold target. fold size.
    erewrite run_bind; cycle 1.
    { unfold Texture.lift. rewrite bool_decide_eq_true_2; [reflexivity|].
      by rewrite length_rev. }
    apply run_gl. }
  unfold Texture.ret. subst calls.
  change [bind; ?c] with ([bind] ++ [c]).
  by rewrite replay_app, <- app_assoc.
Qed.

End Calls.

Lemma upload_restores_alignment_witness :
  Texture._upload_data Dev.device Dev.gl_apply Ex.T0 (Ex.image 1 [2; 3])
    GL_LUMINANCE 0 (Dev.init, [])
  = (Ok tt,
     (Dev.init,
      [glPixelStorei GL_UNPACK_ALIGNMENT 1;
       glTexImage GL_TEXTURE_2D 0 GL_LUMINANCE [3; 2] GL_UNSIGNED_BYTE
         (Some (Ex.image 1 [2; 3]));
       glPixelStorei GL_UNPACK_ALIGNMENT 4])).
Proof.
  refine (upload_restores_alignment Dev.device Dev.gl_apply Ex.T0
            (Ex.image 1 [2; 3]) GL_LUMINANCE 0 Dev.init [] _ _).
  - left. reflexivity.
  - discriminate.
Defined.

Lemma flush_of_data_witness :
  let data := Ex.image 1 [4; 4] in
  let self := Texture.set__handle (Ex.T1 data) 1 in
  snd (snd (Texture._update Dev.all_extensions Dev.device Dev.gl_apply
              Dev.gl_new_texture Dev.gl_is_texture self (Dev.init, [])))
  = [glBindTexture GL_TEXTURE_2D 1;
     glTexImage GL_TEXTURE_2D 0 GL_LUMINANCE [4; 4] GL_UNSIGNED_BYTE (Some data);
     glTexParameter GL_TEXTURE_2D GL_TEXTURE_MAG_FILTER GL_LINEAR;
     glTexParameter GL_TEXTURE_2D GL_TEXTURE_MIN_FILTER GL_LINEAR;
     glTexParameter GL_TEXTURE_2D GL_TEXTURE_WRAP_S GL_CLAMP_TO_EDGE;
     glTexParameter GL_TEXTURE_2D GL_TEXTURE_WRAP_T GL_CLAMP_TO_EDGE;
     glBindTexture GL_TEXTURE_2D 1].
Proof.
  intros data self.
  destruct (flush_of_data Dev.all_extensions Dev.device Dev.gl_apply
              Dev.gl_new_texture Dev.gl_is_texture self data 0 None None data
              GL_LUMINANCE Dev.init [])
    as (gltype & Hg & Hrun);
    [left; reflexivity | reflexivity | reflexivity | reflexivity
     | discriminate | reflexivity | reflexivity |].
  vm_compute in Hg. injection Hg as <-.
  cbv zeta in Hrun. rewrite Hrun. reflexivity.
Defined.

Lemma storage_calls_witness :
  Texture._process_pending_data Dev.no_extensions Dev.device Dev.gl_apply
    Dev.gl_new_texture Dev.gl_is_texture Ex.T0
    (Texture.mk_entry (Texture.Shape [4; 4; 3]) None 0 None None) (Dev.init, [])
  = (Ok (Texture.set__pending_params Ex.T0 []),
     (Dev.init,
      [glBindTexture GL_TEXTURE_2D 0;
       glTexImage GL_TEXTURE_2D 0 GL_RGB [4; 4] GL_UNSIGNED_BYTE None;
       glTexParameter GL_TEXTURE_2D GL_TEXTURE_MAG_FILTER GL_LINEAR;
       glTexParameter GL_TEXTURE_2D GL_TEXTURE_MIN_FILTER GL_LINEAR;
       glTexParameter GL_TEXTURE_2D GL_TEXTURE_WRAP_S GL_CLAMP_TO_EDGE;
       glTexParameter GL_TEXTURE_2D GL_TEXTURE_WRAP_T GL_CLAMP_TO_EDGE])).
Proof.
  refine (storage_calls Dev.no_extensions Dev.device Dev.gl_apply
            Dev.gl_new_texture Dev.gl_is_texture Ex.T0 [4; 4; 3] 0 None GL_RGB
            Dev.init [] _ _ _).
  - left. reflexivity.
  - reflexivity.
  - reflexivity.
Defined.

Lemma region_needs_texture_witness :
  Texture._process_pending_data Dev.all_extensions Dev.device Dev.gl_apply
    Dev.gl_new_texture Dev.gl_is_texture (Ex.T1 (Ex.image 1 [4; 4]))
    (Texture.mk_entry (Texture.Data (Ex.image 2 [2; 2])) (Some [0; 0]) 0 None
       None) (Dev.init, [])
  = (Raise (TextureError "Cannot update texture if there is no texture."),
     (Dev.init, [glBindTexture GL_TEXTURE_2D 0])).
Proof.
  refine (region_needs_texture Dev.all_extensions Dev.device Dev.gl_apply
            Dev.gl_new_texture Dev.gl_is_texture (Ex.T1 (Ex.image 1 [4; 4]))
            (Ex.image 2 [2; 2]) [0; 0] 0 None None (Ex.image 2 [2; 2])
            GL_LUMINANCE Dev.init [] _ _ _ _).
  - discriminate.
  - reflexivity.
  - reflexivity.
  - left. reflexivity.
Defined.

Lemma parameters_flushed_last_first_witness :
  let self := Texture.set__handle Ex.T0 1 in
  let d := Dev.mk 2 [1] in
  Texture._update Dev.no_extensions Dev.device Dev.gl_apply Dev.gl_new_texture
    Dev.gl_is_texture self (d, [])
  = (Ok (Texture.set__pending_params self []),
     (Dev.mk 2 [1; 1],
      [glBindTexture GL_TEXTURE_2D 1;
       glTexParameter GL_TEXTURE_2D GL_TEXTURE_WRAP_T GL_CLAMP_TO_EDGE;
       glTexParameter GL_TEXTURE_2D GL_TEXTURE_WRAP_S GL_CLAMP_TO_EDGE;
       glTexParameter GL_TEXTURE_2D GL_TEXTURE_MIN_FILTER GL_LINEAR;
       glTexParameter GL_TEXTURE_2D GL_TEXTURE_MAG_FILTER GL_LINEAR])).
Proof.
  intros self d.
  refine (parameters_flushed_last_first Dev.no_extensions Dev.device
            Dev.gl_apply Dev.gl_new_texture Dev.gl_is_texture self d [] _ _ _).
  - discriminate.
  - reflexivity.
  - reflexivity.
Defined.

Lemma flush_needs_extension_witness :
  match Texture.Texture3D (Some (Texture.Shape [2; 2; 2])) None None with
  | Ok self =>
      Texture._update Dev.no_extensions Dev.device Dev.gl_apply
        Dev.gl_new_texture Dev.gl_is_texture self (Dev.init, [])
      = (Raise (TextureError "3D Texture not available."), (Dev.init, []))
  | Raise _ => False
  end.
Proof.
  destruct (Texture.Texture3D (Some (Texture.Shape [2; 2; 2])) None None)
    as [self|e] eqn:H; [|vm_compute in H; discriminate].
  apply (flush_needs_extension Dev.no_extensions Dev.device Dev.gl_apply
           Dev.gl_new_texture Dev.gl_is_texture
           (Some (Texture.Shape [2; 2; 2])) None None self (Dev.init, []) H).
  reflexivity.
Defined.

Lemma region_calls_witness :
  let part := Ex.image 2 [2; 3] in
  let self := Texture.set__handle (Ex.T1 (Ex.image 1 [4; 4])) 1 in
  Texture._process_pending_data Dev.all_extensions Dev.device Dev.gl_apply
    Dev.gl_new_texture Dev.gl_is_texture self
    (Texture.mk_entry (Texture.Data part) (Some [1; 0]) 0 None None)
    (Dev.init, [])
  = (Ok self,
     (Dev.mk 1 [1],
      [glBindTexture GL_TEXTURE_2D 1;
       glTexSubImage GL_TEXTURE_2D 0 [0; 1] [3; 2] GL_LUMINANCE
         GL_UNSIGNED_BYTE part])).
Proof.
  intros part self.
  destruct (region_calls Dev.all_extensions Dev.device Dev.gl_apply
              Dev.gl_new_texture Dev.gl_is_texture self part [1; 0] 0 None None
              part GL_LUMINANCE Dev.init [])
    as (gltype & Hg & Hrun);
    [left; reflexivity | reflexivity | reflexivity | reflexivity
     | reflexivity | reflexivity | reflexivity |].
  vm_compute in Hg. injection Hg as <-. exact Hrun.
Defined.

(** *** Client buffers *)

(** A client buffer is made from an array only.  Its constructor queues
    the array for upload as the constructor of any buffer does; an indexed
    assignment to it does nothing, and indexing it returns [None]. *)
Theorem client_buffers k :
  k = ClientVertexBuffer \/ k = ClientElementBuffer ->
  (forall data, (forall a, data <> InitArray a) ->
     exists msg, new k data = Raise (ValueError msg))
  /\ forall data self, new k (InitArray data) = Ok self ->
       let data' := VertexBuffer.unwrap_array data in
       __class__ self = k
       /\ _pending_data self = [(data', Np.nbytes data', 0)]
       /\ (forall h key d, setitem h self key d = Ok self)
       /\ (forall h l key, h !! l = Some self -> getitem h l key = Ok None).
Proof.
  intros Hk. split.
  - intros data Hd. destruct Hk as [-> | ->];
      (destruct data as [a| |]; [by destruct (Hd a) | |]); by eexists.
  - intros data self Hn data'.
    assert (exists target, DataBuffer.__init__ k (InitArray data) target = Ok self)
      as [target Hi] by (destruct Hk as [-> | ->]; by eexists).
    apply init_array_ok in Hi as (Hv & dt & vs & st & ct & _ & Hd & _).
    apply set_data_ok in Hd as (dt' & ct' & _ & _ & ->); [|done].
    destruct (set_count_set_data_attrs
                (DataBuffer.fresh k target dt vs st ct) ct'
                (VertexBuffer.unwrap_array data))
      as (_ & _ & Hpd & Hcl & _).
    cbn zeta in Hpd, Hcl. change (__class__ (DataBuffer.fresh k target dt vs st ct))
      with k in Hcl.
    split; [by rewrite <- Hcl|]. split; [exact Hpd|]. split.
    + intros h key d. unfold setitem. rewrite <- Hcl.
      by destruct Hk as [-> | ->].
    + intros h l key Hl. unfold getitem. rewrite Hl, <- Hcl.
      by destruct Hk as [-> | ->].
Qed.

Lemma client_buffers_witness :
  exists self, new ClientVertexBuffer (InitArray Ex.P) = Ok self
               /\ setitem ∅ self KeyEllipsis Ex.P = Ok self
               /\ new ClientElementBuffer InitOther
                  = Raise (ValueError "ClientElementBuffer needs a numpy array.").
Proof.
  assert (exists self, new ClientVertexBuffer (InitArray Ex.P) = Ok self)
    as [self H] by (vm_compute; eexists; reflexivity).
  exists self. split; [exact H|]. split; [|reflexivity].
  apply (proj2 (client_buffers ClientVertexBuffer (or_introl eq_refl)) Ex.P self H).
Defined.
